(** * QuickSessions: templates, settings and their storage

    A shallow embedding of the storage service, the validator, the tab
    service and the template manager of the QuickSessions extension, and
    the properties of them that its specification states.

    JavaScript values that the code inspects dynamically (with [typeof],
    truthiness, [||]) are kept dynamic ([jsval]); objects with a fixed set of
    keys are records of such values; arrays are lists.  A string is the
    sequence of its code units, restricted to one-byte units.  Numbers are
    the integers among the IEEE doubles: the code counts and compares them,
    and its one addition rounds as the doubles do ([to_double]). *)

From Stdlib Require Import ZArith Ascii String List Lia.
From stdpp Require Import base decidable option list numbers strings pretty.

Local Open Scope string_scope.
Local Open Scope list_scope.
Local Open Scope Z_scope.

(** ** JavaScript values *)

Inductive jsval : Type :=
  | JUndefined
  | JNull
  | JBool (b : bool)
  | JNum (n : Z)
  | JStr (s : string).

#[global] Instance jsval_eq_dec : EqDecision jsval.
Proof. solve_decision. Defined.

(** [!!v]: undefined, null, false, 0 and the empty string are falsy. *)
Definition truthy (v : jsval) : bool :=
  match v with
  | JUndefined | JNull => false
  | JBool b => b
  | JNum n => negb (Z.eqb n 0)
  | JStr s => negb (String.eqb s "")
  end.

Definition is_string (v : jsval) : bool :=
  match v with JStr _ => true | _ => false end.

Definition is_number (v : jsval) : bool :=
  match v with JNum _ => true | _ => false end.

Definition is_boolean (v : jsval) : bool :=
  match v with JBool _ => true | _ => false end.

(** [a || b] *)
Definition js_or (a b : jsval) : jsval := if truthy a then a else b.

(** [String(v)], as a template literal applies it. *)
Definition js_to_string (v : jsval) : string :=
  match v with
  | JUndefined => "undefined"
  | JNull => "null"
  | JBool true => "true"
  | JBool false => "false"
  | JNum n => pretty n
  | JStr s => s
  end.

(** [Number(v)] for the operands [+] meets below; a string that is not a
    numeral would be NaN and never reaches [js_add]'s numeric branch. *)
Definition js_to_number (v : jsval) : Z :=
  match v with
  | JBool true => 1
  | JNum n => n
  | _ => 0
  end.

(** The double nearest to the integer [x], a tie going to the even
    significand.  Every integer up to 2^53 in magnitude is a double; above,
    the doubles are the multiples of [2 ^ e] that have a significand [q] of
    53 bits, and [x] lies between two of them. *)
Definition to_double (x : Z) : Z :=
  let m := Z.abs x in
  if (m <=? 2 ^ 53)%Z then x
  else
    let e := (Z.log2 m - 52)%Z in
    let q := (m / 2 ^ e)%Z in
    let r := (m mod 2 ^ e)%Z in
    let half := (2 ^ (e - 1))%Z in
    let q' :=
      if (r <? half)%Z then q
      else if (half <? r)%Z then (q + 1)%Z
      else if Z.even q then q else (q + 1)%Z in
    (Z.sgn x * (q' * 2 ^ e))%Z.

(** [a + b]: concatenation as soon as one operand is a string, addition of
    doubles for booleans, null and numbers otherwise: the exact sum,
    rounded.  The code applies it to a truthy value or 0 on the left and 1
    on the right, so undefined (NaN under addition) does not occur, and the
    sum stays within the range of the doubles. *)
Definition js_add (a b : jsval) : jsval :=
  match a, b with
  | JStr s, _ => JStr (s +:+ js_to_string b)
  | _, JStr s => JStr (js_to_string a +:+ s)
  | _, _ => JNum (to_double (js_to_number a + js_to_number b))
  end.

(** ** Strings *)

(** White space and line terminators among the one-byte code units. *)
Definition is_ws (c : ascii) : bool :=
  let n := nat_of_ascii c in
  ((9 <=? n)%nat && (n <=? 13)%nat) || (n =? 32)%nat || (n =? 160)%nat.

Fixpoint trimStart (s : string) : string :=
  match s with
  | EmptyString => EmptyString
  | String c s' => if is_ws c then trimStart s' else s
  end.

Fixpoint trimEnd (s : string) : string :=
  match s with
  | EmptyString => EmptyString
  | String c s' =>
      match trimEnd s' with
      | EmptyString => if is_ws c then EmptyString else String c EmptyString
      | t => String c t
      end
  end.

Definition trim (s : string) : string := trimEnd (trimStart s).

(** [s.replace(/[<>]/g, '')] *)
Fixpoint strip_angle (s : string) : string :=
  match s with
  | EmptyString => EmptyString
  | String c s' =>
      if (Ascii.eqb c "<" || Ascii.eqb c ">")%bool then strip_angle s'
      else String c (strip_angle s')
  end.

Definition startsWith (s p : string) : bool := String.prefix p s.

Definition str_len (s : string) : Z := Z.of_nat (String.length s).

(** ** Constants (utils/constants.js) *)

Module UI.
Definition MAX_TEMPLATE_NAME_LENGTH : Z := 50.
Definition MAX_DESCRIPTION_LENGTH : Z := 200.
Definition MAX_URL_LENGTH : Z := 2048.
End UI.

Module TEMPLATE.
Definition DEFAULT_COLOR : string := "#4285F4".
(** The default icon is an emoji outside the one-byte range; its name
    stands for it. *)
Definition DEFAULT_ICON : string := ":bookmark_tabs:".
Definition MAX_TABS : Z := 100.
End TEMPLATE.

Module MESSAGES.
Definition ERROR_NO_TABS : string := "No tabs to save".
End MESSAGES.

Module APP_INFO.
Definition DATA_VERSION : string := "1.0.0".
End APP_INFO.

(** ** Data model *)

Record Tab : Type := mkTab {
  url : jsval;
  title : jsval;
  favicon : jsval
}.

Record Template : Type := mkTemplate {
  id : jsval;
  name : jsval;
  description : jsval;
  color : jsval;
  icon : jsval;
  tabs : list Tab;
  createdAt : jsval;
  lastUsedAt : jsval;
  usageCount : jsval
}.

Record Settings : Type := mkSettings {
  startupBehavior : jsval;
  defaultTemplateId : jsval;
  openBehavior : jsval;
  closeExistingTabs : jsval;
  sortBy : jsval;
  sortOrder : jsval;
  theme : jsval;
  showFavicons : jsval;
  confirmDelete : jsval
}.

#[global] Instance Tab_eq_dec : EqDecision Tab.
Proof. solve_decision. Defined.

#[global] Instance Template_eq_dec : EqDecision Template.
Proof. solve_decision. Defined.

#[global] Instance Settings_eq_dec : EqDecision Settings.
Proof. solve_decision. Defined.

Definition DEFAULT_SETTINGS : Settings :=
  {| startupBehavior := JStr "none";
     defaultTemplateId := JNull;
     openBehavior := JStr "new_window";
     closeExistingTabs := JBool false;
     sortBy := JStr "lastUsed";
     sortOrder := JStr "desc";
     theme := JStr "auto";
     showFavicons := JBool true;
     confirmDelete := JBool true |}.

(** The three keys of [chrome.storage.sync]; [None] is an absent key. *)
Record Storage : Type := mkStorage {
  TEMPLATES : option (list Template);
  SETTINGS : option Settings;
  VERSION : option string
}.

(** ** What the JavaScript host provides

    The URL parser, the date parser and printer and the storage accounting
    belong to the browser; the code is verified for any of them. *)

Class Host : Type := {
  (** [new URL(s)]: its [protocol] and [hostname], [None] when it throws. *)
  URL_parse : string -> option (string * string);
  (** [Date.parse(s)] in milliseconds, [None] for NaN. *)
  Date_parse : string -> option Z;
  (** [new Date(t).toISOString()] *)
  toISOString : Z -> string;
  (** [chrome.storage.sync.getBytesInUse()] of a given content. *)
  bytesInUse : Storage -> Z;
  QUOTA_BYTES : Z
}.

(** ** Validator (utils/validator.js) *)

(** The [{ isValid, error }] object every validator returns.

    Each validator of an object starts with [!x || typeof x !== 'object'],
    and [validateTemplate] asks [Array.isArray(template.tabs)]: the
    arguments are records and lists here, for which these checks pass. *)
Record Validation : Type := mkValidation {
  isValid : bool;
  error : option string
}.

Definition valid : Validation := {| isValid := true; error := None |}.
Definition invalid (msg : string) : Validation :=
  {| isValid := false; error := Some msg |}.

(** The message of [new Error(validation.error)]. *)
Definition error_message (v : Validation) : string :=
  match error v with Some msg => msg | None => "null" end.

Section Validator.
Context `{H : Host}.

Definition validateUrl (url : jsval) : Validation :=
  match url with
  | JStr s =>
      if negb (truthy url) then invalid "URL is required"
      else if (str_len s >? UI.MAX_URL_LENGTH)%Z then invalid "URL is too long"
      else match URL_parse s with
           | Some (protocol, _) =>
               if negb (bool_decide (protocol ∈ ["http:"; "https:"]))
               then invalid "URL must use http or https protocol"
               else valid
           | None => invalid "Invalid URL format"
           end
  | _ => invalid "URL is required"
  end.

Definition validateTemplateName (name : jsval) : Validation :=
  match name with
  | JStr s =>
      if negb (truthy name) then invalid "Template name is required"
      else
        let trimmedName := trim s in
        if (str_len trimmedName =? 0)%Z
        then invalid "Template name cannot be empty"
        else if (str_len trimmedName >? UI.MAX_TEMPLATE_NAME_LENGTH)%Z
        then invalid ("Template name must be "
                        +:+ pretty UI.MAX_TEMPLATE_NAME_LENGTH
                        +:+ " characters or less")
        else valid
  | _ => invalid "Template name is required"
  end.

Definition validateDescription (description : jsval) : Validation :=
  if negb (truthy description) then valid
  else match description with
       | JStr s =>
           if (str_len s >? UI.MAX_DESCRIPTION_LENGTH)%Z
           then invalid ("Description must be "
                           +:+ pretty UI.MAX_DESCRIPTION_LENGTH
                           +:+ " characters or less")
           else valid
       | _ => invalid "Description must be a string"
       end.

Definition validateTab (tab : Tab) : Validation :=
  let urlValidation := validateUrl (url tab) in
  if negb (isValid urlValidation) then urlValidation
  else if negb (truthy (title tab)) || negb (is_string (title tab))
  then invalid "Tab title is required"
  else valid.

(** [new Date(v)]: the time value, [None] for an Invalid Date. *)
Definition Date_of (v : jsval) : option Z :=
  match v with
  | JUndefined => None
  | JNull => Some 0
  | JBool b => Some (if b then 1 else 0)
  | JNum n => if (Z.abs n <=? 8640000000000000)%Z then Some n else None
  | JStr s => Date_parse s
  end.

Definition isValidDate (dateString : jsval) : bool :=
  match Date_of dateString with Some _ => true | None => false end.

(** The loop over [template.tabs]; [i] is the index of the head of
    [ts]. *)
Fixpoint validateTabs_from (i : nat) (ts : list Tab) : Validation :=
  match ts with
  | [] => valid
  | t :: ts' =>
      let tabValidation := validateTab t in
      if negb (isValid tabValidation)
      then invalid ("Tab " +:+ pretty (i + 1)%nat +:+ ": "
                      +:+ error_message tabValidation)
      else validateTabs_from (S i) ts'
  end.

Definition validateTemplate (template : Template) : Validation :=
  if negb (truthy (id template)) || negb (is_string (id template))
  then invalid "Template ID is required"
  else
    let nameValidation := validateTemplateName (name template) in
    if negb (isValid nameValidation) then nameValidation
    else
      let tabsValidation := validateTabs_from 0 (tabs template) in
      if negb (isValid tabsValidation) then tabsValidation
      else if negb (truthy (createdAt template))
              || negb (isValidDate (createdAt template))
      then invalid "Invalid createdAt timestamp"
      else if negb (bool_decide (lastUsedAt template = JNull))
              && negb (isValidDate (lastUsedAt template))
      then invalid "Invalid lastUsedAt timestamp"
      else if negb (is_number (usageCount template))
              || (js_to_number (usageCount template) <? 0)%Z
      then invalid "Invalid usage count"
      else valid.

Definition validateSettings (settings : Settings) : Validation :=
  let validStartupBehaviors :=
    [JStr "none"; JStr "show_selector"; JStr "auto_launch"] in
  if negb (bool_decide (startupBehavior settings ∈ validStartupBehaviors))
  then invalid "Invalid startup behavior"
  else
  let validOpenBehaviors :=
    [JStr "new_window"; JStr "current_window"; JStr "replace_tabs"] in
  if negb (bool_decide (openBehavior settings ∈ validOpenBehaviors))
  then invalid "Invalid open behavior"
  else
  let validSortBy :=
    [JStr "name"; JStr "created"; JStr "lastUsed"; JStr "usageCount"] in
  if negb (bool_decide (sortBy settings ∈ validSortBy))
  then invalid "Invalid sort by value"
  else
  let validSortOrder := [JStr "asc"; JStr "desc"] in
  if negb (bool_decide (sortOrder settings ∈ validSortOrder))
  then invalid "Invalid sort order"
  else
  let validThemes := [JStr "auto"; JStr "light"; JStr "dark"] in
  if negb (bool_decide (theme settings ∈ validThemes))
  then invalid "Invalid theme"
  else if negb (is_boolean (closeExistingTabs settings))
  then invalid "closeExistingTabs must be boolean"
  else if negb (is_boolean (showFavicons settings))
  then invalid "showFavicons must be boolean"
  else if negb (is_boolean (confirmDelete settings))
  then invalid "confirmDelete must be boolean"
  else valid.

Definition sanitizeTemplateName (name : string) : string :=
  strip_angle
    (String.substring 0 (Z.to_nat UI.MAX_TEMPLATE_NAME_LENGTH) (trim name)).

End Validator.

(** ** The browser around the code

    The state the [chrome.*] calls act on, and the inputs the browser
    decides: which calls are rejected, what the clock shows, what the
    random generator behind [generateUUID] yields. *)

Record ChromeTab : Type := mkChromeTab {
  tab_id : Z;
  tab_url : string;
  tab_title : string;
  favIconUrl : jsval;
  incognito : bool;
  pinned : bool
}.

Record ChromeWindow : Type := mkChromeWindow {
  window_id : Z;
  window_tabs : list ChromeTab
}.

Record World : Type := mkWorld {
  (** content of [chrome.storage.sync] *)
  sync : Storage;
  (** fate of the coming [chrome.*] calls, in order: [Some e] rejects the
      call with the error [e], [None] lets it through; past the end of the
      list every call goes through *)
  pending : list (option string);
  windows : list ChromeWindow;
  currentWindow : Z;
  (** source of the ids of new windows and tabs *)
  next_id : Z;
  (** what [new Date()] reads, in milliseconds *)
  clock : Z;
  (** what [generateUUID()] returns *)
  uuid : string
}.

Definition set_sync (s : Storage) (w : World) : World :=
  mkWorld s (pending w) (windows w) (currentWindow w) (next_id w) (clock w) (uuid w).

Definition set_pending (p : list (option string)) (w : World) : World :=
  mkWorld (sync w) p (windows w) (currentWindow w) (next_id w) (clock w) (uuid w).

Definition set_windows (ws : list ChromeWindow) (n : Z) (w : World) : World :=
  mkWorld (sync w) (pending w) ws (currentWindow w) n (clock w) (uuid w).

Definition set_TEMPLATES (l : list Template) (s : Storage) : Storage :=
  mkStorage (Some l) (SETTINGS s) (VERSION s).

Definition set_SETTINGS (x : Settings) (s : Storage) : Storage :=
  mkStorage (TEMPLATES s) (Some x) (VERSION s).

Definition set_VERSION (v : string) (s : Storage) : Storage :=
  mkStorage (TEMPLATES s) (SETTINGS s) (Some v).

(** ** Asynchronous functions: state and exceptions *)

Inductive outcome (A : Type) : Type :=
  | Returns (a : A)
  | Throws (e : string).
Arguments Returns {A} a.
Arguments Throws {A} e.

Definition Async (A : Type) : Type := World -> outcome A * World.

Definition ret {A} (a : A) : Async A := fun w => (Returns a, w).

Definition throw {A} (e : string) : Async A := fun w => (Throws e, w).

Definition bind {A B} (m : Async A) (k : A -> Async B) : Async B :=
  fun w =>
    match m w with
    | (Returns a, w') => k a w'
    | (Throws e, w') => (Throws e, w')
    end.

(** [try { body } catch (error) { handler }] *)
Definition try_catch {A} (body : Async A) (handler : string -> Async A) : Async A :=
  fun w =>
    match body w with
    | (Returns a, w') => (Returns a, w')
    | (Throws e, w') => handler e w'
    end.

Declare Scope async_scope.
Delimit Scope async_scope with async.
Notation "x <- m ;; k" := (bind m (fun x => k))
  (at level 100, m at next level, right associativity) : async_scope.
Notation "m ;;; k" := (bind m (fun _ => k))
  (at level 100, right associativity) : async_scope.
Local Open Scope async_scope.

(** [for (const x of xs) { await body(x) }] *)
Fixpoint for_of {A} (xs : list A) (body : A -> Async unit) : Async unit :=
  match xs with
  | [] => ret tt
  | x :: xs' => body x ;;; for_of xs' body
  end.

(** A synchronous loop that throws at the first element [check] rejects. *)
Fixpoint check_all {A} (xs : list A) (check : A -> option string) : Async unit :=
  match xs with
  | [] => ret tt
  | x :: xs' =>
      match check x with
      | Some e => throw e
      | None => check_all xs' check
      end
  end.

(** One call into [chrome.*]: the browser rejects it or performs [api]. *)
Definition chrome_call {A} (api : Async A) : Async A :=
  fun w =>
    match pending w with
    | [] => api w
    | None :: rest => api (set_pending rest w)
    | Some e :: rest => (Throws e, set_pending rest w)
    end.

Module chrome.
Module storage.

(** [chrome.storage.sync.get(keys)]; the caller reads its keys off the
    result. *)
Definition get : Async Storage :=
  chrome_call (fun w => (Returns (sync w), w)).

(** [chrome.storage.sync.set({ [key]: value })] *)
Definition set (put : Storage -> Storage) : Async unit :=
  chrome_call (fun w => (Returns tt, set_sync (put (sync w)) w)).

Definition getBytesInUse `{H : Host} : Async Z :=
  chrome_call (fun w => (Returns (bytesInUse (sync w)), w)).
End storage.

Definition new_tab (i : Z) (u : string) : ChromeTab :=
  mkChromeTab i u "" JUndefined false false.

Module windows.
Definition create (u : string) : Async Z :=
  chrome_call (fun w =>
    let wid := next_id w in
    (Returns wid,
     set_windows
       (windows w ++ [mkChromeWindow wid [new_tab (wid + 1) u]])
       (wid + 2) w)).

Definition getCurrent : Async Z :=
  chrome_call (fun w => (Returns (currentWindow w), w)).
End windows.

Module tabs.
Definition tabs_of (wid : Z) (w : World) : list ChromeTab :=
  match List.find (fun cw => bool_decide (window_id cw = wid)) (windows w) with
  | Some cw => window_tabs cw
  | None => []
  end.

Definition add_tab (wid : Z) (t : ChromeTab) (cw : ChromeWindow) : ChromeWindow :=
  if bool_decide (window_id cw = wid)
  then mkChromeWindow (window_id cw) (window_tabs cw ++ [t])
  else cw.

(** [chrome.tabs.create({ windowId, url, active: false })] *)
Definition create (wid : Z) (u : string) : Async unit :=
  chrome_call (fun w =>
    if bool_decide (wid ∈ map window_id (windows w))
    then (Returns tt,
          set_windows (map (add_tab wid (new_tab (next_id w) u)) (windows w))
                      (next_id w + 1) w)
    else (Throws "No window with that id", w)).

(** [chrome.tabs.query({ windowId })] *)
Definition query (wid : Z) : Async (list ChromeTab) :=
  chrome_call (fun w => (Returns (tabs_of wid w), w)).

(** [chrome.tabs.query({ currentWindow: true })] *)
Definition query_current : Async (list ChromeTab) :=
  chrome_call (fun w => (Returns (tabs_of (currentWindow w) w), w)).

Definition drop_tab (i : Z) (cw : ChromeWindow) : ChromeWindow :=
  mkChromeWindow (window_id cw)
    (List.filter (fun t => negb (bool_decide (tab_id t = i))) (window_tabs cw)).

(** [chrome.tabs.remove(tabId)] *)
Definition remove (i : Z) : Async unit :=
  chrome_call (fun w =>
    if bool_decide (i ∈ map tab_id (concat (map window_tabs (windows w))))
    then (Returns tt, set_windows (map (drop_tab i) (windows w)) (next_id w) w)
    else (Throws "No tab with that id", w)).
End tabs.
End chrome.

(** [new Date().toISOString()] *)
Definition now_iso `{H : Host} : Async string :=
  fun w => (Returns (toISOString (clock w)), w).

(** [generateUUID()] of utils/helpers.js: sixteen random digits in the
    version-4 pattern; the digits are the browser's. *)
Definition generateUUID : Async string :=
  fun w => (Returns (uuid w), w).

(** [deepClone(obj)] of utils/helpers.js is [JSON.parse(JSON.stringify(obj))],
    the identity on the values modelled here. *)
Definition deepClone {A} (obj : A) : A := obj.

(** ** Storage service (services/storageService.js)

    The service's [cache] field is assigned after every read and write and
    never read back; it has no part in what the functions do and is left
    out.  A [catch] block that logs and throws the error again does not
    change the function it closes and is left out too. *)

(** The keys of [updates] in [updateTemplate]; [None] is an absent key. *)
Record TemplateUpdates : Type := mkTemplateUpdates {
  u_id : option jsval;
  u_name : option jsval;
  u_description : option jsval;
  u_color : option jsval;
  u_icon : option jsval;
  u_tabs : option (list Tab);
  u_createdAt : option jsval;
  u_lastUsedAt : option jsval;
  u_usageCount : option jsval
}.

(** [{ ...template, ...updates }] *)
Definition spread_template (t : Template) (u : TemplateUpdates) : Template :=
  {| id := default (id t) (u_id u);
     name := default (name t) (u_name u);
     description := default (description t) (u_description u);
     color := default (color t) (u_color u);
     icon := default (icon t) (u_icon u);
     tabs := default (tabs t) (u_tabs u);
     createdAt := default (createdAt t) (u_createdAt u);
     lastUsedAt := default (lastUsedAt t) (u_lastUsedAt u);
     usageCount := default (usageCount t) (u_usageCount u) |}.

Definition no_updates : TemplateUpdates :=
  mkTemplateUpdates None None None None None None None None None.

(** The keys of [updates] in [updateSettings]. *)
Record SettingsUpdates : Type := mkSettingsUpdates {
  u_startupBehavior : option jsval;
  u_defaultTemplateId : option jsval;
  u_openBehavior : option jsval;
  u_closeExistingTabs : option jsval;
  u_sortBy : option jsval;
  u_sortOrder : option jsval;
  u_theme : option jsval;
  u_showFavicons : option jsval;
  u_confirmDelete : option jsval
}.

(** [{ ...currentSettings, ...updates }] *)
Definition spread_settings (s : Settings) (u : SettingsUpdates) : Settings :=
  {| startupBehavior := default (startupBehavior s) (u_startupBehavior u);
     defaultTemplateId := default (defaultTemplateId s) (u_defaultTemplateId u);
     openBehavior := default (openBehavior s) (u_openBehavior u);
     closeExistingTabs := default (closeExistingTabs s) (u_closeExistingTabs u);
     sortBy := default (sortBy s) (u_sortBy u);
     sortOrder := default (sortOrder s) (u_sortOrder u);
     theme := default (theme s) (u_theme u);
     showFavicons := default (showFavicons s) (u_showFavicons u);
     confirmDelete := default (confirmDelete s) (u_confirmDelete u) |}.

(** The export document; [templates] is [None] when the key is missing or
    does not hold an array. *)
Record ExportData : Type := mkExportData {
  version : jsval;
  exportedAt : jsval;
  templates : option (list Template)
}.

Record StorageInfo : Type := mkStorageInfo {
  info_bytesInUse : Z;
  info_quota : Z;
  (** [(bytesInUse / quota) * 100] is a floating-point quotient; its two
      operands stand for it. *)
  info_percentUsed : Z * Z;
  info_available : Z
}.

Module storageService.
Section StorageService.
Context `{H : Host}.

Definition initialize : Async bool :=
  try_catch
    (data <- chrome.storage.get ;;
     (if negb (bool_decide (is_Some (TEMPLATES data)))
      then chrome.storage.set (set_TEMPLATES [])
      else ret tt) ;;;
     (if negb (bool_decide (is_Some (SETTINGS data)))
      then chrome.storage.set (set_SETTINGS DEFAULT_SETTINGS)
      else ret tt) ;;;
     (if negb (truthy (default JUndefined (JStr <$> VERSION data)))
      then chrome.storage.set (set_VERSION APP_INFO.DATA_VERSION)
      else ret tt) ;;;
     ret true)
    (fun error => ret false).

Definition getTemplates : Async (list Template) :=
  try_catch
    (result <- chrome.storage.get ;;
     let templates := default [] (TEMPLATES result) in
     ret (deepClone templates))
    (fun error => ret []).

Definition getTemplate (templateId : jsval) : Async (option Template) :=
  try_catch
    (templates <- getTemplates ;;
     ret (List.find (fun t => bool_decide (id t = templateId)) templates))
    (fun error => ret None).

Definition saveTemplate (template : Template) : Async bool :=
  let validation := validateTemplate template in
  if negb (isValid validation) then throw (error_message validation)
  else
    templates <- getTemplates ;;
    let templates := templates ++ [template] in
    chrome.storage.set (set_TEMPLATES templates) ;;;
    ret true.

Definition updateTemplate (templateId : jsval) (updates : TemplateUpdates)
  : Async bool :=
  templates <- getTemplates ;;
  match list_find (fun t => id t = templateId) templates with
  | None => throw "Template not found"
  | Some (index, existing) =>
      let merged := spread_template existing updates in
      let templates := <[index := merged]> templates in
      let validation := validateTemplate merged in
      if negb (isValid validation) then throw (error_message validation)
      else
        chrome.storage.set (set_TEMPLATES templates) ;;;
        ret true
  end.

Definition deleteTemplate (templateId : jsval) : Async bool :=
  templates <- getTemplates ;;
  let filtered :=
    List.filter (fun t => negb (bool_decide (id t = templateId))) templates in
  chrome.storage.set (set_TEMPLATES filtered) ;;;
  ret true.

(** The two assignments of [updateTemplateUsage] to [templates[index]]. *)
Definition touch (stamp : string) (t : Template) : Template :=
  {| id := id t; name := name t; description := description t;
     color := color t; icon := icon t; tabs := tabs t;
     createdAt := createdAt t;
     lastUsedAt := JStr stamp;
     usageCount := js_add (js_or (usageCount t) (JNum 0)) (JNum 1) |}.

Definition updateTemplateUsage (templateId : jsval) : Async bool :=
  templates <- getTemplates ;;
  match list_find (fun t => id t = templateId) templates with
  | None => throw "Template not found"
  | Some (index, existing) =>
      stamp <- now_iso ;;
      let templates := <[index := touch stamp existing]> templates in
      chrome.storage.set (set_TEMPLATES templates) ;;;
      ret true
  end.

Definition getSettings : Async Settings :=
  try_catch
    (result <- chrome.storage.get ;;
     let settings := default DEFAULT_SETTINGS (SETTINGS result) in
     ret (deepClone settings))
    (fun error => ret (deepClone DEFAULT_SETTINGS)).

Definition updateSettings (updates : SettingsUpdates) : Async bool :=
  currentSettings <- getSettings ;;
  let newSettings := spread_settings currentSettings updates in
  let validation := validateSettings newSettings in
  if negb (isValid validation) then throw (error_message validation)
  else
    chrome.storage.set (set_SETTINGS newSettings) ;;;
    ret true.

Definition resetSettings : Async bool :=
  chrome.storage.set (set_SETTINGS DEFAULT_SETTINGS) ;;;
  ret true.

Definition exportData : Async ExportData :=
  templates <- getTemplates ;;
  stamp <- now_iso ;;
  ret {| version := JStr APP_INFO.DATA_VERSION;
         exportedAt := JStr stamp;
         templates := Some templates |}.

Definition importData (importData : ExportData) (merge : bool) : Async Z :=
  match templates importData with
  | None => throw "Invalid import data format"
  | Some imported =>
      templates <-
        (if merge then
           templates <- getTemplates ;;
           let existingIds := map id templates in
           let newTemplates :=
             List.filter (fun t => negb (bool_decide (id t ∈ existingIds)))
                         imported in
           ret (templates ++ newTemplates)
         else ret imported) ;;
      chrome.storage.set (set_TEMPLATES templates) ;;;
      ret (if merge then Z.of_nat (length imported)
           else Z.of_nat (length templates))
  end.

Definition clearTemplates : Async bool :=
  chrome.storage.set (set_TEMPLATES []) ;;;
  ret true.

Definition getStorageInfo : Async (option StorageInfo) :=
  try_catch
    (bytesInUse <- chrome.storage.getBytesInUse ;;
     let quota := QUOTA_BYTES in
     ret (Some {| info_bytesInUse := bytesInUse;
                  info_quota := quota;
                  info_percentUsed := (bytesInUse, quota);
                  info_available := quota - bytesInUse |}))
    (fun error => ret None).

End StorageService.
End storageService.

(** ** Tab service (services/tabService.js) *)

(** The result object of the opening strategies. *)
Record OpenResult : Type := mkOpenResult {
  success : bool;
  openedTabs : Z;
  windowId : option Z
}.

(** [getFaviconUrl(url)] of utils/helpers.js *)
Definition getFaviconUrl `{H : Host} (u : string) : string :=
  match URL_parse u with
  | Some (_, hostname) =>
      "https://www.google.com/s2/favicons?domain=" +:+ hostname +:+ "&sz=32"
  | None => ""
  end.

Module tabService.
Section TabService.
Context `{H : Host}.

Definition getCurrentWindowTabs (includeIncognito : bool) : Async (list Tab) :=
  try_catch
    (tabs <- chrome.tabs.query_current ;;
     let filteredTabs :=
       if includeIncognito then tabs
       else List.filter (fun tab => negb (incognito tab)) tabs in
     ret (map (fun tab =>
                 {| url := JStr (tab_url tab);
                    title := JStr (tab_title tab);
                    favicon := js_or (favIconUrl tab)
                                     (JStr (getFaviconUrl (tab_url tab))) |})
              filteredTabs))
    (fun error => ret []).

(** The URL of a tab that passed [validateUrl] is a string. *)
Definition url_string (tab : Tab) : string := js_to_string (url tab).

Definition openInNewWindow (tabs : list Tab) : Async OpenResult :=
  match tabs with
  | [] => throw "TypeError: Cannot read properties of undefined"
  | first :: remaining =>
      newWindow <- chrome.windows.create (url_string first) ;;
      for_of remaining (fun tab => chrome.tabs.create newWindow (url_string tab)) ;;;
      ret {| success := true;
             openedTabs := Z.of_nat (length tabs);
             windowId := Some newWindow |}
  end.

Definition openInCurrentWindow (tabs : list Tab) : Async OpenResult :=
  currentWindow <- chrome.windows.getCurrent ;;
  for_of tabs (fun tab => chrome.tabs.create currentWindow (url_string tab)) ;;;
  ret {| success := true;
         openedTabs := Z.of_nat (length tabs);
         windowId := Some currentWindow |}.

Definition replaceTabs (tabs : list Tab) (closeExisting : jsval)
  : Async OpenResult :=
  currentWindow <- chrome.windows.getCurrent ;;
  (if truthy closeExisting then
     currentTabs <- chrome.tabs.query currentWindow ;;
     let tabsToClose := List.filter (fun tab => negb (pinned tab)) currentTabs in
     for_of tabsToClose (fun tab => chrome.tabs.remove (tab_id tab))
   else ret tt) ;;;
  for_of tabs (fun tab => chrome.tabs.create currentWindow (url_string tab)) ;;;
  ret {| success := true;
         openedTabs := Z.of_nat (length tabs);
         windowId := Some currentWindow |}.

(** [openTabs(tabs, openBehavior = 'new_window', closeExisting = false)]:
    a default takes the place of an undefined argument. *)
Definition openTabs (tabs : list Tab) (openBehavior closeExisting : jsval)
  : Async OpenResult :=
  let openBehavior :=
    if bool_decide (openBehavior = JUndefined) then JStr "new_window"
    else openBehavior in
  let closeExisting :=
    if bool_decide (closeExisting = JUndefined) then JBool false
    else closeExisting in
  if (Z.of_nat (length tabs) =? 0)%Z then throw "No tabs to open"
  else
    check_all tabs (fun tab =>
      if negb (isValid (validateUrl (url tab)))
      then Some ("Invalid URL: " +:+ js_to_string (url tab))
      else None) ;;;
    if bool_decide (openBehavior = JStr "new_window")
    then openInNewWindow tabs
    else if bool_decide (openBehavior = JStr "current_window")
    then openInCurrentWindow tabs
    else if bool_decide (openBehavior = JStr "replace_tabs")
    then replaceTabs tabs closeExisting
    else throw "Invalid open behavior".

Definition isValidUrl (u : jsval) : bool :=
  let invalidProtocols := ["chrome:"; "chrome-extension:"; "about:"; "file:"] in
  match URL_parse (js_to_string u) with
  | Some (protocol, _) =>
      negb (existsb (fun p => startsWith protocol p) invalidProtocols)
  | None => false
  end.

Definition filterValidTabs (tabs : list Tab) : list Tab :=
  List.filter (fun tab => isValidUrl (url tab)) tabs.

End TabService.
End tabService.

(** ** Template manager (services/templateManager.js) *)

(** The [options] argument of [launchTemplate]; an absent key reads as
    undefined. *)
Record LaunchOptions : Type := mkLaunchOptions {
  o_openBehavior : jsval;
  o_closeExisting : jsval
}.

Definition no_options : LaunchOptions := mkLaunchOptions JUndefined JUndefined.

Module templateManager.
Section TemplateManager.
Context `{H : Host}.

(** The template object both creation functions build. *)
Definition fresh_template (i : string) (name : string) (description : jsval)
    (tabs : list Tab) (stamp : string) : Template :=
  {| id := JStr i;
     name := JStr (sanitizeTemplateName name);
     description := description;
     color := JStr TEMPLATE.DEFAULT_COLOR;
     icon := JStr TEMPLATE.DEFAULT_ICON;
     tabs := tabs;
     createdAt := JStr stamp;
     lastUsedAt := JNull;
     usageCount := JNum 0 |}.

(** [description = ''] in a parameter list. *)
Definition default_description (description : jsval) : jsval :=
  if bool_decide (description = JUndefined) then JStr "" else description.

Definition createFromCurrentTabs (name description : jsval) : Async Template :=
  let description := default_description description in
  let nameValidation := validateTemplateName name in
  if negb (isValid nameValidation) then throw (error_message nameValidation)
  else
    tabs <- tabService.getCurrentWindowTabs false ;;
    if (Z.of_nat (length tabs) =? 0)%Z then throw MESSAGES.ERROR_NO_TABS
    else
      let validTabs := tabService.filterValidTabs tabs in
      if (Z.of_nat (length validTabs) =? 0)%Z then throw "No valid tabs to save"
      else
        i <- generateUUID ;;
        stamp <- now_iso ;;
        let template :=
          fresh_template i (js_to_string name) description validTabs stamp in
        storageService.saveTemplate template ;;;
        ret template.

Definition createEmpty (name description : jsval) : Async Template :=
  let description := default_description description in
  let nameValidation := validateTemplateName name in
  if negb (isValid nameValidation) then throw (error_message nameValidation)
  else
    i <- generateUUID ;;
    stamp <- now_iso ;;
    let template := fresh_template i (js_to_string name) description [] stamp in
    storageService.saveTemplate template ;;;
    ret template.

Definition getTemplate (templateId : jsval) : Async (option Template) :=
  try_catch (storageService.getTemplate templateId) (fun error => ret None).

Definition updateTemplate (templateId : jsval) (updates : TemplateUpdates)
  : Async bool :=
  name_checked <-
    (match u_name updates with
     | Some n =>
         if truthy n then
           let nameValidation := validateTemplateName n in
           if negb (isValid nameValidation)
           then throw (error_message nameValidation)
           else ret (Some (JStr (sanitizeTemplateName (js_to_string n))))
         else ret (Some n)
     | None => ret None
     end) ;;
  let updates :=
    mkTemplateUpdates (u_id updates) name_checked (u_description updates)
      (u_color updates) (u_icon updates) (u_tabs updates)
      (u_createdAt updates) (u_lastUsedAt updates) (u_usageCount updates) in
  (match u_tabs updates with
   | Some tabs =>
       check_all tabs (fun tab =>
         let tabValidation := validateTab tab in
         if negb (isValid tabValidation)
         then Some (error_message tabValidation) else None)
   | None => ret tt
   end) ;;;
  storageService.updateTemplate templateId updates ;;;
  ret true.

Definition deleteTemplate (templateId : jsval) : Async bool :=
  storageService.deleteTemplate templateId ;;;
  ret true.

Definition addTab (templateId : jsval) (tab : Tab) : Async bool :=
  let tabValidation := validateTab tab in
  if negb (isValid tabValidation) then throw (error_message tabValidation)
  else
    found <- storageService.getTemplate templateId ;;
    match found with
    | None => throw "Template not found"
    | Some template =>
        if (Z.of_nat (length (tabs template)) >=? TEMPLATE.MAX_TABS)%Z
        then throw ("Maximum " +:+ pretty TEMPLATE.MAX_TABS
                      +:+ " tabs per template")
        else
          let tabs := tabs template ++ [tab] in
          storageService.updateTemplate templateId
            (mkTemplateUpdates None None None None None (Some tabs)
                               None None None) ;;;
          ret true
    end.

(** [tabs.splice(tabIndex, 1)] *)
Definition splice1 {A} (tabIndex : Z) (l : list A) : list A :=
  take (Z.to_nat tabIndex) l ++ drop (S (Z.to_nat tabIndex)) l.

Definition removeTab (templateId : jsval) (tabIndex : Z) : Async bool :=
  found <- storageService.getTemplate templateId ;;
  match found with
  | None => throw "Template not found"
  | Some template =>
      if (tabIndex <? 0)%Z || (tabIndex >=? Z.of_nat (length (tabs template)))%Z
      then throw "Invalid tab index"
      else
        let tabs := splice1 tabIndex (tabs template) in
        storageService.updateTemplate templateId
          (mkTemplateUpdates None None None None None (Some tabs)
                             None None None) ;;;
        ret true
  end.

Definition launchTemplate (templateId : jsval) (options : LaunchOptions)
  : Async OpenResult :=
  found <- storageService.getTemplate templateId ;;
  match found with
  | None => throw "Template not found"
  | Some template =>
      if (Z.of_nat (length (tabs template)) =? 0)%Z
      then throw "Template has no tabs"
      else
        options <-
          (if negb (truthy (o_openBehavior options)) then
             settings <- storageService.getSettings ;;
             ret {| o_openBehavior := openBehavior settings;
                    o_closeExisting := closeExistingTabs settings |}
           else ret options) ;;
        result <- tabService.openTabs (tabs template)
                    (o_openBehavior options) (o_closeExisting options) ;;
        storageService.updateTemplateUsage templateId ;;;
        ret result
  end.

(** The object literal [duplicate] of [duplicateTemplate]:
    [{ ...template, id, name, createdAt, lastUsedAt, usageCount }]. *)
Definition duplicate_of (template : Template) (i stamp : string) : Template :=
  {| id := JStr i;
     name := JStr (js_to_string (name template) +:+ " (Copy)");
     description := description template;
     color := color template;
     icon := icon template;
     tabs := tabs template;
     createdAt := JStr stamp;
     lastUsedAt := JNull;
     usageCount := JNum 0 |}.

Definition duplicateTemplate (templateId : jsval) : Async Template :=
  found <- storageService.getTemplate templateId ;;
  match found with
  | None => throw "Template not found"
  | Some template =>
      i <- generateUUID ;;
      stamp <- now_iso ;;
      let duplicate := duplicate_of template i stamp in
      storageService.saveTemplate duplicate ;;;
      ret duplicate
  end.

Definition exportTemplates : Async ExportData := storageService.exportData.

Definition importTemplates (importData : ExportData) (merge : bool) : Async Z :=
  storageService.importData importData merge.

End TemplateManager.
End templateManager.

(** ** A concrete host, to run the code on examples

    [new URL] on [scheme:rest] and [scheme://host...] strings, and dates in
    the one format [toISOString] prints, for the years 0000 to 9999. *)

Module SimpleHost.

Definition is_alpha (c : ascii) : bool :=
  let n := nat_of_ascii c in
  ((65 <=? n)%nat && (n <=? 90)%nat) || ((97 <=? n)%nat && (n <=? 122)%nat).

Definition lower (c : ascii) : ascii :=
  let n := nat_of_ascii c in
  if ((65 <=? n)%nat && (n <=? 90)%nat)%bool then ascii_of_nat (n + 32) else c.

(** The letters before the first colon, lower-cased, and what follows
    the colon. *)
Fixpoint scheme_of (s : string) : option (string * string) :=
  match s with
  | EmptyString => None
  | String c s' =>
      if Ascii.eqb c ":" then Some (EmptyString, s')
      else if is_alpha c then
        match scheme_of s' with
        | Some (sch, rest) => Some (String (lower c) sch, rest)
        | None => None
        end
      else None
  end.

Fixpoint host_of (s : string) : string :=
  match s with
  | EmptyString => EmptyString
  | String c s' =>
      if (Ascii.eqb c "/" || Ascii.eqb c "?" || Ascii.eqb c "#" || Ascii.eqb c ":")%bool
      then EmptyString
      else String (lower c) (host_of s')
  end.

Definition parseURL (s : string) : option (string * string) :=
  match scheme_of s with
  | Some (sch, rest) =>
      if String.eqb sch "" then None
      else
        let hostname :=
          if String.prefix "//" rest
          then host_of (String.substring 2 (String.length rest - 2) rest)
          else "" in
        if (bool_decide (sch ∈ ["http"; "https"]) && String.eqb hostname "")%bool
        then None
        else Some (sch +:+ ":", hostname)
  | None => None
  end.

(** Days since 1970-01-01 of a civil date, and back. *)
Definition days_from_civil (y m d : Z) : Z :=
  let y' := if (m <=? 2)%Z then y - 1 else y in
  let era := y' / 400 in
  let yoe := y' - era * 400 in
  let doy := (153 * (if (m >? 2)%Z then m - 3 else m + 9) + 2) / 5 + d - 1 in
  let doe := yoe * 365 + yoe / 4 - yoe / 100 + doy in
  era * 146097 + doe - 719468.

Definition civil_from_days (days : Z) : Z * Z * Z :=
  let z := days + 719468 in
  let era := z / 146097 in
  let doe := z - era * 146097 in
  let yoe := (doe - doe / 1460 + doe / 36524 - doe / 146096) / 365 in
  let doy := doe - (365 * yoe + yoe / 4 - yoe / 100) in
  let mp := (5 * doy + 2) / 153 in
  let d := doy - (153 * mp + 2) / 5 + 1 in
  let m := if (mp <? 10)%Z then mp + 3 else mp - 9 in
  let y := yoe + era * 400 in
  (if (m <=? 2)%Z then y + 1 else y, m, d).

Fixpoint zeros (n : nat) : string :=
  match n with O => "" | S n' => String "0" (zeros n') end.

Definition pad (width : nat) (n : Z) : string :=
  let digits := pretty n in
  zeros (width - String.length digits) +:+ digits.

Definition isoString (t : Z) : string :=
  let '(y, m, d) := civil_from_days (t / 86400000) in
  let ms := t mod 86400000 in
  pad 4 y +:+ "-" +:+ pad 2 m +:+ "-" +:+ pad 2 d +:+ "T"
    +:+ pad 2 (ms / 3600000) +:+ ":" +:+ pad 2 (ms / 60000 mod 60) +:+ ":"
    +:+ pad 2 (ms / 1000 mod 60) +:+ "." +:+ pad 3 (ms mod 1000) +:+ "Z".

Definition digit (c : ascii) : option Z :=
  let n := nat_of_ascii c in
  if ((48 <=? n)%nat && (n <=? 57)%nat)%bool then Some (Z.of_nat (n - 48)) else None.

Fixpoint number_from (acc : Z) (s : string) : option Z :=
  match s with
  | EmptyString => Some acc
  | String c s' =>
      match digit c with
      | Some k => number_from (10 * acc + k) s'
      | None => None
      end
  end.

Definition field (from len : nat) (s : string) : option Z :=
  number_from 0 (String.substring from len s).

(** A string is a date when it is the rendering of the instant its
    fields denote. *)
Definition parseDate (s : string) : option Z :=
  match field 0 4 s, field 5 2 s, field 8 2 s,
        field 11 2 s, field 14 2 s, field 17 2 s, field 20 3 s with
  | Some y, Some m, Some d, Some hh, Some mm, Some ss, Some ms =>
      let t := days_from_civil y m d * 86400000
               + hh * 3600000 + mm * 60000 + ss * 1000 + ms in
      if String.eqb (isoString t) s then Some t else None
  | _, _, _, _, _, _, _ => None
  end.

Definition sum_Z (l : list Z) : Z := fold_right Z.add 0 l.

Definition tab_size (t : Tab) : Z :=
  str_len (js_to_string (url t)) + str_len (js_to_string (title t)).

Definition template_size (t : Template) : Z :=
  str_len (js_to_string (name t)) + str_len (js_to_string (description t))
  + sum_Z (map tab_size (tabs t)).

(** A stand-in for the size of the serialized content. *)
Definition contentSize (s : Storage) : Z :=
  sum_Z (map template_size (default [] (TEMPLATES s))).

Definition host : Host :=
  {| URL_parse := parseURL;
     Date_parse := parseDate;
     toISOString := isoString;
     bytesInUse := contentSize;
     QUOTA_BYTES := 102400 |}.

End SimpleHost.

(** ** Vocabulary of the properties *)

(** The template list as [getTemplates] reads it: [result[key] || []]. *)
Definition stored (w : World) : list Template := default [] (TEMPLATES (sync w)).

(** A browser that rejects none of the coming calls. *)
Definition quiet (w : World) : Prop := pending w = [].

Definition find_template (templateId : jsval) (l : list Template) : option Template :=
  List.find (fun t => bool_decide (id t = templateId)) l.

(** ** Reading operations leave the stored data alone

    [frame w w'] holds when only the browser side of the world (windows,
    the calls already answered) differs between [w] and [w']. *)

Definition frame (w w' : World) : Prop :=
  sync w' = sync w /\ clock w' = clock w /\ uuid w' = uuid w.

Definition reads {A} (m : Async A) : Prop := forall w, frame w (snd (m w)).

(** ** A failed operation has written nothing

    [guarded m]: when [m] throws, the stored data are what they were.  The
    mutating operations read, check, and write once as their last step. *)

Definition guarded {A} (m : Async A) : Prop :=
  forall w e w', m w = (Throws e, w') -> frame w w'.

(** [current] is no earlier than [previous], a null [previous] being the
    minimum. *)
Definition not_before `{H : Host} (previous current : jsval) : bool :=
  bool_decide (previous = JNull)
  || match Date_of previous, Date_of current with
     | Some t0, Some t1 => (t0 <=? t1)%Z
     | _, _ => false
     end.

(** ** Example data *)

Definition mail_tab : Tab :=
  mkTab (JStr "https://mail.example.com") (JStr "Mail") JUndefined.

Definition work_template (i : string) (n : string) (last count : jsval) : Template :=
  {| id := JStr i;
     name := JStr n;
     description := JStr "";
     color := JStr TEMPLATE.DEFAULT_COLOR;
     icon := JStr TEMPLATE.DEFAULT_ICON;
     tabs := [mail_tab];
     createdAt := JStr "2024-01-01T00:00:00.000Z";
     lastUsedAt := last;
     usageCount := count |}.

(** A browser with one empty window, on 2024-11-10 at 17:30:00.123 UTC,
    holding the templates [l] and answering the coming calls as [p] says. *)
Definition world_with (l : list Template) (p : list (option string)) : World :=
  {| sync := mkStorage (Some l) (Some DEFAULT_SETTINGS) (Some APP_INFO.DATA_VERSION);
     pending := p;
     windows := [mkChromeWindow 1 []];
     currentWindow := 1;
     next_id := 10;
     clock := 1731259800123;
     uuid := "3f2a9c1e-7b4d-4e8a-9c3f-5d6e7f8a9b0c" |}.

(** A template whose last use is recorded in the year 2999, as an import
    or a device with a wrong clock can store it. *)
Definition planned_template : Template :=
  work_template "t1" "Work" (JStr "2999-01-01T00:00:00.000Z") (JNum 3).

Definition used_template : Template :=
  work_template "t1" "Work" (JStr "2024-06-01T08:00:00.000Z") (JNum 3).

Definition empty_template : Template :=
  {| id := JStr "t2";
     name := JStr "Later";
     description := JStr "";
     color := JStr TEMPLATE.DEFAULT_COLOR;
     icon := JStr TEMPLATE.DEFAULT_ICON;
     tabs := [];
     createdAt := JStr "2024-01-01T00:00:00.000Z";
     lastUsedAt := JNull;
     usageCount := JNum 0 |}.

(** A template that holds [TEMPLATE.MAX_TABS] tabs. *)
Definition full_template : Template :=
  {| id := JStr "t3";
     name := JStr "Full";
     description := JStr "";
     color := JStr TEMPLATE.DEFAULT_COLOR;
     icon := JStr TEMPLATE.DEFAULT_ICON;
     tabs := replicate 100 mail_tab;
     createdAt := JStr "2024-01-01T00:00:00.000Z";
     lastUsedAt := JNull;
     usageCount := JNum 0 |}.

(** The imported templates [importData] keeps when merging into [existing]. *)
Definition newTemplates (existing imported : list Template) : list Template :=
  List.filter (fun t => negb (bool_decide (id t ∈ map id existing))) imported.

(** An export document with one template that is stored already and one
    that is not. *)
Definition two_template_payload : ExportData :=
  {| version := JStr APP_INFO.DATA_VERSION;
     exportedAt := JStr "2024-11-01T00:00:00.000Z";
     templates := Some [used_template; empty_template] |}.

(** The ids of the stored templates are pairwise distinct. *)
Definition distinct_ids (w : World) : Prop := NoDup (map id (stored w)).

(** A valid template that carries the id of [used_template]. *)
Definition second_template : Template :=
  work_template "t1" "Second" JNull (JNum 0).

(** The enum and boolean constraints on a settings record. *)
Definition settings_ok (s : Settings) : Prop :=
  startupBehavior s ∈ [JStr "none"; JStr "show_selector"; JStr "auto_launch"]
  /\ openBehavior s ∈ [JStr "new_window"; JStr "current_window"; JStr "replace_tabs"]
  /\ sortBy s ∈ [JStr "name"; JStr "created"; JStr "lastUsed"; JStr "usageCount"]
  /\ sortOrder s ∈ [JStr "asc"; JStr "desc"]
  /\ (exists b, closeExistingTabs s = JBool b)
  /\ (exists b, showFavicons s = JBool b)
  /\ (exists b, confirmDelete s = JBool b).

(** The settings record in the store, when there is one, meets them. *)
Definition settings_invariant (w : World) : Prop :=
  forall s, SETTINGS (sync w) = Some s -> settings_ok s.

(** [steady I m]: a property of the store that [m] cannot break. *)
Definition steady {A} (I : Storage -> Prop) (m : Async A) : Prop :=
  forall w, I (sync w) -> I (sync (snd (m w))).

(** A fresh profile: nothing stored yet. *)
Definition fresh_world : World :=
  {| sync := mkStorage None None None;
     pending := [];
     windows := [mkChromeWindow 1 []];
     currentWindow := 1;
     next_id := 10;
     clock := 1731259800123;
     uuid := "3f2a9c1e-7b4d-4e8a-9c3f-5d6e7f8a9b0c" |}.

Definition dark_ascending : SettingsUpdates :=
  mkSettingsUpdates None None None None None (Some (JStr "asc"))
                    (Some (JStr "dark")) None None.

Definition sort_by_size : SettingsUpdates :=
  mkSettingsUpdates None None None None (Some (JStr "size")) None None None None.

Fixpoint str_repeat (c : ascii) (n : nat) : string :=
  match n with
  | O => EmptyString
  | S n' => String c (str_repeat c n')
  end.

(** A description of 201 characters. *)
Definition long_description : jsval := JStr (str_repeat "d" 201).

(** [{ ...t, description: d }] *)
Definition with_description (d : jsval) (t : Template) : Template :=
  {| id := id t; name := name t; description := d; color := color t;
     icon := icon t; tabs := tabs t; createdAt := createdAt t;
     lastUsedAt := lastUsedAt t; usageCount := usageCount t |}.

(** Settings that differ from the defaults. *)
Definition custom_settings : Settings :=
  {| startupBehavior := JStr "show_selector";
     defaultTemplateId := JNull;
     openBehavior := JStr "current_window";
     closeExistingTabs := JBool false;
     sortBy := JStr "name";
     sortOrder := JStr "asc";
     theme := JStr "dark";
     showFavicons := JBool false;
     confirmDelete := JBool true |}.

(** One stored template and custom settings, in a browser that answers
    the coming calls as [p] says. *)
Definition custom_world (p : list (option string)) : World :=
  set_sync (set_SETTINGS custom_settings (sync (world_with [used_template] p)))
           (world_with [used_template] p).

(** A stored template whose name has 44 characters. *)
Definition long_named_template : Template :=
  work_template "t4" "Quarterly planning and budget review session" JNull (JNum 0).

(** [m] leaves the settings and the version marker of the store alone. *)
Definition keeps_settings {A} (m : Async A) : Prop :=
  forall w, SETTINGS (sync (snd (m w))) = SETTINGS (sync w)
            /\ VERSION (sync (snd (m w))) = VERSION (sync w).

(** [m] leaves the template list and the version marker alone. *)
Definition keeps_templates {A} (m : Async A) : Prop :=
  forall w, TEMPLATES (sync (snd (m w))) = TEMPLATES (sync w)
            /\ VERSION (sync (snd (m w))) = VERSION (sync w).

(** What [getCurrentWindowTabs] makes of the tabs of the current window
    when its query is answered: the tabs that are not incognito, each
    reduced to its URL, its title and a favicon. *)
Definition captured_tabs `{H : Host} (w : World) : list Tab :=
  map (fun tab =>
         {| url := JStr (tab_url tab);
            title := JStr (tab_title tab);
            favicon := js_or (favIconUrl tab) (JStr (getFaviconUrl (tab_url tab))) |})
      (List.filter (fun tab => negb (incognito tab))
                   (chrome.tabs.tabs_of (currentWindow w) w)).

(** A window with the mail page, a settings page of the browser, an
    incognito tab and an [ftp:] listing. *)
Definition busy_window (ftp : bool) : list ChromeTab :=
  [mkChromeTab 2 "https://mail.example.com" "Mail" JUndefined false false;
   mkChromeTab 3 "chrome://settings" "Settings" JUndefined false true;
   mkChromeTab 4 "https://bank.example.com" "Bank" JUndefined true false]
  ++ (if ftp
      then [mkChromeTab 5 "ftp://files.example.com" "Files" JUndefined false false]
      else []).

Definition busy_world (ftp : bool) : World :=
  {| sync := mkStorage (Some []) (Some DEFAULT_SETTINGS) (Some APP_INFO.DATA_VERSION);
     pending := [];
     windows := [mkChromeWindow 1 (busy_window ftp)];
     currentWindow := 1;
     next_id := 10;
     clock := 1731259800123;
     uuid := "3f2a9c1e-7b4d-4e8a-9c3f-5d6e7f8a9b0c" |}.

(** [{ ...t, tabs }] *)
Definition with_tabs (ts : list Tab) (t : Template) : Template :=
  {| id := id t; name := name t; description := description t; color := color t;
     icon := icon t; tabs := ts; createdAt := createdAt t;
     lastUsedAt := lastUsedAt t; usageCount := usageCount t |}.

Definition news_tab : Tab :=
  mkTab (JStr "https://news.example.com") (JStr "News") JUndefined.

(** A valid template with two tabs. *)
Definition two_tab_template : Template :=
  with_tabs [mail_tab; news_tab] used_template.

(** [preserves P m]: a property of the world that [m] cannot break,
    whether it returns or throws. *)
Definition preserves {A} (P : World -> Prop) (m : Async A) : Prop :=
  forall w, P w -> P (snd (m w)).

(** A tab is open in the current window. *)
Definition open_in_current (t : ChromeTab) (w : World) : Prop :=
  t ∈ chrome.tabs.tabs_of (currentWindow w) w.

(** A window with a pinned tab and two others. *)
Definition pinned_world (p : list (option string)) : World :=
  {| sync := mkStorage (Some []) (Some DEFAULT_SETTINGS) (Some APP_INFO.DATA_VERSION);
     pending := p;
     windows := [mkChromeWindow 1
                   [mkChromeTab 2 "https://mail.example.com" "Mail" JUndefined false true;
                    mkChromeTab 3 "https://news.example.com" "News" JUndefined false false;
                    mkChromeTab 4 "https://wiki.example.com" "Wiki" JUndefined false false]];
     currentWindow := 1;
     next_id := 10;
     clock := 1731259800123;
     uuid := "3f2a9c1e-7b4d-4e8a-9c3f-5d6e7f8a9b0c" |}.

(** ** Import validation (utils/validator.js) *)

Section ImportValidation.
Context `{H : Host}.

(** The loop over [data.templates]; [i] is the index of the head of
    [ts]. *)
Fixpoint validateTemplates_from (i : nat) (ts : list Template) : Validation :=
  match ts with
  | [] => valid
  | t :: ts' =>
      let templateValidation := validateTemplate t in
      if negb (isValid templateValidation)
      then invalid ("Template " +:+ pretty (i + 1)%nat +:+ ": "
                      +:+ error_message templateValidation)
      else validateTemplates_from (S i) ts'
  end.

(** [data] is [None] for a value that is no object. *)
Definition validateImportData (data : option ExportData) : Validation :=
  match data with
  | None => invalid "Import data must be an object"
  | Some data =>
      if negb (truthy (version data)) || negb (is_string (version data))
      then invalid "Import data must have version"
      else
        match templates data with
        | None => invalid "Import data must have templates array"
        | Some templates => validateTemplates_from 0 templates
        end
  end.

Definition isValidTemplatesArray (templates : option (list Template)) : bool :=
  match templates with
  | None => false
  | Some templates =>
      forallb (fun template =>
                 let validation := validateTemplate template in
                 isValid validation)
              templates
  end.

End ImportValidation.

(** An export whose second template has lost its name. *)
Definition damaged_payload : ExportData :=
  {| version := JStr "1.0.0";
     exportedAt := JStr "2024-11-10T17:30:00.123Z";
     templates := Some [used_template;
                        work_template "t3" "" JNull (JNum 0);
                        work_template "" "Third" JNull (JNum 0)] |}.

(** ** Helpers (utils/helpers.js) *)

(** [truncate(str, maxLength)] for a string [str]; [substring] reads a
    negative end as 0. *)
Definition truncate (str : string) (maxLength : Z) : string :=
  if negb (truthy (JStr str)) then ""
  else if (str_len str <=? maxLength)%Z then str
  else String.substring 0 (Z.to_nat (maxLength - 3)) str +:+ "...".

(** The object [map] of [escapeHtml], applied to one of the five characters
    that its regular expression matches, and the character itself
    otherwise. *)
Definition escape_char (m : ascii) : string :=
  if Ascii.eqb m "&" then "&amp;"
  else if Ascii.eqb m "<" then "&lt;"
  else if Ascii.eqb m ">" then "&gt;"
  else if Ascii.eqb m "034" then "&quot;"
  else if Ascii.eqb m "'" then "&#039;"
  else String m "".

Fixpoint escapeHtml (str : string) : string :=
  match str with
  | "" => ""
  | String m rest => escape_char m +:+ escapeHtml rest
  end.

(** ** Background worker (background/background.js) *)

(** A message of the popup: its [type] and the fields the handlers read. *)
Record Request : Type := mkRequest {
  r_type : jsval;
  r_templateId : jsval;
  r_name : jsval
}.

(** The answers [{ success: true, result }], [{ success: true, template }],
    [{ success: true, settings }] and [{ success: false, error }]. *)
Inductive Response : Type :=
  | Launched (result : OpenResult)
  | Saved (template : Template)
  | Behavior (settings : Settings)
  | Failed (error : string).

Module background.
Section Background.
Context `{H : Host}.

Definition handleLaunchTemplate (templateId : jsval) : Async Response :=
  try_catch
    (result <- templateManager.launchTemplate templateId no_options ;;
     ret (Launched result))
    (fun error => ret (Failed error)).

Definition handleSaveCurrentTabs (name : jsval) : Async Response :=
  try_catch
    (template <- templateManager.createFromCurrentTabs name JUndefined ;;
     ret (Saved template))
    (fun error => ret (Failed error)).

Definition handleGetStartupBehavior : Async Response :=
  try_catch
    (settings <- storageService.getSettings ;;
     ret (Behavior settings))
    (fun error => ret (Failed error)).

Definition handleMessage (request : Request) : Async Response :=
  if bool_decide (r_type request = JStr "LAUNCH_TEMPLATE")
  then handleLaunchTemplate (r_templateId request)
  else if bool_decide (r_type request = JStr "SAVE_CURRENT_TABS")
  then handleSaveCurrentTabs (r_name request)
  else if bool_decide (r_type request = JStr "GET_STARTUP_BEHAVIOR")
  then handleGetStartupBehavior
  else ret (Failed "Unknown message type").

End Background.
End background.

(** ** Startup handler (background/startupHandler.js) *)

Module startupHandler.
Section StartupHandler.
Context `{H : Host}.

(** [chrome.runtime.getURL(path)]: the address of a page of the
    extension. *)
Variable getURL : string -> string.

(** [chrome.tabs.create({ url, active: true })]: without a [windowId] the
    tab opens in the current window. *)
Definition create_active (u : string) : Async unit :=
  chrome_call (fun w =>
    let wid := currentWindow w in
    if bool_decide (wid ∈ map window_id (windows w))
    then (Returns tt,
          set_windows
            (map (chrome.tabs.add_tab wid (chrome.new_tab (next_id w) u)) (windows w))
            (next_id w + 1) w)
    else (Throws "No current window", w)).

Definition showSelector : Async unit :=
  try_catch
    (let url := getURL "startup/startup.html" in
     create_active url)
    (fun error => ret tt).

(** The callback that [autoLaunchDefault] hands to [setTimeout]; it runs
    half a second later, on the browser as it is then. *)
Definition launch_later (templateId : jsval) : Async unit :=
  try_catch
    (templateManager.launchTemplate templateId no_options ;;; ret tt)
    (fun error => ret tt).

(** The result is the callback that has been handed to [setTimeout], if
    any. *)
Definition autoLaunchDefault (templateId : jsval) : Async (option (Async unit)) :=
  try_catch
    (if negb (truthy templateId) then ret None
     else
       template <- storageService.getTemplate templateId ;;
       match template with
       | None => ret None
       | Some _ => ret (Some (launch_later templateId))
       end)
    (fun error => ret None).

Definition handleStartup : Async (option (Async unit)) :=
  try_catch
    (settings <- storageService.getSettings ;;
     if bool_decide (startupBehavior settings = JStr "show_selector")
     then showSelector ;;; ret None
     else if bool_decide (startupBehavior settings = JStr "auto_launch")
     then autoLaunchDefault (defaultTemplateId settings)
     else ret None)
    (fun error => ret None).

Definition shouldShowStartup : Async bool :=
  try_catch
    (settings <- storageService.getSettings ;;
     ret (bool_decide (startupBehavior settings = JStr "show_selector")))
    (fun error => ret false).

End StartupHandler.
End startupHandler.

(** [m] always returns: no error reaches its caller. *)
Definition answers {A} (m : Async A) : Prop :=
  forall w, exists a w', m w = (Returns a, w').

(** Settings that launch the template [t1] when the browser starts. *)
Definition auto_launch_settings : Settings :=
  {| startupBehavior := JStr "auto_launch";
     defaultTemplateId := JStr "t1";
     openBehavior := JStr "new_window";
     closeExistingTabs := JBool false;
     sortBy := JStr "lastUsed";
     sortOrder := JStr "desc";
     theme := JStr "auto";
     showFavicons := JBool true;
     confirmDelete := JBool true |}.

Definition auto_launch_world (l : list Template) (p : list (option string)) : World :=
  set_sync (set_SETTINGS auto_launch_settings (sync (world_with l p)))
           (world_with l p).

(** The address of a page in an extension with a made-up id. *)
Definition extension_page (path : string) : string :=
  "chrome-extension://quicksessions/" +:+ path.

(** A template that has been launched 2^53 times, as an import can store
    it, and a second template with the id of [used_template]. *)
Definition saturated_template : Template :=
  work_template "t1" "Work" JNull (JNum 9007199254740992).

Definition twin_template : Template :=
  work_template "t1" "Twin" JNull (JNum 0).

(** * Properties *)

(** ** The concrete host at work *)

Example toISOString_2024 :
  SimpleHost.isoString 1731259800123 = "2024-11-10T17:30:00.123Z".
Proof. vm_compute. reflexivity. Qed.

Example Date_parse_2024 :
  SimpleHost.parseDate "2024-11-10T17:30:00.123Z" = Some 1731259800123.
Proof. vm_compute. reflexivity. Qed.

Example Date_parse_not_a_date : SimpleHost.parseDate "2024-02-30T00:00:00.000Z" = None.
Proof. vm_compute. reflexivity. Qed.

Example URL_parse_https :
  SimpleHost.parseURL "https://mail.example.com/inbox" = Some ("https:", "mail.example.com").
Proof. vm_compute. reflexivity. Qed.

Example URL_parse_chrome :
  SimpleHost.parseURL "chrome://settings" = Some ("chrome:", "settings").
Proof. vm_compute. reflexivity. Qed.

Example isValidUrl_chrome_settings :
  tabService.isValidUrl (H := SimpleHost.host) (JStr "chrome://settings") = false
  /\ tabService.isValidUrl (H := SimpleHost.host) (JStr "https://example.com") = true.
Proof. vm_compute. split; reflexivity. Qed.

(** Create the empty template "Work", add the mail tab, launch it into a
    new window: one new window with that one tab, and a usage count of 1. *)
Example scenario_work_template :
  let w1 := snd (templateManager.createEmpty (H := SimpleHost.host)
                   (JStr "Work") JUndefined (world_with [] [])) in
  let w2 := snd (templateManager.addTab (H := SimpleHost.host)
                   (JStr (uuid w1)) mail_tab w1) in
  let run := templateManager.launchTemplate (H := SimpleHost.host) (JStr (uuid w1))
               (mkLaunchOptions (JStr "new_window") JUndefined) w2 in
  fst run = Returns {| success := true; openedTabs := 1; windowId := Some 10 |}
  /\ map (fun cw => map tab_url (window_tabs cw)) (windows (snd run))
     = [[]; ["https://mail.example.com"]]
  /\ map usageCount (stored (snd run)) = [JNum 1].
Proof. vm_compute. repeat split. Qed.

(** ** Reading operations leave the stored data alone *)



Lemma frame_refl w : frame w w.
Proof. repeat split. Qed.

Lemma frame_trans w1 w2 w3 : frame w1 w2 -> frame w2 w3 -> frame w1 w3.
Proof. unfold frame. intuition congruence. Qed.

Lemma frame_set_pending p w : frame w (set_pending p w).
Proof. repeat split. Qed.

Lemma frame_set_windows ws n w : frame w (set_windows ws n w).
Proof. repeat split. Qed.

Lemma reads_ret {A} (a : A) : reads (ret a).
Proof. intros w. apply frame_refl. Qed.

Lemma reads_throw {A} e : reads (@throw A e).
Proof. intros w. apply frame_refl. Qed.

Lemma reads_bind {A B} (m : Async A) (k : A -> Async B) :
  reads m -> (forall a, reads (k a)) -> reads (bind m k).
Proof.
  intros Hm Hk w. unfold bind. specialize (Hm w).
  destruct (m w) as [[a | e] w1]; simpl in *; [| exact Hm].
  eapply frame_trans; [exact Hm | apply Hk].
Qed.

Lemma reads_try_catch {A} (m : Async A) (h : string -> Async A) :
  reads m -> (forall e, reads (h e)) -> reads (try_catch m h).
Proof.
  intros Hm Hh w. unfold try_catch. specialize (Hm w).
  destruct (m w) as [[a | e] w1]; simpl in *; [exact Hm |].
  eapply frame_trans; [exact Hm | apply Hh].
Qed.

Lemma reads_chrome_call {A} (api : Async A) : reads api -> reads (chrome_call api).
Proof.
  intros Hapi w. unfold chrome_call.
  destruct (pending w) as [| [e |] rest]; simpl.
  - apply Hapi.
  - apply frame_set_pending.
  - eapply frame_trans; [apply (frame_set_pending rest) | apply Hapi].
Qed.

Lemma reads_for_of {A} (xs : list A) (body : A -> Async unit) :
  (forall x, reads (body x)) -> reads (for_of xs body).
Proof.
  intros Hbody. induction xs as [| x xs IH]; simpl.
  - apply reads_ret.
  - apply reads_bind; [apply Hbody | intros _; exact IH].
Qed.

Lemma reads_check_all {A} (xs : list A) (check : A -> option string) :
  reads (check_all xs check).
Proof.
  induction xs as [| x xs IH]; simpl.
  - apply reads_ret.
  - destruct (check x); [apply reads_throw | exact IH].
Qed.

Lemma reads_if {A} (b : bool) (m1 m2 : Async A) :
  reads m1 -> reads m2 -> reads (if b then m1 else m2).
Proof. destruct b; auto. Qed.

Create HintDb reads discriminated.
#[local] Hint Resolve reads_ret reads_throw reads_check_all frame_refl : reads.
#[local] Hint Resolve reads_bind reads_try_catch reads_chrome_call
  reads_for_of reads_if : reads.

Ltac reads_api :=
  let w := fresh "w" in
  intros w; simpl;
  repeat match goal with
         | |- context [if ?b then _ else _] => destruct b
         end;
  simpl; repeat split.

Lemma reads_storage_get : reads chrome.storage.get.
Proof. apply reads_chrome_call. reads_api. Qed.

Lemma reads_getBytesInUse `{H : Host} : reads chrome.storage.getBytesInUse.
Proof. apply reads_chrome_call. reads_api. Qed.

Lemma reads_windows_create u : reads (chrome.windows.create u).
Proof. apply reads_chrome_call. reads_api. Qed.

Lemma reads_windows_getCurrent : reads chrome.windows.getCurrent.
Proof. apply reads_chrome_call. reads_api. Qed.

Lemma reads_tabs_create wid u : reads (chrome.tabs.create wid u).
Proof. apply reads_chrome_call. reads_api. Qed.

Lemma reads_tabs_query wid : reads (chrome.tabs.query wid).
Proof. apply reads_chrome_call. reads_api. Qed.

Lemma reads_tabs_query_current : reads chrome.tabs.query_current.
Proof. apply reads_chrome_call. reads_api. Qed.

Lemma reads_tabs_remove i : reads (chrome.tabs.remove i).
Proof. apply reads_chrome_call. reads_api. Qed.

Lemma reads_now_iso `{H : Host} : reads now_iso.
Proof. intros w. apply frame_refl. Qed.

Lemma reads_generateUUID : reads generateUUID.
Proof. intros w. apply frame_refl. Qed.

#[local] Hint Resolve reads_storage_get reads_getBytesInUse reads_windows_create
  reads_windows_getCurrent reads_tabs_create reads_tabs_query
  reads_tabs_query_current reads_tabs_remove reads_now_iso
  reads_generateUUID : reads.

Ltac solve_reads :=
  repeat first
    [ progress intros
    | apply reads_ret | apply reads_throw | apply reads_check_all
    | apply reads_bind | apply reads_try_catch | apply reads_for_of
    | match goal with
      | |- reads (if ?b then _ else _) => destruct b
      | |- reads (match ?l with [] => _ | _ :: _ => _ end) => destruct l
      | |- reads (match ?o with Some _ => _ | None => _ end) => destruct o
      end
    | solve [auto with reads] ].

Lemma reads_getTemplates : reads storageService.getTemplates.
Proof. unfold storageService.getTemplates. solve_reads. Qed.

Lemma reads_getSettings : reads storageService.getSettings.
Proof. unfold storageService.getSettings. solve_reads. Qed.

#[local] Hint Resolve reads_getTemplates reads_getSettings : reads.

Lemma reads_getTemplate templateId : reads (storageService.getTemplate templateId).
Proof. unfold storageService.getTemplate. solve_reads. Qed.

Lemma reads_getStorageInfo `{H : Host} : reads storageService.getStorageInfo.
Proof. unfold storageService.getStorageInfo. solve_reads. Qed.

Lemma reads_openTabs `{H : Host} tabs openBehavior closeExisting :
  reads (tabService.openTabs tabs openBehavior closeExisting).
Proof.
  unfold tabService.openTabs, tabService.openInNewWindow,
    tabService.openInCurrentWindow, tabService.replaceTabs.
  solve_reads.
Qed.

#[local] Hint Resolve reads_getTemplate reads_openTabs : reads.


Lemma reads_guarded {A} (m : Async A) : reads m -> guarded m.
Proof. intros Hm w e w' E. specialize (Hm w). rewrite E in Hm. exact Hm. Qed.

Lemma guarded_bind {A B} (m : Async A) (k : A -> Async B) :
  reads m -> (forall a, guarded (k a)) -> guarded (bind m k).
Proof.
  intros Hm Hk w e w'. unfold bind. specialize (Hm w).
  destruct (m w) as [[a | e1] w1]; simpl in Hm; intros E.
  - eapply frame_trans; [exact Hm | eapply Hk; exact E].
  - inversion E; subst. exact Hm.
Qed.

Lemma guarded_then_ret {A B} (m : Async A) (b : B) :
  guarded m -> guarded (bind m (fun _ => ret b)).
Proof.
  intros Hm w e w'. unfold bind, ret.
  destruct (m w) as [[a | e1] w1] eqn:E; intros E'; inversion E'; subst.
  eapply Hm; exact E.
Qed.

Lemma guarded_storage_set put : guarded (chrome.storage.set put).
Proof.
  intros w e w'. unfold chrome.storage.set, chrome_call.
  destruct (pending w) as [| [e1 |] rest]; intros E; inversion E; subst.
  apply frame_set_pending.
Qed.

Ltac solve_guarded :=
  repeat first
    [ progress intros
    | apply guarded_then_ret; apply guarded_storage_set
    | apply guarded_bind; [solve [solve_reads] |]
    | match goal with
      | |- guarded (if ?b then _ else _) => destruct b
      | |- guarded (match ?o with Some _ => _ | None => _ end) => destruct o
      | |- guarded (let (_, _) := ?p in _) => destruct p
      end
    | solve [apply reads_guarded; solve_reads] ].

Section Guarded.
Context `{H : Host}.

Lemma guarded_saveTemplate t : guarded (storageService.saveTemplate t).
Proof. unfold storageService.saveTemplate. solve_guarded. Qed.

Lemma guarded_updateTemplate i u : guarded (storageService.updateTemplate i u).
Proof. unfold storageService.updateTemplate. solve_guarded. Qed.

Lemma guarded_deleteTemplate i : guarded (storageService.deleteTemplate i).
Proof. unfold storageService.deleteTemplate. solve_guarded. Qed.

Lemma guarded_updateTemplateUsage i :
  guarded (storageService.updateTemplateUsage i).
Proof. unfold storageService.updateTemplateUsage. solve_guarded. Qed.

Lemma guarded_updateSettings u : guarded (storageService.updateSettings u).
Proof. unfold storageService.updateSettings. solve_guarded. Qed.

Lemma guarded_resetSettings : guarded storageService.resetSettings.
Proof. unfold storageService.resetSettings. solve_guarded. Qed.

Lemma guarded_clearTemplates : guarded storageService.clearTemplates.
Proof. unfold storageService.clearTemplates. solve_guarded. Qed.

Lemma guarded_importData d merge : guarded (storageService.importData d merge).
Proof. unfold storageService.importData. solve_guarded. Qed.

Lemma guarded_launchTemplate i o : guarded (templateManager.launchTemplate i o).
Proof.
  unfold templateManager.launchTemplate. solve_guarded.
  apply guarded_then_ret, guarded_updateTemplateUsage.
Qed.

Lemma guarded_addTab i tab : guarded (templateManager.addTab i tab).
Proof.
  unfold templateManager.addTab. solve_guarded.
  apply guarded_then_ret, guarded_updateTemplate.
Qed.

Lemma guarded_duplicateTemplate i : guarded (templateManager.duplicateTemplate i).
Proof.
  unfold templateManager.duplicateTemplate. solve_guarded.
  apply guarded_then_ret, guarded_saveTemplate.
Qed.

End Guarded.

(** ** What the storage calls return *)

Lemma storage_get_quiet w :
  quiet w -> chrome.storage.get w = (Returns (sync w), w).
Proof. unfold quiet, chrome.storage.get, chrome_call. intros ->. reflexivity. Qed.

Lemma storage_set_quiet put w :
  quiet w ->
  chrome.storage.set put w = (Returns tt, set_sync (put (sync w)) w).
Proof. unfold quiet, chrome.storage.set, chrome_call. intros ->. reflexivity. Qed.

Lemma storage_get_rejected e rest w :
  pending w = Some e :: rest ->
  chrome.storage.get w = (Throws e, set_pending rest w).
Proof. unfold chrome.storage.get, chrome_call. intros ->. reflexivity. Qed.

Lemma storage_set_rejected put e rest w :
  pending w = Some e :: rest ->
  chrome.storage.set put w = (Throws e, set_pending rest w).
Proof. unfold chrome.storage.set, chrome_call. intros ->. reflexivity. Qed.

(** A write either goes through or is rejected whole. *)
Lemma storage_set_cases put w :
  (exists w1, chrome.storage.set put w = (Returns tt, w1)
              /\ sync w1 = put (sync w)
              /\ clock w1 = clock w /\ uuid w1 = uuid w)
  \/ (exists e w1, chrome.storage.set put w = (Throws e, w1) /\ frame w w1).
Proof.
  unfold chrome.storage.set, chrome_call.
  destruct (pending w) as [| [e |] rest].
  - left. eexists. repeat split.
  - right. eexists _, _. split; [reflexivity | apply frame_set_pending].
  - left. eexists. repeat split.
Qed.

Lemma getTemplates_quiet w :
  quiet w -> storageService.getTemplates w = (Returns (stored w), w).
Proof.
  intros Q. unfold storageService.getTemplates, try_catch, bind.
  rewrite (storage_get_quiet _ Q). reflexivity.
Qed.

(** On a rejected read [getTemplates] answers the empty list. *)
Lemma getTemplates_rejected e rest w :
  pending w = Some e :: rest ->
  storageService.getTemplates w = (Returns [], set_pending rest w).
Proof.
  intros P. unfold storageService.getTemplates, try_catch, bind.
  rewrite (storage_get_rejected _ _ _ P). reflexivity.
Qed.

Lemma getTemplates_cases w :
  exists l w1, storageService.getTemplates w = (Returns l, w1)
               /\ frame w w1 /\ (l = stored w \/ l = []).
Proof.
  unfold storageService.getTemplates, try_catch, bind, chrome.storage.get,
    chrome_call, ret, deepClone, stored.
  destruct (pending w) as [| [e |] rest]; simpl;
    eexists _, _; (split; [reflexivity |]); split;
    auto using frame_refl, frame_set_pending.
Qed.


Lemma getTemplate_quiet templateId w :
  quiet w ->
  storageService.getTemplate templateId w
  = (Returns (find_template templateId (stored w)), w).
Proof.
  intros Q. unfold storageService.getTemplate, try_catch, bind.
  rewrite (getTemplates_quiet _ Q). reflexivity.
Qed.

Lemma getTemplate_cases templateId w :
  exists found w1,
    storageService.getTemplate templateId w = (Returns found, w1)
    /\ frame w w1
    /\ (found = find_template templateId (stored w) \/ found = None).
Proof.
  destruct (getTemplates_cases w) as (l & w1 & E & F & Hl).
  unfold storageService.getTemplate, try_catch, bind. rewrite E. simpl.
  eexists _, _. split; [reflexivity |]. split; [exact F |].
  destruct Hl as [-> | ->]; [left | right]; reflexivity.
Qed.

Lemma getSettings_quiet w :
  quiet w ->
  storageService.getSettings w
  = (Returns (default DEFAULT_SETTINGS (SETTINGS (sync w))), w).
Proof.
  intros Q. unfold storageService.getSettings, try_catch, bind.
  rewrite (storage_get_quiet _ Q). reflexivity.
Qed.

Lemma getSettings_rejected e rest w :
  pending w = Some e :: rest ->
  storageService.getSettings w = (Returns DEFAULT_SETTINGS, set_pending rest w).
Proof.
  intros P. unfold storageService.getSettings, try_catch, bind.
  rewrite (storage_get_rejected _ _ _ P). reflexivity.
Qed.

Lemma getSettings_cases w :
  exists s w1, storageService.getSettings w = (Returns s, w1)
               /\ frame w w1
               /\ (s = default DEFAULT_SETTINGS (SETTINGS (sync w))
                   \/ s = DEFAULT_SETTINGS)
               /\ (quiet w -> s = default DEFAULT_SETTINGS (SETTINGS (sync w))).
Proof.
  unfold storageService.getSettings, try_catch, bind, chrome.storage.get,
    chrome_call, ret, deepClone, quiet.
  destruct (pending w) as [| [e |] rest]; simpl;
    eexists _, _; (split; [reflexivity |]); (split; [| split]);
    auto using frame_refl, frame_set_pending; discriminate.
Qed.

(** [find] and [findIndex] pick the same element. *)
Lemma list_find_find_template templateId l :
  snd <$> list_find (fun t => id t = templateId) l = find_template templateId l.
Proof.
  unfold find_template. induction l as [| t l IH]; simpl; [reflexivity |].
  rewrite <- IH. unfold bool_decide.
  destruct (decide_rel eq (id t) templateId); simpl; [reflexivity |].
  destruct (list_find _ l) as [[i x] |]; reflexivity.
Qed.

Lemma stored_set_TEMPLATES l s w :
  sync w = set_TEMPLATES l s -> stored w = l.
Proof. unfold stored. intros ->. reflexivity. Qed.

(** ** Launching a template *)

Section Launch.
Context `{H : Host}.

(** A run of [updateTemplateUsage] that returns has replaced the first
    template with the given id by its touched version. *)
Lemma updateTemplateUsage_returns templateId w b w' :
  storageService.updateTemplateUsage templateId w = (Returns b, w') ->
  exists i T,
    list_find (fun t => id t = templateId) (stored w) = Some (i, T)
    /\ stored w' = <[i := storageService.touch (toISOString (clock w)) T]> (stored w).
Proof.
  unfold storageService.updateTemplateUsage, bind.
  destruct (getTemplates_cases w) as (l & w1 & E & (Fs & Fc & Fu) & Hl).
  rewrite E.
  destruct (list_find (fun t => id t = templateId) l) as [[i T] |] eqn:Efind;
    [| discriminate].
  destruct Hl as [-> | ->]; [| discriminate].
  unfold now_iso.
  destruct (storage_set_cases
              (set_TEMPLATES
                 (<[i := storageService.touch (toISOString (clock w1)) T]> (stored w)))
              w1) as [(w2 & E2 & S2 & _) | (e & w2 & E2 & _)];
    rewrite E2; [| discriminate].
  intros E'; inversion E'; subst. exists i, T. split; [exact Efind |].
  rewrite <- Fc. eapply stored_set_TEMPLATES. exact S2.
Qed.

(** A launch that returns went through [updateTemplateUsage] on
    unchanged data, for a template that has tabs. *)
Lemma launchTemplate_returns templateId options result w w' :
  templateManager.launchTemplate templateId options w = (Returns result, w') ->
  exists T w3,
    find_template templateId (stored w) = Some T
    /\ tabs T <> []
    /\ frame w w3
    /\ storageService.updateTemplateUsage templateId w3 = (Returns true, w').
Proof.
  unfold templateManager.launchTemplate, bind at 1.
  destruct (getTemplate_cases templateId w) as (found & w1 & E & F1 & Hfound).
  rewrite E.
  destruct found as [T |]; [| discriminate].
  destruct Hfound as [Hfound | ?]; [| discriminate].
  destruct (Z.of_nat (length (tabs T)) =? 0)%Z eqn:Elen; [discriminate |].
  unfold bind at 1.
  match goal with
  | |- context [match ?m w1 with _ => _ end] =>
      assert (Rm : reads m) by solve_reads;
      specialize (Rm w1); destruct (m w1) as [[o | e] w2]; [| discriminate]
  end.
  simpl in Rm. unfold bind at 1.
  pose proof (reads_openTabs (tabs T) (o_openBehavior o) (o_closeExisting o) w2) as R3.
  destruct (tabService.openTabs _ _ _ w2) as [[r | e] w3]; [| discriminate].
  simpl in R3. unfold bind, ret.
  destruct (storageService.updateTemplateUsage templateId w3)
    as [[b | e] w4] eqn:E4; [| discriminate].
  intros E'; inversion E'; subst.
  exists T, w3. repeat split.
  - symmetry. exact Hfound.
  - intros Hnil. rewrite Hnil in Elen. discriminate.
  - eapply frame_trans; [| exact R3]. eapply frame_trans; [exact F1 | exact Rm].
  - eapply frame_trans; [| exact R3]. eapply frame_trans; [exact F1 | exact Rm].
  - eapply frame_trans; [| exact R3]. eapply frame_trans; [exact F1 | exact Rm].
  - destruct b; [exact E4 |].
    exfalso. revert E4. unfold storageService.updateTemplateUsage, bind, ret.
    repeat match goal with
           | |- context [match ?x with _ => _ end] => destruct x
           end; discriminate.
Qed.

End Launch.

Section LaunchUsage.
Context `{H : Host}.

(** Up to 2^53 in magnitude every integer is a double. *)
Lemma to_double_exact x : (Z.abs x <= 2 ^ 53)%Z -> to_double x = x.
Proof.
  intros Hx. unfold to_double.
  destruct (Z.leb_spec (Z.abs x) (2 ^ 53)) as [_ | Hgt]; [reflexivity | lia].
Qed.

(** Above 2^53 the doubles are 2 apart, above 2^54 they are 4 apart; a
    tie goes to the even significand. *)
Example to_double_rounds :
  to_double (2 ^ 53 + 1) = (2 ^ 53)%Z
  /\ to_double (2 ^ 53 + 2) = (2 ^ 53 + 2)%Z
  /\ to_double (2 ^ 53 + 3) = (2 ^ 53 + 4)%Z
  /\ to_double (- (2 ^ 53 + 1)) = (- 2 ^ 53)%Z
  /\ to_double (2 ^ 54 + 1) = (2 ^ 54)%Z
  /\ to_double (2 ^ 54 + 2) = (2 ^ 54)%Z
  /\ to_double (2 ^ 54 + 3) = (2 ^ 54 + 4)%Z
  /\ to_double (2 ^ 54 + 6) = (2 ^ 54 + 8)%Z.
Proof. vm_compute. repeat split. Qed.

Lemma touch_usageCount stamp T n :
  usageCount T = JNum n ->
  usageCount (storageService.touch stamp T) = JNum (to_double (n + 1)).
Proof.
  intros E. unfold storageService.touch, js_or. cbn [usageCount]. rewrite E.
  cbn [truthy]. destruct (Z.eqb_spec n 0) as [-> |]; reflexivity.
Qed.

Lemma touch_usageCount_falsy stamp T :
  truthy (usageCount T) = false ->
  usageCount (storageService.touch stamp T) = JNum 1.
Proof.
  intros E. unfold storageService.touch, js_or. cbn [usageCount]. rewrite E.
  reflexivity.
Qed.


End LaunchUsage.

(** *** A launch into a new window returns

    On a browser that rejects nothing, a template with tabs whose URLs all
    pass [validateUrl] opens in a new window, and the launch returns. *)

Lemma check_all_pass {A} (xs : list A) (check : A -> option string) w :
  (forall x, x ∈ xs -> check x = None) ->
  check_all xs check w = (Returns tt, w).
Proof.
  induction xs as [| x xs IH]; simpl; intros Hok; [reflexivity |].
  rewrite (Hok x) by apply list_elem_of_here.
  apply IH. intros y Hy. apply Hok. apply list_elem_of_further. exact Hy.
Qed.

Lemma tabs_create_quiet wid u w :
  quiet w -> wid ∈ map window_id (windows w) ->
  exists w', chrome.tabs.create wid u w = (Returns tt, w')
             /\ quiet w' /\ frame w w' /\ wid ∈ map window_id (windows w').
Proof.
  unfold quiet. intros Q Hwid. unfold chrome.tabs.create, chrome_call. rewrite Q.
  rewrite bool_decide_eq_true_2 by exact Hwid.
  eexists. split; [reflexivity |]. split; [exact Q |].
  split; [apply frame_set_windows |].
  cbn [windows set_windows]. rewrite map_map.
  erewrite map_ext; [exact Hwid |].
  intros cw. unfold chrome.tabs.add_tab. destruct (bool_decide _); reflexivity.
Qed.

Lemma for_of_create_quiet `{H : Host} wid (tabs : list Tab) w :
  quiet w -> wid ∈ map window_id (windows w) ->
  exists w',
    for_of tabs (fun tab => chrome.tabs.create wid (tabService.url_string tab)) w
    = (Returns tt, w')
    /\ quiet w' /\ frame w w'.
Proof.
  revert w. induction tabs as [| tab tabs IH]; intros w Q Hwid; simpl.
  - exists w. split; [reflexivity |]. split; [exact Q | apply frame_refl].
  - destruct (tabs_create_quiet wid (tabService.url_string tab) w Q Hwid)
      as (w1 & E1 & Q1 & F1 & Hwid1).
    unfold bind. rewrite E1.
    destruct (IH w1 Q1 Hwid1) as (w2 & E2 & Q2 & F2).
    exists w2. split; [exact E2 |]. split; [exact Q2 |].
    eapply frame_trans; eassumption.
Qed.

Lemma openInNewWindow_quiet `{H : Host} (tabs : list Tab) w :
  quiet w -> tabs <> [] ->
  exists w',
    tabService.openInNewWindow tabs w
    = (Returns {| success := true;
                  openedTabs := Z.of_nat (length tabs);
                  windowId := Some (next_id w) |}, w')
    /\ quiet w' /\ frame w w'.
Proof.
  intros Q Htabs. destruct tabs as [| first remaining]; [contradiction |].
  unfold tabService.openInNewWindow, bind at 1.
  unfold chrome.windows.create, chrome_call. rewrite Q.
  set (w1 := set_windows _ _ w).
  destruct (for_of_create_quiet (next_id w) remaining w1) as (w2 & E2 & Q2 & F2).
  - exact Q.
  - subst w1. cbn [windows set_windows]. rewrite map_app.
    apply elem_of_app. right. apply list_elem_of_here.
  - unfold bind. rewrite E2. exists w2.
    split; [reflexivity |]. split; [exact Q2 |].
    eapply frame_trans; [apply frame_set_windows | exact F2].
Qed.

Lemma updateTemplateUsage_quiet `{H : Host} templateId i T w :
  quiet w ->
  list_find (fun t => id t = templateId) (stored w) = Some (i, T) ->
  storageService.updateTemplateUsage templateId w
  = (Returns true,
     set_sync (set_TEMPLATES
                 (<[i := storageService.touch (toISOString (clock w)) T]> (stored w))
                 (sync w)) w).
Proof.
  intros Q Hfind. unfold storageService.updateTemplateUsage, bind at 1.
  rewrite (getTemplates_quiet _ Q), Hfind.
  unfold bind, now_iso. rewrite (storage_set_quiet _ _ Q). reflexivity.
Qed.

Lemma launchTemplate_new_window_returns `{H : Host} templateId closeExisting i T w :
  quiet w ->
  list_find (fun t => id t = templateId) (stored w) = Some (i, T) ->
  tabs T <> [] ->
  (forall tab, tab ∈ tabs T -> isValid (validateUrl (url tab)) = true) ->
  exists w',
    templateManager.launchTemplate templateId
      (mkLaunchOptions (JStr "new_window") closeExisting) w
    = (Returns {| success := true;
                  openedTabs := Z.of_nat (length (tabs T));
                  windowId := Some (next_id w) |}, w')
    /\ stored w' = <[i := storageService.touch (toISOString (clock w)) T]> (stored w).
Proof.
  intros Q Hfind Htabs Hurls.
  assert (Hfound : find_template templateId (stored w) = Some T).
  { rewrite <- list_find_find_template, Hfind. reflexivity. }
  destruct (openInNewWindow_quiet (tabs T) w Q Htabs) as (w1 & E1 & Q1 & (Fs & Fc & Fu)).
  assert (Hopen : tabService.openTabs (tabs T) (JStr "new_window") closeExisting w
                  = (Returns {| success := true;
                                openedTabs := Z.of_nat (length (tabs T));
                                windowId := Some (next_id w) |}, w1)).
  { unfold tabService.openTabs.
    destruct (Z.eqb_spec (Z.of_nat (length (tabs T))) 0) as [Hlen |].
    - destruct (tabs T); [contradiction | cbn [length] in Hlen; lia].
    - unfold bind. rewrite check_all_pass.
      + destruct (bool_decide (JStr "new_window" = JUndefined));
          rewrite bool_decide_eq_true_2 by reflexivity; exact E1.
      + intros tab Htab. rewrite (Hurls tab Htab). reflexivity. }
  assert (Hw1 : stored w1 = stored w) by (unfold stored; rewrite Fs; reflexivity).
  eexists. split.
  - unfold templateManager.launchTemplate, bind at 1.
    rewrite (getTemplate_quiet _ _ Q), Hfound.
    destruct (Z.eqb_spec (Z.of_nat (length (tabs T))) 0) as [Hlen |].
    { destruct (tabs T); [contradiction | cbn [length] in Hlen; lia]. }
    cbn [o_openBehavior truthy negb String.eqb Ascii.eqb Bool.eqb].
    unfold bind at 1, ret at 1. cbn [o_openBehavior o_closeExisting].
    unfold bind at 1. rewrite Hopen.
    unfold bind. rewrite (updateTemplateUsage_quiet templateId i T w1 Q1);
      [reflexivity | rewrite Hw1; exact Hfind].
  - cbn [stored sync set_sync set_TEMPLATES TEMPLATES default].
    rewrite Hw1, Fc. reflexivity.
Qed.


(** The count stops at 2^53: the launch returns, and the stored count,
    which [validateTemplate] accepts, is the same after it. *)
Example launch_keeps_usageCount_at_2_53 :
  let w := world_with [saturated_template] [] in
  let run := templateManager.launchTemplate (H := SimpleHost.host)
               (JStr "t1") no_options w in
  isValid (validateTemplate (H := SimpleHost.host) saturated_template) = true
  /\ fst run = Returns {| success := true; openedTabs := 1; windowId := Some 10 |}
  /\ usageCount <$> (stored w !! 0%nat) = Some (JNum (2 ^ 53))
  /\ usageCount <$> (stored (snd run) !! 0%nat) = Some (JNum (2 ^ 53)).
Proof. vm_compute. repeat split. Qed.


Lemma find_template_None templateId l :
  templateId ∉ map id l -> find_template templateId l = None.
Proof.
  unfold find_template. induction l as [| t l IH]; simpl; [reflexivity |].
  intros Hnot. rewrite not_elem_of_cons in Hnot. destruct Hnot as [Hne Hnot].
  rewrite bool_decide_eq_false_2 by congruence. auto.
Qed.

Section LaunchFailure.
Context `{H : Host}.

(** C2: a launch fails when no stored template has the id or when the
    template found has no tabs, and a launch that fails, at whatever step
    (lookup, opening of the tabs, recording of the usage), leaves the
    stored data, [usageCount] and [lastUsedAt] included, as they were. *)
Theorem launchTemplate_failure templateId options w :
  ((templateId ∉ map id (stored w)
    \/ exists T, find_template templateId (stored w) = Some T /\ tabs T = []) ->
   exists e, fst (templateManager.launchTemplate templateId options w) = Throws e)
  /\ (forall e w',
        templateManager.launchTemplate templateId options w = (Throws e, w') ->
        sync w' = sync w).
Proof.
  split.
  - intros Hcase. unfold templateManager.launchTemplate, bind at 1.
    destruct (getTemplate_cases templateId w) as (found & w1 & E & _ & Hfound).
    rewrite E.
    destruct Hfound as [-> | ->]; [| eexists; reflexivity].
    destruct Hcase as [Hnot | (T & -> & Hnil)].
    + rewrite (find_template_None _ _ Hnot). eexists; reflexivity.
    + rewrite Hnil. eexists; reflexivity.
  - intros e w' E. apply (guarded_launchTemplate _ _ _ _ _ E).
Qed.

End LaunchFailure.

(** A launch of the template without tabs, and a launch whose last call,
    the write of the usage, is rejected. *)
Lemma launchTemplate_failure_witness :
  (exists e, fst (templateManager.launchTemplate (H := SimpleHost.host)
                    (JStr "t2") no_options (world_with [used_template; empty_template] []))
             = Throws e)
  /\ sync (snd (templateManager.launchTemplate (H := SimpleHost.host)
                  (JStr "t1") no_options
                  (world_with [used_template] [None; None; None; None; Some "QUOTA_BYTES exceeded"])))
     = sync (world_with [used_template] [None; None; None; None; Some "QUOTA_BYTES exceeded"]).
Proof.
  split.
  - apply (launchTemplate_failure (H := SimpleHost.host) (JStr "t2") no_options
             (world_with [used_template; empty_template] [])).
    right. exists empty_template. split; reflexivity.
  - apply (proj2 (launchTemplate_failure (H := SimpleHost.host) (JStr "t1") no_options
                    (world_with [used_template] [None; None; None; None; Some "QUOTA_BYTES exceeded"]))
             "QUOTA_BYTES exceeded").
    vm_compute. reflexivity.
Defined.

Section AddTab.
Context `{H : Host}.

(** C3: when the template found for the id holds [TEMPLATE.MAX_TABS] tabs
    or more, [addTab] with a valid tab throws and the stored data are
    unchanged; with a browser that answers the read, the error is the
    capacity error. *)
Theorem addTab_at_capacity templateId tab T w :
  isValid (validateTab tab) = true ->
  find_template templateId (stored w) = Some T ->
  (TEMPLATE.MAX_TABS <= Z.of_nat (length (tabs T)))%Z ->
  (exists e w', templateManager.addTab templateId tab w = (Throws e, w')
                /\ sync w' = sync w)
  /\ (quiet w ->
      templateManager.addTab templateId tab w
      = (Throws "Maximum 100 tabs per template", w)).
Proof.
  intros Hvalid Hfind Hfull.
  assert (Hge : (Z.of_nat (length (tabs T)) >=? TEMPLATE.MAX_TABS)%Z = true)
    by (apply Z.geb_le; exact Hfull).
  split.
  - unfold templateManager.addTab. rewrite Hvalid. simpl. unfold bind at 1.
    destruct (getTemplate_cases templateId w) as (found & w1 & E & (Fs & _) & Hfound).
    rewrite E. destruct Hfound as [-> | ->].
    + rewrite Hfind, Hge. eexists _, _. split; [reflexivity | exact Fs].
    + eexists _, _. split; [reflexivity | exact Fs].
  - intros Q. unfold templateManager.addTab. rewrite Hvalid. simpl. unfold bind at 1.
    rewrite (getTemplate_quiet _ _ Q), Hfind, Hge. reflexivity.
Qed.

End AddTab.

(** One more tab for [full_template]. *)
Lemma addTab_at_capacity_witness :
  (exists e w',
     templateManager.addTab (H := SimpleHost.host) (JStr "t3") mail_tab
       (world_with [full_template] []) = (Throws e, w')
     /\ sync w' = sync (world_with [full_template] []))
  /\ templateManager.addTab (H := SimpleHost.host) (JStr "t3") mail_tab
       (world_with [full_template] [])
     = (Throws "Maximum 100 tabs per template", world_with [full_template] []).
Proof.
  assert (Hvalid : isValid (validateTab (H := SimpleHost.host) mail_tab) = true)
    by (vm_compute; reflexivity).
  assert (Hfind : find_template (JStr "t3") (stored (world_with [full_template] []))
                  = Some full_template) by (vm_compute; reflexivity).
  assert (Hfull : (TEMPLATE.MAX_TABS <= Z.of_nat (length (tabs full_template)))%Z)
    by (vm_compute; discriminate).
  destruct (addTab_at_capacity (H := SimpleHost.host) (JStr "t3") mail_tab
              full_template (world_with [full_template] []) Hvalid Hfind Hfull)
    as [Hthrows Hcapacity].
  split; [exact Hthrows | apply Hcapacity; reflexivity].
Defined.

(** ** Export and import *)

Lemma filter_nothing {A} (f : A -> bool) (l : list A) :
  (forall x, x ∈ l -> f x = false) -> List.filter f l = [].
Proof.
  induction l as [| x l IH]; simpl; intros Hf; [reflexivity |].
  rewrite (Hf x) by apply list_elem_of_here.
  apply IH. intros y Hy. apply Hf. apply list_elem_of_further. exact Hy.
Qed.

(** Every template of a list collides with the list itself. *)
Lemma newTemplates_self l : newTemplates l l = [].
Proof.
  unfold newTemplates. apply filter_nothing. intros t Ht.
  rewrite bool_decide_eq_true_2; [reflexivity |].
  apply list_elem_of_fmap_2. exact Ht.
Qed.

Lemma importData_quiet d merge imported w :
  quiet w ->
  templates d = Some imported ->
  storageService.importData d merge w
  = (Returns (Z.of_nat (length imported)),
     set_sync (set_TEMPLATES
                 (if merge then stored w ++ newTemplates (stored w) imported
                  else imported)
                 (sync w)) w).
Proof.
  intros Q Hd. unfold storageService.importData. rewrite Hd.
  destruct merge; unfold bind at 1.
  - unfold bind at 1. rewrite (getTemplates_quiet _ Q). unfold ret at 1.
    unfold bind. rewrite (storage_set_quiet _ _ Q). reflexivity.
  - unfold ret at 1. unfold bind. rewrite (storage_set_quiet _ _ Q). reflexivity.
Qed.

Lemma exportData_quiet `{H : Host} w :
  quiet w ->
  storageService.exportData w
  = (Returns {| version := JStr APP_INFO.DATA_VERSION;
                exportedAt := JStr (toISOString (clock w));
                templates := Some (stored w) |}, w).
Proof.
  intros Q. unfold storageService.exportData, bind.
  rewrite (getTemplates_quiet _ Q). reflexivity.
Qed.

(** C10: [importData] returns the number of templates of the payload,
    whether it merges or replaces; when it merges, the templates it adds
    are only those of [newTemplates], the ones whose id is not stored yet. *)
Theorem importData_returns_payload_length d merge imported w :
  templates d = Some imported ->
  (forall n w', storageService.importData d merge w = (Returns n, w') ->
                n = Z.of_nat (length imported))
  /\ (quiet w ->
      exists w', storageService.importData d merge w
                 = (Returns (Z.of_nat (length imported)), w')
                 /\ stored w'
                    = if merge then stored w ++ newTemplates (stored w) imported
                      else imported).
Proof.
  intros Hd. split.
  - intros n w'. unfold storageService.importData. rewrite Hd.
    unfold bind at 1.
    match goal with
    | |- context [match ?m w with _ => _ end] => destruct (m w) as [[l | e] w1] eqn:E
    end; [| discriminate].
    unfold bind, ret. destruct (chrome.storage.set _ w1) as [[[] | e] w2]; [| discriminate].
    intros E'. inversion E'; subst.
    destruct merge; [reflexivity |].
    unfold ret in E. inversion E; subst. reflexivity.
  - intros Q. rewrite (importData_quiet _ _ _ _ Q Hd).
    eexists. split; [reflexivity |]. reflexivity.
Qed.

Lemma newTemplates_nil l : newTemplates [] l = l.
Proof.
  unfold newTemplates. induction l as [| t l IH]; [reflexivity |].
  cbn [List.filter]. rewrite bool_decide_eq_false_2 by apply not_elem_of_nil.
  cbn [negb]. f_equal. exact IH.
Qed.

(** The first coming call is not rejected. *)
Lemma getTemplates_answered w :
  (forall e, head (pending w) <> Some (Some e)) ->
  exists w1, storageService.getTemplates w = (Returns (stored w), w1) /\ frame w w1.
Proof.
  intros Hhead.
  unfold storageService.getTemplates, try_catch, bind, chrome.storage.get, chrome_call.
  destruct (pending w) as [| [e |] rest]; simpl.
  - eexists. split; [reflexivity | apply frame_refl].
  - exfalso. apply (Hhead e). reflexivity.
  - eexists. split; [reflexivity | apply frame_set_pending].
Qed.

(** C4: when the read of the export is answered, importing with
    [merge = true] what [exportTemplates] has returned leaves the template
    list as it was, whether the import returns or throws: each exported id
    is a stored id, so no template is added.  On a browser that rejects
    nothing the import returns. *)
Theorem export_import_merge_unchanged `{H : Host} w :
  (forall e, head (pending w) <> Some (Some e)) ->
  exists d w1,
    templateManager.exportTemplates w = (Returns d, w1)
    /\ templates d = Some (stored w)
    /\ newTemplates (stored w) (stored w) = []
    /\ stored (snd (templateManager.importTemplates d true w1)) = stored w
    /\ (quiet w ->
        fst (templateManager.importTemplates d true w1)
        = Returns (Z.of_nat (length (stored w)))).
Proof.
  intros Hhead.
  destruct (getTemplates_answered w Hhead) as (w1 & E1 & (Fs & Fc & Fu)).
  exists {| version := JStr APP_INFO.DATA_VERSION;
            exportedAt := JStr (toISOString (clock w1));
            templates := Some (stored w) |}, w1.
  split.
  { unfold templateManager.exportTemplates, storageService.exportData, bind.
    rewrite E1. reflexivity. }
  split; [reflexivity |]. split; [apply newTemplates_self |].
  assert (Hw1 : stored w1 = stored w) by (unfold stored; rewrite Fs; reflexivity).
  split.
  - unfold templateManager.importTemplates, storageService.importData.
    cbn [templates]. unfold bind at 1. unfold bind at 1.
    destruct (getTemplates_cases w1) as (l & w2 & E2 & (Fs2 & _) & Hl). rewrite E2.
    unfold ret at 1.
    assert (Hsame : l ++ newTemplates l (stored w) = stored w).
    { destruct Hl as [-> | ->].
      - rewrite Hw1, newTemplates_self. apply app_nil_r.
      - apply newTemplates_nil. }
    unfold newTemplates in Hsame. rewrite Hsame.
    unfold bind, ret.
    destruct (storage_set_cases (set_TEMPLATES (stored w)) w2)
      as [(w3 & E3 & S3 & _) | (e & w3 & E3 & (Fs3 & _))]; rewrite E3; cbn [snd].
    + apply (stored_set_TEMPLATES _ _ _ S3).
    + unfold stored. rewrite Fs3, Fs2, Fs. reflexivity.
  - intros Q.
    assert (w1 = w) as ->.
    { rewrite (getTemplates_quiet _ Q) in E1. inversion E1. reflexivity. }
    unfold templateManager.importTemplates.
    rewrite (importData_quiet
               {| version := JStr APP_INFO.DATA_VERSION;
                  exportedAt := JStr (toISOString (clock w));
                  templates := Some (stored w) |}
               true (stored w) w Q eq_refl).
    reflexivity.
Qed.

(** Two templates imported, one of them stored already: the count is 2
    and one template is added. *)
Lemma importData_returns_payload_length_witness :
  exists w',
    storageService.importData two_template_payload true (world_with [used_template] [])
    = (Returns 2%Z, w')
    /\ stored w' = [used_template; empty_template].
Proof.
  destruct (importData_returns_payload_length two_template_payload true
              [used_template; empty_template] (world_with [used_template] []) eq_refl)
    as [_ Hquiet].
  destruct (Hquiet eq_refl) as (w' & E & S).
  exists w'. split; [exact E | exact S].
Defined.

(** The round trip on a store of two templates. *)
Lemma export_import_merge_unchanged_witness :
  exists d w1,
    templateManager.exportTemplates (H := SimpleHost.host)
      (world_with [used_template; empty_template] []) = (Returns d, w1)
    /\ templates d = Some [used_template; empty_template]
    /\ newTemplates [used_template; empty_template] [used_template; empty_template] = []
    /\ stored (snd (templateManager.importTemplates d true w1))
       = [used_template; empty_template]
    /\ fst (templateManager.importTemplates d true w1) = Returns 2%Z.
Proof.
  destruct (export_import_merge_unchanged (H := SimpleHost.host)
              (world_with [used_template; empty_template] []))
    as (d & w1 & Hexport & Hd & Hnew & Hstored & Hreturns);
    [intros e; discriminate |].
  exists d, w1.
  split; [exact Hexport |]. split; [exact Hd |]. split; [exact Hnew |].
  split; [exact Hstored | apply Hreturns; reflexivity].
Defined.

(** ** Distinct ids *)

Lemma elem_of_map_id_filter (f : Template -> bool) l x :
  x ∈ map id (List.filter f l) -> x ∈ map id l.
Proof.
  induction l as [| t l IH]; simpl; [auto |].
  destruct (f t); simpl; rewrite ?elem_of_cons; intuition.
Qed.

Lemma NoDup_map_id_filter (f : Template -> bool) l :
  NoDup (map id l) -> NoDup (map id (List.filter f l)).
Proof.
  induction l as [| t l IH]; simpl; [auto |].
  rewrite NoDup_cons. intros [Hnot Hl].
  destruct (f t); simpl; [| auto].
  rewrite NoDup_cons. split; [| auto].
  intros Hin. apply Hnot. eapply elem_of_map_id_filter. exact Hin.
Qed.

Lemma NoDup_map_id_snoc l t :
  NoDup (map id l) -> id t ∉ map id l -> NoDup (map id (l ++ [t])).
Proof.
  intros Hl Hnot. rewrite map_app. apply NoDup_app. split; [exact Hl |].
  split; [| apply NoDup_singleton].
  intros x Hx. simpl. rewrite list_elem_of_singleton. intros ->. auto.
Qed.

Lemma NoDup_map_id_merge l imported :
  NoDup (map id l) -> NoDup (map id imported) ->
  NoDup (map id (l ++ newTemplates l imported)).
Proof.
  intros Hl Himp. rewrite map_app. apply NoDup_app. split; [exact Hl |].
  split; [| apply NoDup_map_id_filter; exact Himp].
  intros x Hx. unfold newTemplates. clear Himp.
  induction imported as [| t imported IH]; simpl; [apply not_elem_of_nil |].
  destruct (bool_decide (id t ∈ map id l)) eqn:E; simpl; [exact IH |].
  rewrite not_elem_of_cons. split; [| exact IH].
  apply bool_decide_eq_false_1 in E. congruence.
Qed.

Lemma map_id_insert_same l i T T' :
  list_find (fun t => id t = id T) l = Some (i, T) \/ l !! i = Some T ->
  id T' = id T ->
  map id (<[i := T']> l) = map id l.
Proof.
  intros Hi Hid.
  assert (Hl : l !! i = Some T).
  { destruct Hi as [Hi | Hi]; [| exact Hi]. apply list_find_Some in Hi. tauto. }
  change (id <$> <[i := T']> l = id <$> l).
  rewrite list_fmap_insert, Hid. apply list_insert_id.
  rewrite list_lookup_fmap, Hl. reflexivity.
Qed.

Section DistinctIds.
Context `{H : Host}.

Lemma saveTemplate_distinct t w :
  distinct_ids w -> id t ∉ map id (stored w) ->
  distinct_ids (snd (storageService.saveTemplate t w)).
Proof.
  unfold distinct_ids. intros Hw Hnew. unfold storageService.saveTemplate.
  destruct (negb (isValid (validateTemplate t))); [exact Hw |].
  unfold bind at 1.
  destruct (getTemplates_cases w) as (l & w1 & E & (Fs & _) & Hl). rewrite E.
  assert (Hnew_l : NoDup (map id (l ++ [t]))).
  { destruct Hl as [-> | ->]; [apply NoDup_map_id_snoc; assumption |].
    simpl. apply NoDup_singleton. }
  unfold bind, ret.
  destruct (storage_set_cases (set_TEMPLATES (l ++ [t])) w1)
    as [(w2 & E2 & S2 & _) | (e & w2 & E2 & (Fs2 & _))]; rewrite E2; cbn [snd].
  - rewrite (stored_set_TEMPLATES _ _ _ S2). exact Hnew_l.
  - unfold stored. rewrite Fs2, Fs. exact Hw.
Qed.

Lemma updateTemplate_distinct templateId updates w :
  distinct_ids w -> u_id updates = None ->
  distinct_ids (snd (storageService.updateTemplate templateId updates w)).
Proof.
  unfold distinct_ids. intros Hw Hid. unfold storageService.updateTemplate.
  unfold bind at 1.
  destruct (getTemplates_cases w) as (l & w1 & E & (Fs & _) & Hl). rewrite E.
  assert (Hw1 : stored w1 = stored w) by (unfold stored; rewrite Fs; reflexivity).
  destruct (list_find (fun t => id t = templateId) l) as [[i T] |] eqn:Efind;
    [| unfold throw; cbn [snd]; rewrite Hw1; exact Hw].
  destruct (negb (isValid (validateTemplate (spread_template T updates))));
    [unfold throw; cbn [snd]; rewrite Hw1; exact Hw |].
  unfold bind, ret.
  destruct (storage_set_cases
              (set_TEMPLATES (<[i := spread_template T updates]> l)) w1)
    as [(w2 & E2 & S2 & _) | (e & w2 & E2 & (Fs2 & _))]; rewrite E2; cbn [snd].
  - rewrite (stored_set_TEMPLATES _ _ _ S2).
    rewrite (map_id_insert_same l i T).
    + destruct Hl as [-> | ->]; [exact Hw | apply NoDup_nil_2].
    + right. apply list_find_Some in Efind. tauto.
    + unfold spread_template. simpl. rewrite Hid. reflexivity.
  - unfold stored. rewrite Fs2, Fs. exact Hw.
Qed.

Lemma deleteTemplate_distinct templateId w :
  distinct_ids w ->
  distinct_ids (snd (storageService.deleteTemplate templateId w)).
Proof.
  unfold distinct_ids. intros Hw. unfold storageService.deleteTemplate.
  unfold bind at 1.
  destruct (getTemplates_cases w) as (l & w1 & E & (Fs & _) & Hl). rewrite E.
  unfold bind, ret.
  match goal with
  | |- context [chrome.storage.set ?put w1] =>
      destruct (storage_set_cases put w1)
        as [(w2 & E2 & S2 & _) | (e & w2 & E2 & (Fs2 & _))]; rewrite E2; cbn [snd]
  end.
  - rewrite (stored_set_TEMPLATES _ _ _ S2). apply NoDup_map_id_filter.
    destruct Hl as [-> | ->]; [exact Hw | apply NoDup_nil_2].
  - unfold stored. rewrite Fs2, Fs. exact Hw.
Qed.

Lemma updateTemplateUsage_distinct templateId w :
  distinct_ids w ->
  distinct_ids (snd (storageService.updateTemplateUsage templateId w)).
Proof.
  unfold distinct_ids. intros Hw.
  destruct (storageService.updateTemplateUsage templateId w) as [[b | e] w'] eqn:E.
  - destruct (updateTemplateUsage_returns _ _ _ _ E) as (i & T & Hfind & Hstored).
    cbn [snd]. rewrite Hstored.
    rewrite (map_id_insert_same _ i T); [exact Hw | | reflexivity].
    right. apply list_find_Some in Hfind. tauto.
  - destruct (guarded_updateTemplateUsage _ _ _ _ E) as (Fs & _).
    cbn [snd]. unfold stored. rewrite Fs. exact Hw.
Qed.

Lemma importData_distinct d merge w :
  distinct_ids w ->
  (forall imported, templates d = Some imported -> NoDup (map id imported)) ->
  distinct_ids (snd (storageService.importData d merge w)).
Proof.
  unfold distinct_ids. intros Hw Hd. unfold storageService.importData.
  destruct (templates d) as [imported |]; [| exact Hw].
  specialize (Hd imported eq_refl).
  assert (Hcases : exists l w1,
             (if merge
              then bind storageService.getTemplates
                     (fun templates =>
                        ret (templates ++ newTemplates templates imported))
              else ret imported) w = (Returns l, w1)
             /\ sync w1 = sync w /\ NoDup (map id l)).
  { destruct merge.
    - unfold bind at 1.
      destruct (getTemplates_cases w) as (l & w1 & E & (Fs & _) & Hl). rewrite E.
      eexists _, _. split; [reflexivity |]. split; [exact Fs |].
      apply NoDup_map_id_merge; [| exact Hd].
      destruct Hl as [-> | ->]; [exact Hw | apply NoDup_nil_2].
    - eexists _, _. split; [reflexivity |]. split; [reflexivity | exact Hd]. }
  destruct Hcases as (l & w1 & E & Fs & Hl).
  unfold bind at 1. unfold newTemplates in E. rewrite E.
  unfold bind, ret.
  destruct (storage_set_cases (set_TEMPLATES l) w1)
    as [(w2 & E2 & S2 & _) | (e & w2 & E2 & (Fs2 & _))]; rewrite E2; cbn [snd].
  - rewrite (stored_set_TEMPLATES _ _ _ S2). exact Hl.
  - unfold stored. rewrite Fs2, Fs. exact Hw.
Qed.

(** C5 (amended): from a store whose template ids are pairwise distinct,
    [deleteTemplate] and [updateTemplateUsage] always lead to such a store;
    [saveTemplate] does when the id of the new template is not stored yet,
    [updateTemplate] when the updates do not assign [id], and [importData],
    merging or replacing, when the ids of the payload are pairwise
    distinct.  This holds whatever calls the browser rejects. *)
Theorem distinct_ids_preserved w :
  distinct_ids w ->
  (forall t, id t ∉ map id (stored w) ->
             distinct_ids (snd (storageService.saveTemplate t w)))
  /\ (forall templateId updates,
        u_id updates = None ->
        distinct_ids (snd (storageService.updateTemplate templateId updates w)))
  /\ (forall templateId,
        distinct_ids (snd (storageService.deleteTemplate templateId w)))
  /\ (forall templateId,
        distinct_ids (snd (storageService.updateTemplateUsage templateId w)))
  /\ (forall d merge,
        (forall imported, templates d = Some imported -> NoDup (map id imported)) ->
        distinct_ids (snd (storageService.importData d merge w))).
Proof.
  intros Hw. repeat split; intros.
  - apply saveTemplate_distinct; assumption.
  - apply updateTemplate_distinct; assumption.
  - apply deleteTemplate_distinct; assumption.
  - apply updateTemplateUsage_distinct; assumption.
  - apply importData_distinct; assumption.
Qed.

End DistinctIds.

(** C5, as stated, fails: [saveTemplate] accepts a valid template whose id
    is stored already and appends it. *)
Lemma saveTemplate_duplicates_id :
  let w := world_with [used_template] [] in
  let run := storageService.saveTemplate (H := SimpleHost.host) second_template w in
  distinct_ids w
  /\ isValid (validateTemplate (H := SimpleHost.host) second_template) = true
  /\ fst run = Returns true
  /\ map id (stored (snd run)) = [JStr "t1"; JStr "t1"]
  /\ ~ distinct_ids (snd run).
Proof.
  cbv zeta. split; [unfold distinct_ids; compute_done |].
  split; [vm_compute; reflexivity |].
  split; [vm_compute; reflexivity |].
  split; [vm_compute; reflexivity |].
  unfold distinct_ids.
  replace (map id (stored (snd (storageService.saveTemplate (H := SimpleHost.host)
                                  second_template (world_with [used_template] [])))))
    with [JStr "t1"; JStr "t1"] by (vm_compute; reflexivity).
  rewrite NoDup_cons. intros [Hnot _]. apply Hnot. apply list_elem_of_here.
Qed.

(** The same happens with [updateTemplate] when the updates assign an id
    in use, and with [importData] when the payload repeats an id. *)
Example updateTemplate_duplicates_id :
  map id (stored (snd (storageService.updateTemplate (H := SimpleHost.host) (JStr "t2")
                         (mkTemplateUpdates (Some (JStr "t1")) None None None None
                                            None None None None)
                         (world_with [used_template; empty_template] []))))
  = [JStr "t1"; JStr "t1"].
Proof. vm_compute. reflexivity. Qed.

Example importData_merge_duplicates_id :
  map id (stored (snd (storageService.importData
                         {| version := JStr "1.0.0"; exportedAt := JNull;
                            templates := Some [empty_template; empty_template] |}
                         true (world_with [used_template] []))))
  = [JStr "t1"; JStr "t2"; JStr "t2"].
Proof. vm_compute. reflexivity. Qed.

(** The five operations on a store that holds [used_template]. *)
Lemma distinct_ids_preserved_witness :
  let w := world_with [used_template] [] in
  distinct_ids (snd (storageService.saveTemplate (H := SimpleHost.host) empty_template w))
  /\ distinct_ids (snd (storageService.updateTemplate (H := SimpleHost.host)
                          (JStr "t1") no_updates w))
  /\ distinct_ids (snd (storageService.deleteTemplate (JStr "t1") w))
  /\ distinct_ids (snd (storageService.updateTemplateUsage (H := SimpleHost.host)
                          (JStr "t1") w))
  /\ distinct_ids (snd (storageService.importData two_template_payload true w)).
Proof.
  cbv zeta.
  assert (Hw : distinct_ids (world_with [used_template] []))
    by (unfold distinct_ids; compute_done).
  destruct (distinct_ids_preserved (H := SimpleHost.host) _ Hw)
    as (Hsave & Hupdate & Hdelete & Husage & Himport).
  split; [apply Hsave; compute_done |].
  split; [apply Hupdate; reflexivity |].
  split; [apply Hdelete |].
  split; [apply Husage |].
  apply Himport. intros imported E. inversion E; subst. compute_done.
Defined.

(** ** Settings *)

Lemma is_boolean_true v : is_boolean v = true -> exists b, v = JBool b.
Proof. destruct v; try discriminate. eauto. Qed.

Lemma validateSettings_sound s :
  isValid (validateSettings s) = true -> settings_ok s.
Proof.
  unfold validateSettings, settings_ok.
  repeat match goal with
         | |- context [negb (bool_decide ?P)] =>
             destruct (bool_decide_reflect P); simpl; [| discriminate]
         | |- context [negb (is_boolean ?v)] =>
             destruct (is_boolean v) eqn:?; simpl; [| discriminate]
         end.
  intros _. auto 10 using is_boolean_true.
Qed.

Lemma settings_ok_default : settings_ok DEFAULT_SETTINGS.
Proof. apply validateSettings_sound. reflexivity. Qed.

Lemma steady_ret {A} I (a : A) : steady I (ret a).
Proof. intros w Hw. exact Hw. Qed.

Lemma steady_bind {A B} I (m : Async A) (k : A -> Async B) :
  steady I m -> (forall a, steady I (k a)) -> steady I (bind m k).
Proof.
  intros Hm Hk w Hw. unfold bind. specialize (Hm w Hw).
  destruct (m w) as [[a | e] w1]; simpl in *; [apply Hk |]; exact Hm.
Qed.

Lemma steady_try_catch {A} I (m : Async A) (h : string -> Async A) :
  steady I m -> (forall e, steady I (h e)) -> steady I (try_catch m h).
Proof.
  intros Hm Hh w Hw. unfold try_catch. specialize (Hm w Hw).
  destruct (m w) as [[a | e] w1]; simpl in *; [| apply Hh]; exact Hm.
Qed.

Lemma steady_reads {A} I (m : Async A) : reads m -> steady I m.
Proof. intros Hm w Hw. destruct (Hm w) as (-> & _). exact Hw. Qed.

Lemma steady_storage_set I put :
  (forall s, I s -> I (put s)) -> steady I (chrome.storage.set put).
Proof.
  intros Hput w Hw.
  destruct (storage_set_cases put w) as [(w1 & E & S & _) | (e & w1 & E & (Fs & _))];
    rewrite E; cbn [snd]; [rewrite S; apply Hput; exact Hw | rewrite Fs; exact Hw].
Qed.

Lemma steady_initialize I :
  (forall s, I s -> I (set_TEMPLATES [] s)) ->
  (forall s, I s -> I (set_SETTINGS DEFAULT_SETTINGS s)) ->
  (forall s, I s -> I (set_VERSION APP_INFO.DATA_VERSION s)) ->
  steady I storageService.initialize.
Proof.
  intros HT HS HV. unfold storageService.initialize.
  apply steady_try_catch; [| intros; apply steady_ret].
  apply steady_bind; [apply steady_reads; auto with reads |].
  intros data.
  repeat (apply steady_bind;
          [destruct (negb _); [apply steady_storage_set; assumption | apply steady_ret]
          | intros _]).
  apply steady_ret.
Qed.

Lemma initialize_fresh w :
  quiet w -> SETTINGS (sync w) = None ->
  exists w', storageService.initialize w = (Returns true, w')
             /\ SETTINGS (sync w') = Some DEFAULT_SETTINGS.
Proof.
  intros Q Hnone. unfold storageService.initialize, try_catch, bind at 1.
  rewrite (storage_get_quiet _ Q). rewrite Hnone.
  destruct (TEMPLATES (sync w)) as [l |] eqn:ET;
    destruct (VERSION (sync w)) as [v |] eqn:EV; simpl;
    unfold bind, ret, chrome.storage.set, chrome_call; simpl;
    rewrite ?Q; simpl; rewrite ?Q; simpl; rewrite ?Q; simpl;
    try destruct (negb (negb (String.eqb v ""))); simpl; rewrite ?Q; simpl;
    eexists; split; reflexivity.
Qed.

Lemma updateSettings_cases updates w :
  (exists current w',
     storageService.updateSettings updates w = (Returns true, w')
     /\ SETTINGS (sync w') = Some (spread_settings current updates)
     /\ isValid (validateSettings (spread_settings current updates)) = true
     /\ (quiet w -> current = default DEFAULT_SETTINGS (SETTINGS (sync w))))
  \/ (exists e w',
        storageService.updateSettings updates w = (Throws e, w')
        /\ sync w' = sync w).
Proof.
  destruct (getSettings_cases w) as (current & w1 & E & (Fs & _) & _ & Hcur).
  assert (Erun :
    storageService.updateSettings updates w
    = if isValid (validateSettings (spread_settings current updates))
      then bind (chrome.storage.set (set_SETTINGS (spread_settings current updates)))
                (fun _ => ret true) w1
      else (Throws (error_message (validateSettings (spread_settings current updates))),
            w1)).
  { unfold storageService.updateSettings, bind at 1. rewrite E.
    destruct (isValid _); reflexivity. }
  rewrite Erun. clear Erun.
  destruct (isValid (validateSettings (spread_settings current updates))) eqn:Ev.
  - unfold bind, ret.
    destruct (storage_set_cases (set_SETTINGS (spread_settings current updates)) w1)
      as [(w2 & E2 & S2 & _) | (e & w2 & E2 & (Fs2 & _))]; rewrite E2.
    + left. exists current, w2. split; [reflexivity |].
      split; [rewrite S2; reflexivity |]. split; [exact Ev | exact Hcur].
    + right. exists e, w2. split; [reflexivity |]. congruence.
  - right. eexists _, w1. split; [reflexivity | exact Fs].
Qed.

Lemma resetSettings_quiet w :
  quiet w ->
  storageService.resetSettings w
  = (Returns true, set_sync (set_SETTINGS DEFAULT_SETTINGS (sync w)) w).
Proof.
  intros Q. unfold storageService.resetSettings, bind.
  rewrite (storage_set_quiet _ _ Q). reflexivity.
Qed.

Lemma updateSettings_quiet updates w :
  quiet w ->
  let merged :=
    spread_settings (default DEFAULT_SETTINGS (SETTINGS (sync w))) updates in
  storageService.updateSettings updates w
  = if isValid (validateSettings merged)
    then (Returns true, set_sync (set_SETTINGS merged (sync w)) w)
    else (Throws (error_message (validateSettings merged)), w).
Proof.
  intros Q. cbv zeta. unfold storageService.updateSettings, bind at 1.
  rewrite (getSettings_quiet _ Q).
  destruct (isValid (validateSettings _)); cbn [negb]; [| reflexivity].
  unfold bind. rewrite (storage_set_quiet _ _ Q). reflexivity.
Qed.

(** C6: the defaults meet the enum and boolean constraints; [initialize]
    writes them when no settings are stored and never writes anything else
    under the settings key; [resetSettings] stores the defaults or fails
    without a change, and stores them on a browser that rejects nothing;
    for every stored record and every [updates], [updateSettings] either
    stores the merged record, which meets the constraints, or throws and
    leaves the store as it was, and on a browser that rejects nothing it
    stores the merged record exactly when [validateSettings] accepts it.
    So none of the three breaks the constraints on the stored record. *)
Theorem settings_constraints_kept w :
  settings_ok DEFAULT_SETTINGS
  /\ (settings_invariant w -> settings_invariant (snd (storageService.initialize w)))
  /\ (quiet w -> SETTINGS (sync w) = None ->
      exists w', storageService.initialize w = (Returns true, w')
                 /\ SETTINGS (sync w') = Some DEFAULT_SETTINGS)
  /\ (forall r w', storageService.resetSettings w = (Returns r, w') ->
                   SETTINGS (sync w') = Some DEFAULT_SETTINGS)
  /\ (forall e w', storageService.resetSettings w = (Throws e, w') ->
                   sync w' = sync w)
  /\ (forall updates,
        (exists current w',
           storageService.updateSettings updates w = (Returns true, w')
           /\ SETTINGS (sync w') = Some (spread_settings current updates)
           /\ settings_ok (spread_settings current updates)
           /\ (quiet w -> current = default DEFAULT_SETTINGS (SETTINGS (sync w))))
        \/ (exists e w',
              storageService.updateSettings updates w = (Throws e, w')
              /\ sync w' = sync w))
  /\ (quiet w ->
      exists w', storageService.resetSettings w = (Returns true, w')
                 /\ SETTINGS (sync w') = Some DEFAULT_SETTINGS
                 /\ TEMPLATES (sync w') = TEMPLATES (sync w))
  /\ (quiet w ->
      forall updates,
        let merged :=
          spread_settings (default DEFAULT_SETTINGS (SETTINGS (sync w))) updates in
        (isValid (validateSettings merged) = true ->
         exists w', storageService.updateSettings updates w = (Returns true, w')
                    /\ SETTINGS (sync w') = Some merged
                    /\ settings_ok merged)
        /\ (isValid (validateSettings merged) = false ->
            storageService.updateSettings updates w
            = (Throws (error_message (validateSettings merged)), w)))
  /\ (settings_invariant w ->
      settings_invariant (snd (storageService.resetSettings w))
      /\ forall updates,
           settings_invariant (snd (storageService.updateSettings updates w))).
Proof.
  split; [exact settings_ok_default |].
  split.
  { intros Hw.
    refine (steady_initialize
              (fun s => forall x, SETTINGS s = Some x -> settings_ok x) _ _ _ w Hw);
      intros s Hs x Hx.
    - apply Hs. exact Hx.
    - inversion Hx; subst. exact settings_ok_default.
    - apply Hs. exact Hx. }
  split; [apply initialize_fresh |].
  assert (Hreset : forall r w', storageService.resetSettings w = (Returns r, w') ->
                                SETTINGS (sync w') = Some DEFAULT_SETTINGS).
  { intros r w'. unfold storageService.resetSettings, bind, ret.
    destruct (storage_set_cases (set_SETTINGS DEFAULT_SETTINGS) w)
      as [(w1 & E & S & _) | (e & w1 & E & _)]; rewrite E; [| discriminate].
    intros E'; inversion E'; subst. rewrite S. reflexivity. }
  assert (Hupdate : forall updates,
            (exists current w',
               storageService.updateSettings updates w = (Returns true, w')
               /\ SETTINGS (sync w') = Some (spread_settings current updates)
               /\ settings_ok (spread_settings current updates)
               /\ (quiet w -> current = default DEFAULT_SETTINGS (SETTINGS (sync w))))
            \/ (exists e w',
                  storageService.updateSettings updates w = (Throws e, w')
                  /\ sync w' = sync w)).
  { intros updates.
    destruct (updateSettings_cases updates w)
      as [(current & w' & E & S & Ev & Hcur) | Hthrow]; [left | right; exact Hthrow].
    exists current, w'. split; [exact E |]. split; [exact S |].
    split; [apply validateSettings_sound; exact Ev | exact Hcur]. }
  split; [exact Hreset |].
  split.
  { intros e w' E. apply (guarded_resetSettings _ _ _ E). }
  split; [exact Hupdate |].
  split.
  { intros Q. rewrite (resetSettings_quiet _ Q). eexists.
    split; [reflexivity |]. split; reflexivity. }
  split.
  { intros Q updates. cbv zeta. rewrite (updateSettings_quiet _ _ Q). split.
    - intros Hv. rewrite Hv. eexists. split; [reflexivity |].
      split; [reflexivity | apply validateSettings_sound; exact Hv].
    - intros Hv. rewrite Hv. reflexivity. }
  intros Hw. split.
  - intros s Hs.
    destruct (storageService.resetSettings w) as [[r | e] w'] eqn:E; cbn [snd] in Hs.
    + rewrite (Hreset r w' eq_refl) in Hs. inversion Hs; subst.
      exact settings_ok_default.
    + destruct (guarded_resetSettings _ _ _ E) as [Fs _]. rewrite Fs in Hs.
      apply Hw. exact Hs.
  - intros updates s Hs.
    destruct (Hupdate updates)
      as [(current & w' & E & S & Hok & _) | (e & w' & E & Hsame)];
      rewrite E in Hs; cbn [snd] in Hs.
    + rewrite S in Hs. inversion Hs; subst. exact Hok.
    + rewrite Hsame in Hs. apply Hw. exact Hs.
Qed.

(** First run on a fresh profile, an update of two settings, and a reset
    of settings that differ from the defaults. *)
Lemma settings_constraints_kept_witness :
  settings_invariant (snd (storageService.initialize fresh_world))
  /\ (exists w', storageService.initialize fresh_world = (Returns true, w')
                 /\ SETTINGS (sync w') = Some DEFAULT_SETTINGS)
  /\ (exists w',
        storageService.updateSettings dark_ascending fresh_world = (Returns true, w')
        /\ SETTINGS (sync w') = Some (spread_settings DEFAULT_SETTINGS dark_ascending)
        /\ settings_ok (spread_settings DEFAULT_SETTINGS dark_ascending))
  /\ (exists w',
        storageService.resetSettings (custom_world []) = (Returns true, w')
        /\ SETTINGS (sync (custom_world [])) = Some custom_settings
        /\ SETTINGS (sync w') = Some DEFAULT_SETTINGS
        /\ TEMPLATES (sync w') = TEMPLATES (sync (custom_world []))).
Proof.
  destruct (settings_constraints_kept fresh_world)
    as (_ & Hinit & Hfresh & _ & _ & _ & _ & Hupdate & _).
  destruct (settings_constraints_kept (custom_world []))
    as (_ & _ & _ & _ & _ & _ & Hreset & _ & _).
  split; [apply Hinit; intros s Hs; discriminate |].
  split; [apply Hfresh; reflexivity |].
  split.
  - assert (Q : quiet fresh_world) by reflexivity.
    destruct (Hupdate Q dark_ascending) as [Haccept _].
    apply Haccept. vm_compute. reflexivity.
  - assert (Q : quiet (custom_world [])) by reflexivity.
    destruct (Hreset Q) as (w' & E & Hs & Ht).
    exists w'. split; [exact E |]. split; [reflexivity |]. split; assumption.
Defined.

Example updateSettings_accepts :
  storageService.updateSettings dark_ascending (world_with [] [])
  = (Returns true,
     set_sync (set_SETTINGS
                 {| startupBehavior := JStr "none";
                    defaultTemplateId := JNull;
                    openBehavior := JStr "new_window";
                    closeExistingTabs := JBool false;
                    sortBy := JStr "lastUsed";
                    sortOrder := JStr "asc";
                    theme := JStr "dark";
                    showFavicons := JBool true;
                    confirmDelete := JBool true |}
                 (sync (world_with [] [])))
       (world_with [] [])).
Proof. vm_compute. reflexivity. Qed.

Example updateSettings_rejects :
  storageService.updateSettings sort_by_size (world_with [] [])
  = (Throws "Invalid sort by value", world_with [] []).
Proof. vm_compute. reflexivity. Qed.

(** ** Descriptions *)

(** No check of [validateTemplate] looks at the description. *)
Lemma validateTemplate_ignores_description `{H : Host} d t :
  validateTemplate (with_description d t) = validateTemplate t.
Proof. reflexivity. Qed.

(** C7 fails on the code: [validateDescription] rejects a description of
    201 characters, but neither [createEmpty] nor [validateTemplate] calls
    it, and the template is stored with that description. *)
Lemma createEmpty_keeps_long_description :
  let run := templateManager.createEmpty (H := SimpleHost.host)
               (JStr "Work") long_description fresh_world in
  isValid (validateDescription long_description) = false
  /\ exists t,
       fst run = Returns t
       /\ description t = long_description
       /\ isValid (validateTemplate (H := SimpleHost.host) t) = true
       /\ stored (snd run) = [t].
Proof.
  cbv zeta. split; [vm_compute; reflexivity |].
  eexists. split; [vm_compute; reflexivity |].
  split; [vm_compute; reflexivity |].
  split; vm_compute; reflexivity.
Qed.

Example updateTemplate_keeps_long_description :
  description <$>
    (stored (snd (templateManager.updateTemplate (H := SimpleHost.host) (JStr "t1")
                    (mkTemplateUpdates None None (Some long_description) None None
                                       None None None None)
                    (world_with [used_template] []))) !! 0%nat)
  = Some long_description.
Proof. vm_compute. reflexivity. Qed.

(** ** Failures of the storage calls *)

Section Failures.
Context `{H : Host}.

(** C8 (amended): when the browser rejects the storage read, the readers
    do not raise: [getTemplates] returns the empty list, [getTemplate]
    null, [getSettings] the defaults, [getStorageInfo] null, and
    [initialize] returns false.  The writers raise the error of a rejected
    write to their caller, whether the write is their first call
    ([resetSettings], [clearTemplates], a replacing [importData]) or
    follows a read ([saveTemplate], [deleteTemplate], [updateTemplateUsage],
    a merging [importData], [updateSettings], [updateTemplate]). *)
Theorem storage_failures w e rest :
  (pending w = Some e :: rest ->
   storageService.getTemplates w = (Returns [], set_pending rest w)
   /\ (forall templateId,
         storageService.getTemplate templateId w = (Returns None, set_pending rest w))
   /\ storageService.getSettings w = (Returns DEFAULT_SETTINGS, set_pending rest w)
   /\ storageService.getStorageInfo w = (Returns None, set_pending rest w)
   /\ storageService.initialize w = (Returns false, set_pending rest w)
   /\ storageService.resetSettings w = (Throws e, set_pending rest w)
   /\ storageService.clearTemplates w = (Throws e, set_pending rest w)
   /\ (forall d, is_Some (templates d) ->
         storageService.importData d false w = (Throws e, set_pending rest w)))
  /\ (pending w = None :: Some e :: rest ->
      (forall t, isValid (validateTemplate t) = true ->
                 storageService.saveTemplate t w = (Throws e, set_pending rest w))
      /\ (forall templateId,
            storageService.deleteTemplate templateId w = (Throws e, set_pending rest w))
      /\ (forall templateId,
            templateId ∈ map id (stored w) ->
            storageService.updateTemplateUsage templateId w
            = (Throws e, set_pending rest w))
      /\ (forall d, is_Some (templates d) ->
            storageService.importData d true w = (Throws e, set_pending rest w))
      /\ (forall updates,
            isValid (validateSettings
                       (spread_settings (default DEFAULT_SETTINGS (SETTINGS (sync w)))
                                        updates)) = true ->
            storageService.updateSettings updates w = (Throws e, set_pending rest w))
      /\ (forall templateId updates i T,
            list_find (fun t => id t = templateId) (stored w) = Some (i, T) ->
            isValid (validateTemplate (spread_template T updates)) = true ->
            storageService.updateTemplate templateId updates w
            = (Throws e, set_pending rest w))).
Proof.
  split.
  - intros P. repeat split; intros.
    + apply (getTemplates_rejected e). exact P.
    + unfold storageService.getTemplate, try_catch, bind.
      rewrite (getTemplates_rejected e rest w P). reflexivity.
    + apply (getSettings_rejected e). exact P.
    + unfold storageService.getStorageInfo, try_catch, bind,
        chrome.storage.getBytesInUse, chrome_call. rewrite P. reflexivity.
    + unfold storageService.initialize, try_catch, bind.
      rewrite (storage_get_rejected e rest w P). reflexivity.
    + unfold storageService.resetSettings, bind.
      rewrite (storage_set_rejected _ e rest w P). reflexivity.
    + unfold storageService.clearTemplates, bind.
      rewrite (storage_set_rejected _ e rest w P). reflexivity.
    + unfold storageService.importData.
      match goal with Hd : is_Some _ |- _ => destruct Hd as [imported ->] end.
      unfold bind at 1, ret at 1. unfold bind.
      rewrite (storage_set_rejected _ e rest w P). reflexivity.
  - intros P.
    assert (Eget : storageService.getTemplates w
                   = (Returns (stored w), set_pending (Some e :: rest) w)).
    { unfold storageService.getTemplates, try_catch, bind, chrome.storage.get,
        chrome_call. rewrite P. reflexivity. }
    repeat split; intros.
    + unfold storageService.saveTemplate.
      match goal with Hv : isValid _ = true |- _ => rewrite Hv end.
      simpl. unfold bind. rewrite Eget. reflexivity.
    + unfold storageService.deleteTemplate, bind. rewrite Eget. reflexivity.
    + unfold storageService.updateTemplateUsage, bind at 1. rewrite Eget.
      destruct (list_find (fun t => id t = templateId) (stored w))
        as [[i T] |] eqn:Efind; [reflexivity |].
      exfalso. apply list_find_None in Efind.
      match goal with Hin : _ ∈ map id _ |- _ =>
        apply list_elem_of_fmap in Hin; destruct Hin as (t & -> & Ht) end.
      rewrite Forall_forall in Efind. apply (Efind t); [exact Ht | reflexivity].
    + unfold storageService.importData.
      match goal with Hd : is_Some _ |- _ => destruct Hd as [imported ->] end.
      unfold bind at 1. unfold bind at 1. rewrite Eget. reflexivity.
    + assert (Esettings :
        storageService.getSettings w
        = (Returns (default DEFAULT_SETTINGS (SETTINGS (sync w))),
           set_pending (Some e :: rest) w)).
      { unfold storageService.getSettings, try_catch, bind, chrome.storage.get,
          chrome_call. rewrite P. reflexivity. }
      unfold storageService.updateSettings, bind at 1. rewrite Esettings.
      match goal with Hv : isValid _ = true |- _ => rewrite Hv end.
      reflexivity.
    + unfold storageService.updateTemplate, bind at 1. rewrite Eget.
      match goal with Hf : list_find _ _ = Some _ |- _ => rewrite Hf end.
      match goal with Hv : isValid _ = true |- _ => rewrite Hv end.
      reflexivity.
Qed.

End Failures.

(** C8, as stated, fails: the storage read is rejected, and [getTemplates]
    returns the empty list although a template is stored, [getSettings]
    the defaults although other settings are stored. *)
Lemma getTemplates_hides_read_failure :
  let w := custom_world [Some "sync unavailable"] in
  stored w = [used_template]
  /\ fst (storageService.getTemplates w) = Returns []
  /\ SETTINGS (sync w) = Some custom_settings
  /\ fst (storageService.getSettings w) = Returns DEFAULT_SETTINGS
  /\ custom_settings <> DEFAULT_SETTINGS.
Proof. cbv zeta. repeat split; try (vm_compute; reflexivity). discriminate. Qed.

(** A writer that runs after a rejected read works on the empty list: the
    stored template is gone once the write goes through. *)
Example saveTemplate_after_rejected_read :
  let run := storageService.saveTemplate (H := SimpleHost.host) empty_template
               (custom_world [Some "sync unavailable"]) in
  fst run = Returns true /\ stored (snd run) = [empty_template].
Proof. vm_compute. split; reflexivity. Qed.

(** A rejected read, and a rejected write after an answered read. *)
Lemma storage_failures_witness :
  storageService.getTemplates (custom_world [Some "sync unavailable"])
  = (Returns [], custom_world [])
  /\ storageService.getSettings (custom_world [Some "sync unavailable"])
     = (Returns DEFAULT_SETTINGS, custom_world [])
  /\ storageService.getStorageInfo (H := SimpleHost.host)
       (custom_world [Some "sync unavailable"])
     = (Returns None, custom_world [])
  /\ storageService.resetSettings (custom_world [Some "sync unavailable"])
     = (Throws "sync unavailable", custom_world [])
  /\ storageService.saveTemplate (H := SimpleHost.host) empty_template
       (custom_world [None; Some "QUOTA_BYTES exceeded"])
     = (Throws "QUOTA_BYTES exceeded", custom_world [])
  /\ storageService.deleteTemplate (JStr "t1")
       (custom_world [None; Some "QUOTA_BYTES exceeded"])
     = (Throws "QUOTA_BYTES exceeded", custom_world []).
Proof.
  destruct (storage_failures (H := SimpleHost.host)
              (custom_world [Some "sync unavailable"]) "sync unavailable" [])
    as [Hread _].
  destruct (Hread eq_refl)
    as (Htemplates & _ & Hsettings & Hinfo & _ & Hreset & _).
  destruct (storage_failures (H := SimpleHost.host)
              (custom_world [None; Some "QUOTA_BYTES exceeded"])
              "QUOTA_BYTES exceeded" [])
    as [_ Hwrite].
  destruct (Hwrite eq_refl) as (Hsave & Hdelete & _).
  split; [exact Htemplates |]. split; [exact Hsettings |].
  split; [exact Hinfo |]. split; [exact Hreset |].
  split; [apply Hsave; vm_compute; reflexivity | apply Hdelete].
Defined.

(** ** Duplicating a template *)

Section Duplicate.
Context `{H : Host}.

(** [validateTemplate] accepts exactly when each of its checks passes. *)
Lemma validateTemplate_isValid t :
  isValid (validateTemplate t)
  = (truthy (id t) && is_string (id t))
    && isValid (validateTemplateName (name t))
    && isValid (validateTabs_from 0 (tabs t))
    && (truthy (createdAt t) && isValidDate (createdAt t))
    && (bool_decide (lastUsedAt t = JNull) || isValidDate (lastUsedAt t))
    && (is_number (usageCount t) && negb (js_to_number (usageCount t) <? 0)%Z).
Proof.
  unfold validateTemplate.
  destruct (truthy (id t)), (is_string (id t)); simpl; try reflexivity.
  destruct (isValid (validateTemplateName (name t))) eqn:E1; simpl; [| exact E1].
  destruct (isValid (validateTabs_from 0 (tabs t))) eqn:E2; simpl; [| exact E2].
  destruct (truthy (createdAt t)), (isValidDate (createdAt t)); simpl;
    try reflexivity.
  destruct (bool_decide (lastUsedAt t = JNull)), (isValidDate (lastUsedAt t));
    simpl; try reflexivity;
    destruct (is_number (usageCount t)), (js_to_number (usageCount t) <? 0)%Z;
    reflexivity.
Qed.

Lemma duplicate_of_valid T i stamp :
  isValid (validateTemplate T) = true ->
  isValid (validateTemplateName (JStr (js_to_string (name T) +:+ " (Copy)"))) = true ->
  i <> "" -> stamp <> "" -> isValidDate (JStr stamp) = true ->
  isValid (validateTemplate (templateManager.duplicate_of T i stamp)) = true.
Proof.
  intros HT Hname Hi Hstamp Hdate.
  rewrite validateTemplate_isValid in HT. rewrite validateTemplate_isValid.
  repeat (apply andb_prop in HT; destruct HT as [HT ?]).
  unfold templateManager.duplicate_of. cbn [id name tabs createdAt lastUsedAt usageCount].
  rewrite Hname, Hdate.
  assert (Et : forall s, s <> "" -> truthy (JStr s) = true).
  { intros s Hs. simpl. destruct (String.eqb_spec s ""); [contradiction | reflexivity]. }
  rewrite (Et i Hi), (Et stamp Hstamp).
  match goal with Htabs : isValid (validateTabs_from 0 (tabs T)) = true |- _ =>
    rewrite Htabs end.
  reflexivity.
Qed.

Lemma saveTemplate_quiet t w :
  quiet w ->
  isValid (validateTemplate t) = true ->
  storageService.saveTemplate t w
  = (Returns true, set_sync (set_TEMPLATES (stored w ++ [t]) (sync w)) w).
Proof.
  intros Q Hv. unfold storageService.saveTemplate. rewrite Hv. cbn [negb].
  unfold bind at 1. rewrite (getTemplates_quiet _ Q).
  unfold bind. rewrite (storage_set_quiet _ _ Q). reflexivity.
Qed.

(** C9 (amended): on a browser that rejects nothing, for a stored template
    [T] that passes [validateTemplate] and whose name followed by
    [" (Copy)"] passes [validateTemplateName], [duplicateTemplate] returns
    and appends a template [D] to the stored list: its name is that of [T]
    followed by [" (Copy)"], its id is the generated UUID (an id no stored
    template has, when the generator yields one), its [usageCount] is 0,
    its [lastUsedAt] null, its [createdAt] the clock reading, and its tabs,
    description, color and icon are those of [T]. *)
Theorem duplicateTemplate_copies templateId T w :
  quiet w ->
  find_template templateId (stored w) = Some T ->
  isValid (validateTemplate T) = true ->
  isValid (validateTemplateName (JStr (js_to_string (name T) +:+ " (Copy)"))) = true ->
  uuid w <> "" ->
  toISOString (clock w) <> "" ->
  isValidDate (JStr (toISOString (clock w))) = true ->
  exists D w',
    templateManager.duplicateTemplate templateId w = (Returns D, w')
    /\ stored w' = stored w ++ [D]
    /\ name D = JStr (js_to_string (name T) +:+ " (Copy)")
    /\ id D = JStr (uuid w)
    /\ (JStr (uuid w) ∉ map id (stored w) -> id D ∉ map id (stored w))
    /\ usageCount D = JNum 0
    /\ lastUsedAt D = JNull
    /\ createdAt D = JStr (toISOString (clock w))
    /\ tabs D = tabs T
    /\ description D = description T
    /\ color D = color T
    /\ icon D = icon T.
Proof.
  intros Q Hfind HT Hname Hi Hstamp Hdate.
  pose proof (duplicate_of_valid T (uuid w) (toISOString (clock w))
                HT Hname Hi Hstamp Hdate) as HD.
  exists (templateManager.duplicate_of T (uuid w) (toISOString (clock w))).
  eexists. split.
  - unfold templateManager.duplicateTemplate, bind, generateUUID, now_iso.
    rewrite (getTemplate_quiet _ _ Q), Hfind. cbv beta iota.
    rewrite (saveTemplate_quiet _ _ Q HD). reflexivity.
  - repeat split; auto.
Qed.

End Duplicate.

(** C9, as stated, fails: the copy of a stored template whose name has 44
    characters gets a name of 51, which [saveTemplate] rejects; nothing is
    stored. *)
Lemma duplicateTemplate_rejects_long_name :
  let w := world_with [long_named_template] [] in
  isValid (validateTemplate (H := SimpleHost.host) long_named_template) = true
  /\ find_template (JStr "t4") (stored w) = Some long_named_template
  /\ templateManager.duplicateTemplate (H := SimpleHost.host) (JStr "t4") w
     = (Throws "Template name must be 50 characters or less", w).
Proof. vm_compute. repeat split. Qed.

(** The copy of [used_template]. *)
Lemma duplicateTemplate_copies_witness :
  exists D w',
    templateManager.duplicateTemplate (H := SimpleHost.host) (JStr "t1")
      (world_with [used_template] []) = (Returns D, w')
    /\ stored w' = [used_template; D]
    /\ name D = JStr "Work (Copy)"
    /\ id D = JStr "3f2a9c1e-7b4d-4e8a-9c3f-5d6e7f8a9b0c"
    /\ (id D ∉ [JStr "t1"])
    /\ usageCount D = JNum 0
    /\ lastUsedAt D = JNull
    /\ createdAt D = JStr "2024-11-10T17:30:00.123Z"
    /\ tabs D = [mail_tab]
    /\ description D = JStr "".
Proof.
  assert (H1 : isValid (validateTemplate (H := SimpleHost.host) used_template) = true)
    by (vm_compute; reflexivity).
  assert (H2 : isValid (validateTemplateName
                          (JStr (js_to_string (name used_template) +:+ " (Copy)")))
               = true) by (vm_compute; reflexivity).
  assert (H3 : uuid (world_with [used_template] []) <> "") by discriminate.
  assert (H4 : toISOString (Host := SimpleHost.host)
                 (clock (world_with [used_template] [])) <> "")
    by (vm_compute; discriminate).
  assert (H5 : isValidDate (H := SimpleHost.host)
                 (JStr (toISOString (Host := SimpleHost.host)
                          (clock (world_with [used_template] [])))) = true)
    by (vm_compute; reflexivity).
  destruct (duplicateTemplate_copies (H := SimpleHost.host) (JStr "t1") used_template
              (world_with [used_template] []) eq_refl eq_refl H1 H2 H3 H4 H5)
    as (D & w' & E & Hstored & Hname & Hid & Hfresh & Hcount & Hlast & Hcreated
        & Htabs & Hdesc & _ & _).
  exists D, w'.
  split; [exact E |]. split; [exact Hstored |]. split; [exact Hname |].
  split; [exact Hid |]. split; [apply Hfresh; compute_done |].
  split; [exact Hcount |]. split; [exact Hlast |]. split; [exact Hcreated |].
  split; [exact Htabs | exact Hdesc].
Defined.

(** * Further properties of the services *)

(** ** Storing, finding and deleting templates *)

Lemma find_template_app_l templateId l1 l2 t :
  find_template templateId l1 = Some t ->
  find_template templateId (l1 ++ l2) = Some t.
Proof.
  unfold find_template. induction l1 as [| x l1 IH]; simpl; [discriminate |].
  destruct (bool_decide (id x = templateId)); auto.
Qed.

Lemma find_template_app_r templateId l1 l2 :
  templateId ∉ map id l1 ->
  find_template templateId (l1 ++ l2) = find_template templateId l2.
Proof.
  unfold find_template. induction l1 as [| x l1 IH]; simpl; [reflexivity |].
  intros Hnot. rewrite not_elem_of_cons in Hnot. destruct Hnot as [Hne Hnot].
  rewrite bool_decide_eq_false_2 by congruence. auto.
Qed.

Lemma find_template_Some_elem templateId l :
  templateId ∈ map id l -> is_Some (find_template templateId l).
Proof.
  unfold find_template. induction l as [| x l IH]; simpl.
  - intros Hin. apply elem_of_nil in Hin. contradiction.
  - rewrite elem_of_cons. intros [-> | Hin].
    + rewrite bool_decide_eq_true_2 by reflexivity. eauto.
    + destruct (bool_decide (id x = templateId)); eauto.
Qed.

Section SaveAndFind.
Context `{H : Host}.

(** X1: on a browser that rejects nothing, a valid template is appended to
    the stored list; a lookup by an id that was stored before answers as
    before, and a lookup by the id of the new template finds it when that
    id was not stored. *)
Theorem saveTemplate_then_getTemplate t w :
  quiet w ->
  isValid (validateTemplate t) = true ->
  exists w',
    storageService.saveTemplate t w = (Returns true, w')
    /\ quiet w'
    /\ stored w' = stored w ++ [t]
    /\ (forall templateId,
          templateId ∈ map id (stored w) ->
          fst (storageService.getTemplate templateId w')
          = fst (storageService.getTemplate templateId w))
    /\ (id t ∉ map id (stored w) ->
        fst (storageService.getTemplate (id t) w') = Returns (Some t)).
Proof.
  intros Q Hv. rewrite (saveTemplate_quiet t w Q Hv).
  eexists. split; [reflexivity |].
  assert (Q' : quiet (set_sync (set_TEMPLATES (stored w ++ [t]) (sync w)) w)) by exact Q.
  split; [exact Q' |]. split; [reflexivity |]. split.
  - intros templateId Hin.
    rewrite (getTemplate_quiet _ _ Q'), (getTemplate_quiet _ _ Q). cbn [fst]. f_equal.
    destruct (find_template_Some_elem _ _ Hin) as [x Hx].
    change (stored (set_sync (set_TEMPLATES (stored w ++ [t]) (sync w)) w))
      with (stored w ++ [t]).
    rewrite Hx. apply find_template_app_l. exact Hx.
  - intros Hnew. rewrite (getTemplate_quiet _ _ Q'). cbn [fst]. f_equal.
    change (stored (set_sync (set_TEMPLATES (stored w ++ [t]) (sync w)) w))
      with (stored w ++ [t]).
    rewrite (find_template_app_r _ _ _ Hnew). unfold find_template. simpl.
    rewrite bool_decide_eq_true_2 by reflexivity. reflexivity.
Qed.

End SaveAndFind.

(** One more template beside [used_template]. *)
Lemma saveTemplate_then_getTemplate_witness :
  exists w',
    storageService.saveTemplate (H := SimpleHost.host) empty_template
      (world_with [used_template] []) = (Returns true, w')
    /\ stored w' = [used_template; empty_template]
    /\ fst (storageService.getTemplate (JStr "t1") w') = Returns (Some used_template)
    /\ fst (storageService.getTemplate (JStr "t2") w') = Returns (Some empty_template).
Proof.
  destruct (saveTemplate_then_getTemplate (H := SimpleHost.host) empty_template
              (world_with [used_template] []))
    as (w' & E & _ & Hstored & Hold & Hnew);
    [reflexivity | vm_compute; reflexivity |].
  exists w'. split; [exact E |]. split; [exact Hstored |]. split.
  - rewrite (Hold (JStr "t1")) by compute_done. reflexivity.
  - apply Hnew. compute_done.
Defined.

Lemma filter_id_absent templateId l :
  templateId ∉ map id l ->
  List.filter (fun t => negb (bool_decide (id t = templateId))) l = l.
Proof.
  induction l as [| x l IH]; simpl; [reflexivity |].
  intros Hnot. rewrite not_elem_of_cons in Hnot. destruct Hnot as [Hne Hnot].
  rewrite bool_decide_eq_false_2 by congruence. simpl. rewrite IH by exact Hnot.
  reflexivity.
Qed.

Lemma filter_id_gone templateId l :
  templateId ∉ map id (List.filter (fun t => negb (bool_decide (id t = templateId))) l).
Proof.
  induction l as [| x l IH]; simpl; [apply not_elem_of_nil |].
  destruct (bool_decide_reflect (id x = templateId)) as [Heq | Hne]; simpl;
    [exact IH |].
  rewrite not_elem_of_cons. split; [congruence | exact IH].
Qed.

(** X2: on a browser that rejects nothing, [deleteTemplate] returns true
    for every id; afterwards no stored template has the id, the templates
    with another id are kept in their order, and deleting an id that is not
    stored leaves the list as it was. *)
Theorem deleteTemplate_removes_id templateId w :
  quiet w ->
  exists w',
    storageService.deleteTemplate templateId w = (Returns true, w')
    /\ stored w'
       = List.filter (fun t => negb (bool_decide (id t = templateId))) (stored w)
    /\ (templateId ∉ map id (stored w'))
    /\ fst (storageService.getTemplate templateId w') = Returns None
    /\ (templateId ∉ map id (stored w) -> stored w' = stored w).
Proof.
  intros Q. unfold storageService.deleteTemplate, bind at 1.
  rewrite (getTemplates_quiet _ Q). unfold bind. rewrite (storage_set_quiet _ _ Q).
  eexists. split; [reflexivity |].
  match goal with
  | |- stored ?w' = _ /\ _ =>
      assert (Q' : quiet w') by exact Q;
      assert (Hs : stored w'
                   = List.filter (fun t => negb (bool_decide (id t = templateId)))
                                 (stored w)) by reflexivity
  end.
  split; [exact Hs |]. rewrite (getTemplate_quiet _ _ Q'), Hs.
  split; [apply filter_id_gone |]. split.
  - cbn [fst]. f_equal. apply find_template_None. apply filter_id_gone.
  - apply filter_id_absent.
Qed.

(** Deleting the first of two templates, and an id that is not stored. *)
Lemma deleteTemplate_removes_id_witness :
  (exists w',
     storageService.deleteTemplate (JStr "t1")
       (world_with [used_template; empty_template] []) = (Returns true, w')
     /\ stored w' = [empty_template])
  /\ (exists w',
        storageService.deleteTemplate (JStr "none")
          (world_with [used_template; empty_template] []) = (Returns true, w')
        /\ stored w' = [used_template; empty_template]).
Proof.
  split.
  - destruct (deleteTemplate_removes_id (JStr "t1")
                (world_with [used_template; empty_template] []) eq_refl)
      as (w' & E & Hs & _).
    exists w'. split; [exact E | exact Hs].
  - destruct (deleteTemplate_removes_id (JStr "none")
                (world_with [used_template; empty_template] []) eq_refl)
      as (w' & E & _ & _ & _ & Hsame).
    exists w'. split; [exact E |]. apply Hsame. compute_done.
Defined.

Section UpdateTemplate.
Context `{H : Host}.

Lemma updateTemplate_cases templateId updates w :
  (exists i T w',
     storageService.updateTemplate templateId updates w = (Returns true, w')
     /\ list_find (fun t => id t = templateId) (stored w) = Some (i, T)
     /\ isValid (validateTemplate (spread_template T updates)) = true
     /\ stored w' = <[i := spread_template T updates]> (stored w))
  \/ (exists e w',
        storageService.updateTemplate templateId updates w = (Throws e, w')
        /\ sync w' = sync w).
Proof.
  destruct (storageService.updateTemplate templateId updates w) as [[b | e] w'] eqn:E.
  - left. revert E. unfold storageService.updateTemplate, bind at 1.
    destruct (getTemplates_cases w) as (l & w1 & E1 & (Fs & _) & Hl). rewrite E1.
    destruct (list_find (fun t => id t = templateId) l) as [[i T] |] eqn:Efind;
      [| discriminate].
    destruct Hl as [-> | ->]; [| discriminate].
    destruct (isValid (validateTemplate (spread_template T updates))) eqn:Ev;
      [| discriminate].
    cbn [negb]. unfold bind, ret.
    destruct (storage_set_cases
                (set_TEMPLATES (<[i := spread_template T updates]> (stored w))) w1)
      as [(w2 & E2 & S2 & _) | (e & w2 & E2 & _)]; rewrite E2; [| discriminate].
    intros E'. inversion E'; subst.
    exists i, T, w'. split; [reflexivity |]. split; [exact Efind |].
    split; [exact Ev |]. apply (stored_set_TEMPLATES _ _ _ S2).
  - right. exists e, w'. split; [reflexivity |].
    apply (guarded_updateTemplate _ _ _ _ _ E).
Qed.

(** X3: whatever the browser answers, [updateTemplate] changes at most one
    position of the stored list, that of the first template with the given
    id: the list keeps its length, every other position keeps its template,
    also one that holds a later template with the same id, and without a
    template of that id the list is as it was.  When the call returns, the
    list is the old one with the merged record at that position, and the
    record has passed [validateTemplate]; when it throws, the store is as
    it was. *)
Theorem updateTemplate_touches_one templateId updates w :
  let w' := snd (storageService.updateTemplate templateId updates w) in
  length (stored w') = length (stored w)
  /\ (forall j t, stored w !! j = Some t -> id t <> templateId ->
                  stored w' !! j = Some t)
  /\ (forall i T j,
        list_find (fun t => id t = templateId) (stored w) = Some (i, T) ->
        j <> i -> stored w' !! j = stored w !! j)
  /\ (list_find (fun t => id t = templateId) (stored w) = None ->
      stored w' = stored w)
  /\ (forall b, fst (storageService.updateTemplate templateId updates w) = Returns b ->
                exists i T,
                  list_find (fun t => id t = templateId) (stored w) = Some (i, T)
                  /\ stored w' = <[i := spread_template T updates]> (stored w)
                  /\ stored w' !! i = Some (spread_template T updates)
                  /\ isValid (validateTemplate (spread_template T updates)) = true)
  /\ (forall e, fst (storageService.updateTemplate templateId updates w) = Throws e ->
                sync w' = sync w).
Proof.
  cbv zeta.
  destruct (updateTemplate_cases templateId updates w)
    as [(i & T & w' & E & Hfind & Hv & Hs) | (e & w' & E & Hs)]; rewrite E; cbn [fst snd].
  - pose proof Hfind as Hfind'. apply list_find_Some in Hfind'.
    destruct Hfind' as (Hi & HidT & _).
    rewrite Hs. split; [apply length_insert |]. split.
    { intros j t Hj Hne. rewrite list_lookup_insert_ne; [exact Hj |].
      intros ->. rewrite Hi in Hj. inversion Hj; subst. contradiction. }
    split.
    { intros i' T' j Hfind' Hne. rewrite Hfind in Hfind'. inversion Hfind'; subst.
      apply list_lookup_insert_ne. congruence. }
    split; [intros Hnone; rewrite Hfind in Hnone; discriminate |].
    split; [| discriminate].
    intros _ _. exists i, T. split; [exact Hfind |]. split; [reflexivity |].
    split; [| exact Hv].
    apply list_lookup_insert_eq. apply lookup_lt_Some in Hi. exact Hi.
  - assert (Hst : stored w' = stored w) by (unfold stored; rewrite Hs; reflexivity).
    rewrite Hst. split; [reflexivity |]. split; [auto |].
    split; [reflexivity |]. split; [reflexivity |].
    split; [discriminate | intros _ _; exact Hs].
Qed.

End UpdateTemplate.

(** Renaming [t1] where two templates carry that id: the first is
    renamed, [empty_template] and the second [t1] stay. *)
Lemma updateTemplate_touches_one_witness :
  let run := storageService.updateTemplate (H := SimpleHost.host) (JStr "t1")
               (mkTemplateUpdates None (Some (JStr "Sooner")) None None None
                                  None None None None)
               (world_with [used_template; empty_template; twin_template] []) in
  name <$> (stored (snd run) !! 0%nat) = Some (JStr "Sooner")
  /\ stored (snd run) !! 1%nat = Some empty_template
  /\ stored (snd run) !! 2%nat = Some twin_template.
Proof.
  cbv zeta.
  destruct (updateTemplate_touches_one (H := SimpleHost.host) (JStr "t1")
              (mkTemplateUpdates None (Some (JStr "Sooner")) None None None
                                 None None None None)
              (world_with [used_template; empty_template; twin_template] []))
    as (_ & Hothers & Hrest & _ & Hwritten & _).
  split; [| split].
  - destruct (Hwritten true) as (i & T & Hfind & _ & Hi & _); [vm_compute; reflexivity |].
    vm_compute in Hfind. inversion Hfind; subst. rewrite Hi. reflexivity.
  - apply Hothers; [reflexivity | discriminate].
  - assert (Hfind : list_find (fun t => id t = JStr "t1")
                      (stored (world_with [used_template; empty_template;
                                           twin_template] []))
                    = Some (0%nat, used_template)) by reflexivity.
    rewrite (Hrest 0%nat used_template 2%nat Hfind); [reflexivity | discriminate].
Defined.

(** ** First run *)

Lemma Storage_eq (s1 s2 : Storage) :
  TEMPLATES s1 = TEMPLATES s2 -> SETTINGS s1 = SETTINGS s2 ->
  VERSION s1 = VERSION s2 -> s1 = s2.
Proof. destruct s1, s2. simpl. intros -> -> ->. reflexivity. Qed.

Lemma initialize_quiet w :
  quiet w ->
  exists w',
    storageService.initialize w = (Returns true, w')
    /\ quiet w'
    /\ TEMPLATES (sync w') = Some (default [] (TEMPLATES (sync w)))
    /\ SETTINGS (sync w') = Some (default DEFAULT_SETTINGS (SETTINGS (sync w)))
    /\ VERSION (sync w')
       = Some (match VERSION (sync w) with
               | Some v => if String.eqb v "" then APP_INFO.DATA_VERSION else v
               | None => APP_INFO.DATA_VERSION
               end).
Proof.
  intros Q. unfold storageService.initialize, try_catch, bind at 1.
  rewrite (storage_get_quiet _ Q).
  destruct (TEMPLATES (sync w)) as [l |] eqn:ET;
    destruct (SETTINGS (sync w)) as [s |] eqn:ES;
    destruct (VERSION (sync w)) as [v |] eqn:EV;
    try destruct (String.eqb_spec v ""); simpl;
    unfold bind, ret, chrome.storage.set, chrome_call; simpl;
    rewrite ?Q; simpl; rewrite ?Q; simpl; rewrite ?Q; simpl;
    try (destruct (String.eqb_spec v ""); [| contradiction]);
    try (destruct (String.eqb_spec v ""); [contradiction |]);
    simpl; rewrite ?Q; simpl;
    eexists; (split; [reflexivity |]); simpl; rewrite ?ET, ?ES, ?EV; auto.
Qed.

Lemma initialize_unfold w :
  storageService.initialize w
  = match chrome.storage.get w with
    | (Returns data, w1) =>
        try_catch
          ((if negb (bool_decide (is_Some (TEMPLATES data)))
            then chrome.storage.set (set_TEMPLATES [])
            else ret tt) ;;;
           (if negb (bool_decide (is_Some (SETTINGS data)))
            then chrome.storage.set (set_SETTINGS DEFAULT_SETTINGS)
            else ret tt) ;;;
           (if negb (truthy (default JUndefined (JStr <$> VERSION data)))
            then chrome.storage.set (set_VERSION APP_INFO.DATA_VERSION)
            else ret tt) ;;;
           ret true)
          (fun _ => ret false) w1
    | (Throws e, w1) => (Returns false, w1)
    end.
Proof.
  unfold storageService.initialize, try_catch, bind at 1.
  destruct (chrome.storage.get w) as [[data | e] w1]; reflexivity.
Qed.

Lemma storage_get_cases w :
  (exists w1, chrome.storage.get w = (Returns (sync w), w1) /\ sync w1 = sync w)
  \/ (exists e w1, chrome.storage.get w = (Throws e, w1) /\ sync w1 = sync w).
Proof.
  unfold chrome.storage.get, chrome_call.
  destruct (pending w) as [| [e |] rest]; [left | right | left]; eauto.
Qed.

(** A property of the store that [initialize] keeps: it has to survive
    only the writes whose branch is taken. *)
Lemma initialize_keeps (I : Storage -> Prop) w :
  I (sync w) ->
  (forall s, I s ->
     (negb (bool_decide (is_Some (TEMPLATES (sync w)))) = true ->
      I (set_TEMPLATES [] s))
     /\ (negb (bool_decide (is_Some (SETTINGS (sync w)))) = true ->
         I (set_SETTINGS DEFAULT_SETTINGS s))
     /\ (negb (truthy (default JUndefined (JStr <$> VERSION (sync w)))) = true ->
         I (set_VERSION APP_INFO.DATA_VERSION s))) ->
  I (sync (snd (storageService.initialize w))).
Proof.
  intros Hx Hput. rewrite initialize_unfold.
  destruct (storage_get_cases w) as [(w1 & E & Fs) | (e & w1 & E & Fs)]; rewrite E;
    [| cbn [snd]; rewrite Fs; exact Hx].
  match goal with
  | |- I (sync (snd (?m w1))) =>
      assert (St : steady I m); [| apply (St w1); rewrite Fs; exact Hx]
  end.
  apply steady_try_catch; [| intros; apply steady_ret].
  repeat (apply steady_bind;
          [match goal with
           | |- steady _ (if ?b then _ else _) =>
               destruct b eqn:?;
               [apply steady_storage_set; intros s Hs; apply (Hput s Hs);
                first [assumption | reflexivity]
               | apply steady_ret]
           end
          | intros _]).
  apply steady_ret.
Qed.

(** X4: [initialize] never throws and never overwrites a stored template
    list, stored settings or a non-empty stored version, whatever the
    browser answers; on a browser that rejects nothing it returns true,
    leaves all three keys present, and a second run changes nothing. *)
Theorem initialize_is_safe_to_repeat w :
  (exists b, fst (storageService.initialize w) = Returns b)
  /\ (forall l, TEMPLATES (sync w) = Some l ->
                TEMPLATES (sync (snd (storageService.initialize w))) = Some l)
  /\ (forall s, SETTINGS (sync w) = Some s ->
                SETTINGS (sync (snd (storageService.initialize w))) = Some s)
  /\ (forall v, VERSION (sync w) = Some v -> v <> "" ->
                VERSION (sync (snd (storageService.initialize w))) = Some v)
  /\ (quiet w ->
      exists w1,
        storageService.initialize w = (Returns true, w1)
        /\ is_Some (TEMPLATES (sync w1)) /\ is_Some (SETTINGS (sync w1))
        /\ is_Some (VERSION (sync w1))
        /\ fst (storageService.initialize w1) = Returns true
        /\ sync (snd (storageService.initialize w1)) = sync w1).
Proof.
  split.
  { rewrite initialize_unfold.
    destruct (chrome.storage.get w) as [[data | e] w1]; [| eauto].
    unfold try_catch.
    match goal with |- context [match ?m with _ => _ end] =>
      destruct m as [[b | e] w2] end; cbn; eauto. }
  split.
  { intros l Hl.
    apply (initialize_keeps (fun s => TEMPLATES s = Some l)); [exact Hl |].
    intros s Hs. split; [| split; intros _; exact Hs].
    rewrite Hl. rewrite bool_decide_eq_true_2 by eauto. discriminate. }
  split.
  { intros s Hs.
    apply (initialize_keeps (fun s' => SETTINGS s' = Some s)); [exact Hs |].
    intros s' Hs'. split; [intros _; exact Hs' |]. split; [| intros _; exact Hs'].
    rewrite Hs. rewrite bool_decide_eq_true_2 by eauto. discriminate. }
  split.
  { intros v Hv Hne.
    apply (initialize_keeps (fun s' => VERSION s' = Some v)); [exact Hv |].
    intros s' Hs'. split; [intros _; exact Hs' |]. split; [intros _; exact Hs' |].
    rewrite Hv. simpl. destruct (String.eqb_spec v ""); [contradiction | discriminate]. }
  intros Q.
  destruct (initialize_quiet w Q) as (w1 & E1 & Q1 & HT & HS & HV).
  destruct (initialize_quiet w1 Q1) as (w2 & E2 & _ & HT2 & HS2 & HV2).
  exists w1. split; [exact E1 |].
  split; [rewrite HT; eauto |]. split; [rewrite HS; eauto |].
  split; [rewrite HV; eauto |]. rewrite E2. split; [reflexivity |].
  cbn [snd]. apply Storage_eq.
  - rewrite HT2, HT. reflexivity.
  - rewrite HS2, HS. reflexivity.
  - rewrite HV2, HV.
    destruct (VERSION (sync w)) as [v |]; [| reflexivity].
    destruct (String.eqb v "") eqn:Ev; [reflexivity | rewrite Ev; reflexivity].
Qed.

(** A first run on a fresh profile, then a second one; and a run over
    stored data while the browser rejects the second call. *)
Lemma initialize_is_safe_to_repeat_witness :
  (exists w1,
     storageService.initialize fresh_world = (Returns true, w1)
     /\ sync (snd (storageService.initialize w1)) = sync w1)
  /\ TEMPLATES (sync (snd (storageService.initialize
                             (custom_world [None; Some "sync unavailable"]))))
     = Some [used_template]
  /\ SETTINGS (sync (snd (storageService.initialize
                            (custom_world [None; Some "sync unavailable"]))))
     = Some custom_settings.
Proof.
  split.
  - destruct (initialize_is_safe_to_repeat fresh_world) as (_ & _ & _ & _ & Hq).
    destruct (Hq eq_refl) as (w1 & E & _ & _ & _ & _ & Hsame).
    exists w1. split; [exact E | exact Hsame].
  - destruct (initialize_is_safe_to_repeat
                (custom_world [None; Some "sync unavailable"]))
      as (_ & HT & HS & _).
    split; [apply HT | apply HS]; reflexivity.
Defined.

(** ** Templates and settings do not interfere *)

Lemma steady_throw {A} I e : steady I (@throw A e).
Proof. intros w Hw. exact Hw. Qed.

Ltac solve_steady_with known :=
  repeat first
    [ match goal with |- forall _, _ => intro end
    | known
    | apply steady_ret | apply steady_throw
    | apply steady_bind | apply steady_try_catch
    | apply steady_storage_set; intros ? [? ?]; split; assumption
    | match goal with
      | |- steady _ (if ?b then _ else _) => destruct b
      | |- steady _ (match ?o with Some _ => _ | None => _ end) => destruct o
      | |- steady _ (let (_, _) := ?p in _) => destruct p
      end
    | solve [apply steady_reads; solve_reads] ].

Ltac solve_steady := solve_steady_with fail.

Lemma steady_keeps_settings {A} (m : Async A) :
  (forall c v, steady (fun s => SETTINGS s = c /\ VERSION s = v) m) ->
  keeps_settings m.
Proof. intros Hm w. apply (Hm _ _ w). split; reflexivity. Qed.

Lemma steady_keeps_templates {A} (m : Async A) :
  (forall c v, steady (fun s => TEMPLATES s = c /\ VERSION s = v) m) ->
  keeps_templates m.
Proof. intros Hm w. apply (Hm _ _ w). split; reflexivity. Qed.

Section Separation.
Context `{H : Host}.


End Separation.

(** ** Names *)

Lemma length_strip_angle s : (String.length (strip_angle s) <= String.length s)%nat.
Proof.
  induction s as [| c s IH]; simpl; [lia |].
  destruct (Ascii.eqb c "<" || Ascii.eqb c ">")%bool; simpl; lia.
Qed.

Lemma strip_angle_clean s c :
  In c (list_ascii_of_string (strip_angle s)) -> c <> "<"%char /\ c <> ">"%char.
Proof.
  induction s as [| a s IH]; simpl; [contradiction |].
  destruct (Ascii.eqb_spec a "<") as [-> | Hlt]; simpl; [exact IH |].
  destruct (Ascii.eqb_spec a ">") as [-> | Hgt]; simpl; [exact IH |].
  intros [<- | Hin]; [split; assumption | exact (IH Hin)].
Qed.

Lemma length_substring_0 n s : (String.length (String.substring 0 n s) <= n)%nat.
Proof.
  revert s. induction n as [| n IH]; intros [| c s]; simpl; try lia.
  specialize (IH s). lia.
Qed.

Lemma substring_0_all n s :
  (String.length s <= n)%nat -> String.substring 0 n s = s.
Proof.
  revert s. induction n as [| n IH]; intros [| c s]; simpl; intros Hlen;
    try reflexivity; try lia.
  rewrite IH by lia. reflexivity.
Qed.

(** X6: a sanitized template name has at most 50 characters and contains
    neither [<] nor [>]; for a name that [validateTemplateName] accepts,
    sanitizing only trims it and removes the angle brackets. *)
Theorem sanitizeTemplateName_is_clean n :
  (str_len (sanitizeTemplateName n) <= UI.MAX_TEMPLATE_NAME_LENGTH)%Z
  /\ (forall c, In c (list_ascii_of_string (sanitizeTemplateName n)) ->
                c <> "<"%char /\ c <> ">"%char)
  /\ (isValid (validateTemplateName (JStr n)) = true ->
      sanitizeTemplateName n = strip_angle (trim n)).
Proof.
  unfold sanitizeTemplateName, str_len. split; [| split].
  - pose proof (length_strip_angle
                  (String.substring 0 (Z.to_nat UI.MAX_TEMPLATE_NAME_LENGTH) (trim n))).
    pose proof (length_substring_0 (Z.to_nat UI.MAX_TEMPLATE_NAME_LENGTH) (trim n)).
    unfold UI.MAX_TEMPLATE_NAME_LENGTH in *. lia.
  - intros c. apply strip_angle_clean.
  - unfold validateTemplateName.
    destruct (negb (truthy (JStr n))); [discriminate |].
    destruct (str_len (trim n) =? 0)%Z; [discriminate |].
    destruct (Z.gtb_spec (str_len (trim n)) UI.MAX_TEMPLATE_NAME_LENGTH) as [| Hle];
      [discriminate |].
    intros _. rewrite substring_0_all; [reflexivity |].
    unfold str_len, UI.MAX_TEMPLATE_NAME_LENGTH in *. lia.
Qed.

(** A name with markup around it. *)
Lemma sanitizeTemplateName_is_clean_witness :
  sanitizeTemplateName "  <b>Work</b>  " = "bWork/b"
  /\ sanitizeTemplateName "  <b>Work</b>  " = strip_angle (trim "  <b>Work</b>  ").
Proof.
  split; [vm_compute; reflexivity |].
  apply (sanitizeTemplateName_is_clean "  <b>Work</b>  "). vm_compute. reflexivity.
Defined.

(** ** Creating a template *)

Section Create.
Context `{H : Host}.

Lemma fresh_template_isValid i n d ts stamp :
  isValid (validateTemplate (templateManager.fresh_template i n d ts stamp))
  = truthy (JStr i)
    && isValid (validateTemplateName (JStr (sanitizeTemplateName n)))
    && isValid (validateTabs_from 0 ts)
    && (truthy (JStr stamp) && isValidDate (JStr stamp)).
Proof.
  rewrite validateTemplate_isValid. unfold templateManager.fresh_template.
  cbn [id name tabs createdAt lastUsedAt usageCount is_string is_number js_to_number].
  rewrite bool_decide_eq_true_2 by reflexivity.
  rewrite !andb_true_r. reflexivity.
Qed.

Lemma truthy_JStr s : s <> "" -> truthy (JStr s) = true.
Proof. intros Hs. simpl. destruct (String.eqb_spec s ""); [contradiction | reflexivity]. Qed.

(** X7: on a browser that rejects nothing, [createEmpty] with a name that
    passes [validateTemplateName] before and after sanitizing appends one
    template: its id is the generated UUID, its name the sanitized name,
    it has no tabs, a usage count of 0 and no last use, and its description
    is the one given (the empty string for an undefined one). *)
Theorem createEmpty_appends n d w :
  quiet w ->
  isValid (validateTemplateName (JStr n)) = true ->
  isValid (validateTemplateName (JStr (sanitizeTemplateName n))) = true ->
  uuid w <> "" ->
  toISOString (clock w) <> "" ->
  isValidDate (JStr (toISOString (clock w))) = true ->
  exists t w',
    templateManager.createEmpty (JStr n) d w = (Returns t, w')
    /\ stored w' = stored w ++ [t]
    /\ id t = JStr (uuid w)
    /\ name t = JStr (sanitizeTemplateName n)
    /\ description t = (if bool_decide (d = JUndefined) then JStr "" else d)
    /\ tabs t = []
    /\ usageCount t = JNum 0
    /\ lastUsedAt t = JNull
    /\ createdAt t = JStr (toISOString (clock w)).
Proof.
  intros Q Hn Hs Hi Hstamp Hdate.
  assert (Hv : isValid (validateTemplate
                 (templateManager.fresh_template (uuid w) n
                    (templateManager.default_description d) []
                    (toISOString (clock w)))) = true).
  { rewrite fresh_template_isValid, Hs, Hdate, (truthy_JStr _ Hi),
      (truthy_JStr _ Hstamp). reflexivity. }
  exists (templateManager.fresh_template (uuid w) n
            (templateManager.default_description d) [] (toISOString (clock w))).
  eexists. split.
  - unfold templateManager.createEmpty. rewrite Hn. cbn [negb].
    unfold bind, generateUUID, now_iso. cbn [js_to_string].
    rewrite (saveTemplate_quiet _ _ Q Hv). reflexivity.
  - repeat split.
Qed.

(** X8: sanitizing comes after the first check of the name.  When the
    sanitized name no longer passes [validateTemplateName], as for a name
    made of angle brackets, [createEmpty] throws the error of that second
    check and nothing is stored or asked of the browser. *)
Theorem createEmpty_rejects_emptied_name n d w :
  isValid (validateTemplateName (JStr n)) = true ->
  isValid (validateTemplateName (JStr (sanitizeTemplateName n))) = false ->
  uuid w <> "" ->
  templateManager.createEmpty (JStr n) d w
  = (Throws (error_message (validateTemplateName (JStr (sanitizeTemplateName n)))), w).
Proof.
  intros Hn Hs Hi.
  unfold templateManager.createEmpty. rewrite Hn. cbn [negb].
  unfold bind, generateUUID, now_iso. cbn [js_to_string].
  unfold storageService.saveTemplate.
  rewrite fresh_template_isValid, Hs, (truthy_JStr _ Hi). cbn [andb negb].
  unfold validateTemplate, templateManager.fresh_template.
  cbn [id name is_string]. rewrite (truthy_JStr _ Hi), Hs. reflexivity.
Qed.

End Create.

(** The template "Work" on a fresh profile. *)
Lemma createEmpty_appends_witness :
  exists t w',
    templateManager.createEmpty (H := SimpleHost.host) (JStr " Work ") JUndefined
      fresh_world = (Returns t, w')
    /\ stored w' = [t]
    /\ name t = JStr "Work"
    /\ description t = JStr ""
    /\ tabs t = [].
Proof.
  assert (H1 : isValid (validateTemplateName (JStr " Work ")) = true)
    by (vm_compute; reflexivity).
  assert (H2 : isValid (validateTemplateName (JStr (sanitizeTemplateName " Work ")))
               = true) by (vm_compute; reflexivity).
  assert (H3 : uuid fresh_world <> "") by discriminate.
  assert (H4 : toISOString (Host := SimpleHost.host) (clock fresh_world) <> "")
    by (vm_compute; discriminate).
  assert (H5 : isValidDate (H := SimpleHost.host)
                 (JStr (toISOString (Host := SimpleHost.host) (clock fresh_world)))
               = true) by (vm_compute; reflexivity).
  destruct (createEmpty_appends (H := SimpleHost.host) " Work " JUndefined fresh_world
              eq_refl H1 H2 H3 H4 H5)
    as (t & w' & E & Hstored & _ & Hname & Hdesc & Htabs & _).
  exists t, w'. split; [exact E |]. split; [exact Hstored |].
  split; [exact Hname |]. split; [exact Hdesc | exact Htabs].
Defined.

(** The name [<>]. *)
Lemma createEmpty_rejects_emptied_name_witness :
  templateManager.createEmpty (H := SimpleHost.host) (JStr "<>") JUndefined fresh_world
  = (Throws "Template name is required", fresh_world).
Proof.
  assert (H1 : isValid (validateTemplateName (JStr "<>")) = true)
    by (vm_compute; reflexivity).
  assert (H2 : isValid (validateTemplateName (JStr (sanitizeTemplateName "<>")))
               = false) by (vm_compute; reflexivity).
  assert (H3 : uuid fresh_world <> "") by discriminate.
  exact (createEmpty_rejects_emptied_name (H := SimpleHost.host) "<>" JUndefined
           fresh_world H1 H2 H3).
Defined.

(** ** URLs and the opening of tabs *)

Section Urls.
Context `{H : Host}.

Lemma validateUrl_inv u :
  isValid (validateUrl u) = true ->
  exists s hostname,
    u = JStr s
    /\ (URL_parse s = Some ("http:", hostname) \/ URL_parse s = Some ("https:", hostname)).
Proof.
  unfold validateUrl. destruct u as [| | b | n | s]; try discriminate.
  destruct (negb (truthy (JStr s))); [discriminate |].
  destruct (str_len s >? UI.MAX_URL_LENGTH)%Z; [discriminate |].
  destruct (URL_parse s) as [[protocol hostname] |] eqn:E; [| discriminate].
  destruct (bool_decide_reflect (protocol ∈ ["http:"; "https:"])) as [Hin |];
    [| discriminate].
  intros _. exists s, hostname. split; [reflexivity |]. rewrite E.
  rewrite !elem_of_cons in Hin. destruct Hin as [-> | [-> | Hin]]; auto.
  apply elem_of_nil in Hin. contradiction.
Qed.

(** X9: every URL that [validateUrl] accepts passes the filter of the tab
    service ([isValidUrl]), so a tab that can be stored in a template is
    never dropped by [filterValidTabs]. *)
Theorem validateUrl_implies_isValidUrl u :
  isValid (validateUrl u) = true -> tabService.isValidUrl u = true.
Proof.
  intros Hv. destruct (validateUrl_inv u Hv) as (s & hostname & -> & [E | E]);
    unfold tabService.isValidUrl; cbn [js_to_string]; rewrite E; reflexivity.
Qed.

Lemma validateTabs_from_forallb i ts :
  isValid (validateTabs_from i ts) = forallb (fun t => isValid (validateTab t)) ts.
Proof.
  revert i. induction ts as [| t ts IH]; intros i; simpl; [reflexivity |].
  destruct (isValid (validateTab t)); simpl; [apply IH | reflexivity].
Qed.

Lemma validateTab_url tab :
  isValid (validateTab tab) = true -> isValid (validateUrl (url tab)) = true.
Proof.
  unfold validateTab. destruct (isValid (validateUrl (url tab))) eqn:E; simpl;
    [reflexivity | rewrite E; discriminate].
Qed.

Lemma validateTemplate_tabs t tab :
  isValid (validateTemplate t) = true -> tab ∈ tabs t ->
  isValid (validateTab tab) = true.
Proof.
  rewrite validateTemplate_isValid, validateTabs_from_forallb. intros Hv Hin.
  repeat (apply andb_prop in Hv; destruct Hv as [Hv ?]).
  match goal with Hall : forallb _ _ = true |- _ =>
    rewrite forallb_forall in Hall; apply Hall end.
  apply list_elem_of_In. exact Hin.
Qed.

(** X10: on a browser that rejects nothing, every stored template that
    passes [validateTemplate] and has at least one tab launches into a new
    window: the launch returns the number of its tabs, and its usage is
    recorded. *)
Theorem valid_template_launches templateId closeExisting i T w :
  quiet w ->
  list_find (fun t => id t = templateId) (stored w) = Some (i, T) ->
  isValid (validateTemplate T) = true ->
  tabs T <> [] ->
  exists result w',
    templateManager.launchTemplate templateId
      (mkLaunchOptions (JStr "new_window") closeExisting) w = (Returns result, w')
    /\ success result = true
    /\ openedTabs result = Z.of_nat (length (tabs T))
    /\ stored w' = <[i := storageService.touch (toISOString (clock w)) T]> (stored w).
Proof.
  intros Q Hfind Hv Htabs.
  destruct (launchTemplate_new_window_returns templateId closeExisting i T w Q Hfind Htabs)
    as (w' & E & Hs).
  - intros tab Hin. apply validateTab_url. eapply validateTemplate_tabs; eassumption.
  - eexists _, w'. split; [exact E |]. repeat split. exact Hs.
Qed.

Lemma check_all_stops {A} (xs : list A) (check : A -> option string) x e w :
  x ∈ xs -> check x = Some e ->
  exists y e', y ∈ xs /\ check y = Some e' /\ check_all xs check w = (Throws e', w).
Proof.
  induction xs as [| a xs IH]; intros Hin Hx.
  - apply elem_of_nil in Hin. contradiction.
  - simpl. destruct (check a) as [ea |] eqn:Ea.
    + exists a, ea. split; [apply list_elem_of_here |]. split; [exact Ea | reflexivity].
    + apply elem_of_cons in Hin. destruct Hin as [-> | Hin]; [congruence |].
      destruct (IH Hin Hx) as (y & e' & Hy & Hcy & Hrun).
      exists y, e'. split; [apply list_elem_of_further; exact Hy |]. split; assumption.
Qed.

(** X11: [openTabs] checks before it opens.  With no tabs, with a tab whose
    URL fails [validateUrl], or with an open behaviour that is none of the
    three, it throws without a single call to the browser: no window or tab
    is created and none is closed. *)
Theorem openTabs_checks_before_opening tabs openBehavior closeExisting w :
  (tabs = [] ->
   tabService.openTabs tabs openBehavior closeExisting w
   = (Throws "No tabs to open", w))
  /\ (forall tab, tab ∈ tabs -> isValid (validateUrl (url tab)) = false ->
        exists bad,
          bad ∈ tabs /\ isValid (validateUrl (url bad)) = false
          /\ tabService.openTabs tabs openBehavior closeExisting w
             = (Throws ("Invalid URL: " +:+ js_to_string (url bad)), w))
  /\ (tabs <> [] ->
      (forall tab, tab ∈ tabs -> isValid (validateUrl (url tab)) = true) ->
      openBehavior ∉ [JUndefined; JStr "new_window"; JStr "current_window";
                      JStr "replace_tabs"] ->
      tabService.openTabs tabs openBehavior closeExisting w
      = (Throws "Invalid open behavior", w)).
Proof.
  split; [intros ->; reflexivity |]. split.
  - intros tab Hin Hbad.
    assert (Hlen : (Z.of_nat (length tabs) =? 0)%Z = false).
    { destruct tabs; [apply elem_of_nil in Hin; contradiction | reflexivity]. }
    destruct (check_all_stops tabs
                (fun tab => if negb (isValid (validateUrl (url tab)))
                            then Some ("Invalid URL: " +:+ js_to_string (url tab))
                            else None)
                tab ("Invalid URL: " +:+ js_to_string (url tab)) w Hin)
      as (bad & e' & Hbad_in & Hcheck & Hrun); [rewrite Hbad; reflexivity |].
    exists bad. split; [exact Hbad_in |].
    destruct (isValid (validateUrl (url bad))) eqn:Eb; [discriminate |].
    split; [reflexivity |]. cbn [negb] in Hcheck. inversion Hcheck; subst.
    unfold tabService.openTabs. rewrite Hlen. unfold bind. rewrite Hrun. reflexivity.
  - intros Hne Hall Hob.
    assert (Hlen : (Z.of_nat (length tabs) =? 0)%Z = false).
    { destruct tabs; [contradiction | reflexivity]. }
    rewrite !not_elem_of_cons in Hob. destruct Hob as (H0 & H1 & H2 & H3 & _).
    unfold tabService.openTabs. rewrite Hlen. unfold bind.
    rewrite check_all_pass by (intros tab Hin; rewrite (Hall tab Hin); reflexivity).
    rewrite (bool_decide_eq_false_2 (openBehavior = JUndefined)) by exact H0.
    rewrite !bool_decide_eq_false_2 by assumption. reflexivity.
Qed.

End Urls.

(** The mail URL. *)
Lemma validateUrl_implies_isValidUrl_witness :
  tabService.isValidUrl (H := SimpleHost.host) (JStr "https://mail.example.com") = true.
Proof.
  apply (validateUrl_implies_isValidUrl (H := SimpleHost.host)).
  vm_compute. reflexivity.
Defined.

(** The launch of [used_template]. *)
Lemma valid_template_launches_witness :
  exists result w',
    templateManager.launchTemplate (H := SimpleHost.host) (JStr "t1")
      (mkLaunchOptions (JStr "new_window") JUndefined) (world_with [used_template] [])
    = (Returns result, w')
    /\ success result = true
    /\ openedTabs result = 1%Z
    /\ usageCount <$> (stored w' !! 0%nat) = Some (JNum 4).
Proof.
  assert (Hfind : list_find (fun t => id t = JStr "t1")
                            (stored (world_with [used_template] []))
                  = Some (0%nat, used_template)) by (vm_compute; reflexivity).
  assert (Hv : isValid (validateTemplate (H := SimpleHost.host) used_template) = true)
    by (vm_compute; reflexivity).
  destruct (valid_template_launches (H := SimpleHost.host) (JStr "t1") JUndefined
              0%nat used_template (world_with [used_template] []) eq_refl Hfind Hv)
    as (result & w' & E & Hsuccess & Hopened & Hstored); [discriminate |].
  exists result, w'. split; [exact E |]. split; [exact Hsuccess |].
  split; [exact Hopened |]. rewrite Hstored. reflexivity.
Defined.

(** A template with an [ftp:] tab, and the open behaviour ["tab"]. *)
Lemma openTabs_checks_before_opening_witness :
  (exists bad,
     tabService.openTabs (H := SimpleHost.host)
       [mail_tab; mkTab (JStr "ftp://files.example.com") (JStr "Files") JUndefined]
       (JStr "new_window") JUndefined (world_with [] [])
     = (Throws ("Invalid URL: " +:+ js_to_string (url bad)), world_with [] []))
  /\ tabService.openTabs (H := SimpleHost.host) [mail_tab] (JStr "tab") JUndefined
       (world_with [] [])
     = (Throws "Invalid open behavior", world_with [] []).
Proof.
  split.
  - destruct (openTabs_checks_before_opening (H := SimpleHost.host)
                [mail_tab; mkTab (JStr "ftp://files.example.com") (JStr "Files") JUndefined]
                (JStr "new_window") JUndefined (world_with [] []))
      as (_ & Hbad & _).
    destruct (Hbad (mkTab (JStr "ftp://files.example.com") (JStr "Files") JUndefined))
      as (bad & _ & _ & E); [compute_done | vm_compute; reflexivity |].
    exists bad. exact E.
  - apply (openTabs_checks_before_opening (H := SimpleHost.host) [mail_tab] (JStr "tab")
             JUndefined (world_with [] [])).
    + discriminate.
    + intros tab Hin. apply list_elem_of_singleton in Hin. subst. vm_compute. reflexivity.
    + compute_done.
Defined.

(** ** Saving the current tabs *)

Section CreateFromCurrentTabs.
Context `{H : Host}.

Lemma saveTemplate_returns t b w w' :
  storageService.saveTemplate t w = (Returns b, w') ->
  isValid (validateTemplate t) = true
  /\ exists l, stored w' = l ++ [t] /\ (l = stored w \/ l = []).
Proof.
  unfold storageService.saveTemplate.
  destruct (isValid (validateTemplate t)); [| discriminate]. cbn [negb].
  unfold bind at 1.
  destruct (getTemplates_cases w) as (l & w1 & E1 & _ & Hl). rewrite E1.
  unfold bind, ret.
  destruct (storage_set_cases (set_TEMPLATES (l ++ [t])) w1)
    as [(w2 & E2 & S2 & _) | (e & w2 & E2 & _)]; rewrite E2; [| discriminate].
  intros E'. inversion E'; subst. split; [reflexivity |].
  exists l. split; [apply (stored_set_TEMPLATES _ _ _ S2) | exact Hl].
Qed.

Lemma getCurrentWindowTabs_cases w :
  exists tabs w1,
    tabService.getCurrentWindowTabs false w = (Returns tabs, w1)
    /\ frame w w1
    /\ (tabs = captured_tabs w \/ tabs = []).
Proof.
  unfold tabService.getCurrentWindowTabs, try_catch, bind, chrome.tabs.query_current,
    chrome_call, captured_tabs.
  destruct (pending w) as [| [e |] rest]; simpl;
    eexists _, _; (split; [reflexivity |]); split;
    auto using frame_refl, frame_set_pending.
Qed.

Lemma getCurrentWindowTabs_quiet w :
  quiet w ->
  tabService.getCurrentWindowTabs false w = (Returns (captured_tabs w), w).
Proof.
  unfold quiet. intros Q.
  unfold tabService.getCurrentWindowTabs, try_catch, bind, chrome.tabs.query_current,
    chrome_call. rewrite Q. reflexivity.
Qed.

(** X12: whatever the browser answers, a template that
    [createFromCurrentTabs] returns holds exactly the tabs of the current
    window that are not incognito and pass [isValidUrl], in their order;
    there is at least one, each of them passes [validateTab] (an http or
    https URL and a non-empty title), and the template is the last of the
    stored list. *)
Theorem createFromCurrentTabs_stores_valid_tabs n d t w w' :
  templateManager.createFromCurrentTabs n d w = (Returns t, w') ->
  tabs t = tabService.filterValidTabs (captured_tabs w)
  /\ tabs t <> []
  /\ (forall tab, tab ∈ tabs t -> isValid (validateTab tab) = true)
  /\ last (stored w') = Some t.
Proof.
  unfold templateManager.createFromCurrentTabs.
  destruct (negb (isValid (validateTemplateName n))); [discriminate |].
  unfold bind at 1.
  destruct (getCurrentWindowTabs_cases w) as (ts & w1 & E1 & _ & Hts). rewrite E1.
  destruct (Z.of_nat (length ts) =? 0)%Z eqn:Elen; [discriminate |].
  destruct Hts as [-> | ->]; [| discriminate].
  destruct (Z.of_nat (length (tabService.filterValidTabs (captured_tabs w))) =? 0)%Z
    eqn:Elen2; [discriminate |].
  unfold bind, generateUUID, now_iso, ret.
  match goal with |- context [storageService.saveTemplate ?x w1] =>
    set (template := x);
    destruct (storageService.saveTemplate template w1) as [[b | e] w2] eqn:Es
  end; [| discriminate].
  intros E'. inversion E'; subst.
  destruct (saveTemplate_returns _ _ _ _ Es) as (Hv & l & Hl & _).
  split; [reflexivity |]. split.
  - subst template. cbn [tabs templateManager.fresh_template].
    intros Hnil. rewrite Hnil in Elen2. discriminate.
  - split.
    + intros tab Hin. eapply validateTemplate_tabs; eassumption.
    + rewrite Hl. apply last_snoc.
Qed.

(** X13: [filterValidTabs] lets through more than [validateTab] accepts.
    On a browser that rejects nothing, when a tab of the current window
    passes the filter but not [validateTab], as an [ftp:] page or a page
    without a title does, [createFromCurrentTabs] throws and nothing of the
    window is saved. *)
Theorem createFromCurrentTabs_all_or_nothing n d tab w :
  quiet w ->
  tab ∈ tabService.filterValidTabs (captured_tabs w) ->
  isValid (validateTab tab) = false ->
  exists e, templateManager.createFromCurrentTabs n d w = (Throws e, w).
Proof.
  intros Q Hin Hbad. unfold templateManager.createFromCurrentTabs.
  destruct (negb (isValid (validateTemplateName n))); [eexists; reflexivity |].
  unfold bind at 1. rewrite (getCurrentWindowTabs_quiet _ Q).
  destruct (Z.of_nat (length (captured_tabs w)) =? 0)%Z; [eexists; reflexivity |].
  destruct (Z.of_nat (length (tabService.filterValidTabs (captured_tabs w))) =? 0)%Z;
    [eexists; reflexivity |].
  unfold bind, generateUUID, now_iso.
  match goal with |- context [storageService.saveTemplate ?x w] =>
    set (template := x) end.
  assert (Hv : isValid (validateTemplate template) = false).
  { destruct (isValid (validateTemplate template)) eqn:Ev; [| reflexivity].
    rewrite <- Hbad. symmetry.
    apply (validateTemplate_tabs template tab Ev). exact Hin. }
  unfold storageService.saveTemplate. rewrite Hv. eexists. reflexivity.
Qed.

End CreateFromCurrentTabs.

(** A window of three tabs, one a page of the browser, one incognito: the
    mail page is what gets saved. *)
Lemma createFromCurrentTabs_stores_valid_tabs_witness :
  exists t,
    fst (templateManager.createFromCurrentTabs (H := SimpleHost.host)
           (JStr "Morning") JUndefined (busy_world false)) = Returns t
    /\ map url (tabs t) = [JStr "https://mail.example.com"]
    /\ (forall tab, tab ∈ tabs t ->
                    isValid (validateTab (H := SimpleHost.host) tab) = true).
Proof.
  destruct (templateManager.createFromCurrentTabs (H := SimpleHost.host)
              (JStr "Morning") JUndefined (busy_world false)) as [[t | e] w'] eqn:E;
    [| vm_compute in E; discriminate].
  destruct (createFromCurrentTabs_stores_valid_tabs (H := SimpleHost.host)
              _ _ _ _ _ E) as (Htabs & _ & Hvalid & _).
  exists t. split; [reflexivity |]. split; [rewrite Htabs; reflexivity | exact Hvalid].
Defined.

(** The same window with an [ftp:] listing open. *)
Lemma createFromCurrentTabs_all_or_nothing_witness :
  exists e,
    templateManager.createFromCurrentTabs (H := SimpleHost.host)
      (JStr "Morning") JUndefined (busy_world true) = (Throws e, busy_world true).
Proof.
  apply (createFromCurrentTabs_all_or_nothing (H := SimpleHost.host)
           (JStr "Morning") JUndefined
           {| url := JStr "ftp://files.example.com";
              title := JStr "Files";
              favicon := JStr "https://www.google.com/s2/favicons?domain=files.example.com&sz=32" |}).
  - reflexivity.
  - vm_compute. apply list_elem_of_further, list_elem_of_here.
  - vm_compute. reflexivity.
Defined.

(** ** Adding and removing tabs *)

Section TabsOfATemplate.
Context `{H : Host}.

Lemma updateTemplate_quiet templateId updates i T w :
  quiet w ->
  list_find (fun t => id t = templateId) (stored w) = Some (i, T) ->
  isValid (validateTemplate (spread_template T updates)) = true ->
  storageService.updateTemplate templateId updates w
  = (Returns true,
     set_sync (set_TEMPLATES (<[i := spread_template T updates]> (stored w)) (sync w)) w).
Proof.
  intros Q Hfind Hv. unfold storageService.updateTemplate, bind at 1.
  rewrite (getTemplates_quiet _ Q), Hfind, Hv. cbn [negb].
  unfold bind. rewrite (storage_set_quiet _ _ Q). reflexivity.
Qed.

Lemma with_tabs_valid ts T :
  isValid (validateTemplate T) = true ->
  (forall tab, tab ∈ ts -> isValid (validateTab tab) = true) ->
  isValid (validateTemplate (with_tabs ts T)) = true.
Proof.
  intros HT Hts. rewrite validateTemplate_isValid in HT. rewrite validateTemplate_isValid.
  unfold with_tabs. cbn [id name tabs createdAt lastUsedAt usageCount].
  apply andb_prop in HT. destruct HT as [HT HU].
  apply andb_prop in HT. destruct HT as [HT HL].
  apply andb_prop in HT. destruct HT as [HT HC].
  apply andb_prop in HT. destruct HT as [HT _].
  apply andb_prop in HT. destruct HT as [HA HN].
  assert (Hall : isValid (validateTabs_from 0 ts) = true).
  { rewrite validateTabs_from_forallb. apply forallb_forall.
    intros tab Hin. apply Hts. apply list_elem_of_In. exact Hin. }
  rewrite HA, HN, Hall, HC, HL, HU. reflexivity.
Qed.

Lemma spread_only_tabs ts T :
  spread_template T (mkTemplateUpdates None None None None None (Some ts) None None None)
  = with_tabs ts T.
Proof. reflexivity. Qed.

(** X14: on a browser that rejects nothing, [addTab] with a valid tab on a
    stored valid template that holds fewer than [TEMPLATE.MAX_TABS] tabs
    returns true and puts the tab at the end of its tab list; nothing else
    of the template or of the list changes, and the tab list does not
    exceed the maximum. *)
Theorem addTab_appends templateId tab i T w :
  quiet w ->
  list_find (fun t => id t = templateId) (stored w) = Some (i, T) ->
  isValid (validateTemplate T) = true ->
  isValid (validateTab tab) = true ->
  (Z.of_nat (length (tabs T)) < TEMPLATE.MAX_TABS)%Z ->
  exists w',
    templateManager.addTab templateId tab w = (Returns true, w')
    /\ stored w' = <[i := with_tabs (tabs T ++ [tab]) T]> (stored w)
    /\ (Z.of_nat (length (tabs T ++ [tab])) <= TEMPLATE.MAX_TABS)%Z.
Proof.
  intros Q Hfind HT Htab Hroom.
  assert (Hfound : find_template templateId (stored w) = Some T).
  { rewrite <- list_find_find_template, Hfind. reflexivity. }
  assert (Hv : isValid (validateTemplate (with_tabs (tabs T ++ [tab]) T)) = true).
  { apply with_tabs_valid; [exact HT |]. intros x Hx.
    apply elem_of_app in Hx. destruct Hx as [Hx | Hx].
    - eapply validateTemplate_tabs; eassumption.
    - apply list_elem_of_singleton in Hx. subst. exact Htab. }
  eexists. split; [| split].
  - unfold templateManager.addTab. rewrite Htab. cbn [negb]. unfold bind at 1.
    rewrite (getTemplate_quiet _ _ Q), Hfound.
    destruct (Z.geb_spec (Z.of_nat (length (tabs T))) TEMPLATE.MAX_TABS); [lia |].
    unfold bind. rewrite (updateTemplate_quiet templateId _ i T w Q Hfind);
      [reflexivity | rewrite spread_only_tabs; exact Hv].
  - reflexivity.
  - rewrite length_app. cbn [length]. lia.
Qed.

Lemma elem_of_splice1 {A} (k : Z) (l : list A) x :
  x ∈ templateManager.splice1 k l -> x ∈ l.
Proof.
  unfold templateManager.splice1. rewrite elem_of_app. intros [Hx | Hx].
  - eapply elem_of_sublist; [exact Hx | apply sublist_take].
  - eapply elem_of_sublist; [exact Hx | apply sublist_drop].
Qed.

Lemma length_splice1 {A} (k : Z) (l : list A) :
  (0 <= k < Z.of_nat (length l))%Z ->
  S (length (templateManager.splice1 k l)) = length l.
Proof.
  intros Hk. unfold templateManager.splice1.
  rewrite length_app, length_take, length_drop. lia.
Qed.

(** X15: on a browser that rejects nothing, [removeTab] on a stored valid
    template throws [Invalid tab index] and changes nothing when the index
    is negative or not below the number of tabs; otherwise it returns true
    and the tab list loses exactly the tab at that index, the others
    keeping their order. *)
Theorem removeTab_removes_one templateId k i T w :
  quiet w ->
  list_find (fun t => id t = templateId) (stored w) = Some (i, T) ->
  isValid (validateTemplate T) = true ->
  ((k < 0 \/ Z.of_nat (length (tabs T)) <= k)%Z ->
   templateManager.removeTab templateId k w = (Throws "Invalid tab index", w))
  /\ ((0 <= k < Z.of_nat (length (tabs T)))%Z ->
      exists w',
        templateManager.removeTab templateId k w = (Returns true, w')
        /\ stored w'
           = <[i := with_tabs (take (Z.to_nat k) (tabs T)
                               ++ drop (S (Z.to_nat k)) (tabs T)) T]> (stored w)
        /\ S (length (take (Z.to_nat k) (tabs T) ++ drop (S (Z.to_nat k)) (tabs T)))
           = length (tabs T)).
Proof.
  intros Q Hfind HT.
  assert (Hfound : find_template templateId (stored w) = Some T).
  { rewrite <- list_find_find_template, Hfind. reflexivity. }
  split.
  - intros Hout. unfold templateManager.removeTab, bind at 1.
    rewrite (getTemplate_quiet _ _ Q), Hfound.
    destruct (Z.ltb_spec k 0); [reflexivity |].
    destruct (Z.geb_spec k (Z.of_nat (length (tabs T)))); [reflexivity | lia].
  - intros Hin.
    assert (Hv : isValid (validateTemplate
                            (with_tabs (templateManager.splice1 k (tabs T)) T)) = true).
    { apply with_tabs_valid; [exact HT |]. intros x Hx.
      apply elem_of_splice1 in Hx. eapply validateTemplate_tabs; eassumption. }
    eexists. split; [| split].
    + unfold templateManager.removeTab, bind at 1.
      rewrite (getTemplate_quiet _ _ Q), Hfound.
      destruct (Z.ltb_spec k 0); [lia |].
      destruct (Z.geb_spec k (Z.of_nat (length (tabs T)))); [lia |].
      cbn [orb]. unfold bind.
      rewrite (updateTemplate_quiet templateId _ i T w Q Hfind);
        [reflexivity | rewrite spread_only_tabs; exact Hv].
    + reflexivity.
    + apply (length_splice1 k (tabs T) Hin).
Qed.

End TabsOfATemplate.

(** The news page for [used_template]. *)
Lemma addTab_appends_witness :
  exists w',
    templateManager.addTab (H := SimpleHost.host) (JStr "t1") news_tab
      (world_with [used_template] []) = (Returns true, w')
    /\ map tabs (stored w') = [[mail_tab; news_tab]].
Proof.
  assert (Hfind : list_find (fun t => id t = JStr "t1")
                            (stored (world_with [used_template] []))
                  = Some (0%nat, used_template)) by (vm_compute; reflexivity).
  assert (Hv : isValid (validateTemplate (H := SimpleHost.host) used_template) = true)
    by (vm_compute; reflexivity).
  assert (Htab : isValid (validateTab (H := SimpleHost.host) news_tab) = true)
    by (vm_compute; reflexivity).
  destruct (addTab_appends (H := SimpleHost.host) (JStr "t1") news_tab 0%nat
              used_template (world_with [used_template] []) eq_refl Hfind Hv Htab)
    as (w' & E & Hstored & _); [vm_compute; reflexivity |].
  exists w'. split; [exact E |]. rewrite Hstored. reflexivity.
Defined.

(** Index 0 and index 2 of a template with two tabs. *)
Lemma removeTab_removes_one_witness :
  (exists w',
     templateManager.removeTab (H := SimpleHost.host) (JStr "t1") 0
       (world_with [two_tab_template] []) = (Returns true, w')
     /\ map tabs (stored w') = [[news_tab]])
  /\ templateManager.removeTab (H := SimpleHost.host) (JStr "t1") 2
       (world_with [two_tab_template] [])
     = (Throws "Invalid tab index", world_with [two_tab_template] []).
Proof.
  assert (Hfind : list_find (fun t => id t = JStr "t1")
                            (stored (world_with [two_tab_template] []))
                  = Some (0%nat, two_tab_template)) by (vm_compute; reflexivity).
  assert (Hv : isValid (validateTemplate (H := SimpleHost.host) two_tab_template) = true)
    by (vm_compute; reflexivity).
  split.
  - destruct (removeTab_removes_one (H := SimpleHost.host) (JStr "t1") 0 0%nat
                two_tab_template (world_with [two_tab_template] []) eq_refl Hfind Hv)
      as (_ & Hin).
    destruct Hin as (w' & E & Hstored & _); [cbn; lia |].
    exists w'. split; [exact E |]. rewrite Hstored. reflexivity.
  - apply (removeTab_removes_one (H := SimpleHost.host) (JStr "t1") 2 0%nat
             two_tab_template (world_with [two_tab_template] []) eq_refl Hfind Hv).
    right. cbn. lia.
Defined.

(** ** Windows and tabs of the browser *)

Lemma map_add_tab_other wid t (ws : list ChromeWindow) :
  wid ∉ map window_id ws -> map (chrome.tabs.add_tab wid t) ws = ws.
Proof.
  induction ws as [| cw ws IH]; simpl; [reflexivity |].
  intros Hnot. rewrite not_elem_of_cons in Hnot. destruct Hnot as [Hne Hnot].
  unfold chrome.tabs.add_tab at 1.
  rewrite bool_decide_eq_false_2 by congruence. rewrite IH by exact Hnot. reflexivity.
Qed.

Lemma tabs_create_in_last wid u pre done w :
  quiet w ->
  windows w = pre ++ [mkChromeWindow wid done] ->
  wid ∉ map window_id pre ->
  exists w',
    chrome.tabs.create wid u w = (Returns tt, w')
    /\ quiet w'
    /\ windows w'
       = pre ++ [mkChromeWindow wid (done ++ [chrome.new_tab (next_id w) u])].
Proof.
  unfold quiet. intros Q Hws Hpre. unfold chrome.tabs.create, chrome_call. rewrite Q.
  rewrite bool_decide_eq_true_2.
  - eexists. split; [reflexivity |]. split; [exact Q |].
    cbn [windows set_windows]. rewrite Hws, map_app, (map_add_tab_other _ _ _ Hpre).
    simpl. unfold chrome.tabs.add_tab. cbn [window_id window_tabs].
    rewrite bool_decide_eq_true_2 by reflexivity. reflexivity.
  - rewrite Hws, map_app. apply elem_of_app. right. apply list_elem_of_here.
Qed.

Lemma for_of_create_in_last wid (ts : list Tab) pre done w :
  quiet w ->
  windows w = pre ++ [mkChromeWindow wid done] ->
  wid ∉ map window_id pre ->
  exists w' done',
    for_of ts (fun tab => chrome.tabs.create wid (tabService.url_string tab)) w
    = (Returns tt, w')
    /\ quiet w'
    /\ windows w' = pre ++ [mkChromeWindow wid done']
    /\ map tab_url done' = map tab_url done ++ map tabService.url_string ts.
Proof.
  revert done w. induction ts as [| tab ts IH]; intros done w Q Hws Hpre; simpl.
  - exists w, done. split; [reflexivity |]. split; [exact Q |].
    split; [exact Hws | rewrite app_nil_r; reflexivity].
  - destruct (tabs_create_in_last wid (tabService.url_string tab) pre done w Q Hws Hpre)
      as (w1 & E1 & Q1 & Hws1).
    unfold bind. rewrite E1.
    destruct (IH _ w1 Q1 Hws1 Hpre) as (w2 & done2 & E2 & Q2 & Hws2 & Hurls).
    exists w2, done2. split; [exact E2 |]. split; [exact Q2 |].
    split; [exact Hws2 |]. rewrite Hurls, map_app, <- app_assoc. reflexivity.
Qed.

(** X16: on a browser that rejects nothing, [openTabs] with the behaviour
    [new_window], or with none given, opens one new window that holds the
    URLs of the tabs, all of them, in their order; the windows that were
    open are as before, and the result reports the number of tabs and the
    id of the new window. *)
Theorem openTabs_new_window `{H : Host} tabs openBehavior closeExisting w :
  quiet w ->
  tabs <> [] ->
  (forall tab, tab ∈ tabs -> isValid (validateUrl (url tab)) = true) ->
  openBehavior ∈ [JUndefined; JStr "new_window"] ->
  next_id w ∉ map window_id (windows w) ->
  exists cw w',
    tabService.openTabs tabs openBehavior closeExisting w
    = (Returns {| success := true;
                  openedTabs := Z.of_nat (length tabs);
                  windowId := Some (next_id w) |}, w')
    /\ windows w' = windows w ++ [cw]
    /\ window_id cw = next_id w
    /\ map tab_url (window_tabs cw) = map tabService.url_string tabs.
Proof.
  intros Q Hne Hall Hob Hfresh.
  assert (Hlen : (Z.of_nat (length tabs) =? 0)%Z = false).
  { destruct tabs; [contradiction | reflexivity]. }
  assert (Hnew : bool_decide
                   ((if bool_decide (openBehavior = JUndefined)
                     then JStr "new_window" else openBehavior) = JStr "new_window")
                 = true).
  { rewrite !elem_of_cons in Hob. destruct Hob as [-> | [-> | Hob]];
      [reflexivity | reflexivity | apply elem_of_nil in Hob; contradiction]. }
  unfold tabService.openTabs. rewrite Hlen. unfold bind at 1.
  rewrite check_all_pass by (intros tab Hin; rewrite (Hall tab Hin); reflexivity).
  rewrite Hnew. destruct tabs as [| first remaining]; [contradiction |].
  unfold tabService.openInNewWindow, bind at 1.
  unfold chrome.windows.create, chrome_call. rewrite Q.
  set (w1 := set_windows _ _ w).
  destruct (for_of_create_in_last (next_id w) remaining (windows w)
              [chrome.new_tab (next_id w + 1) (tabService.url_string first)] w1)
    as (w2 & done & E2 & _ & Hws & Hurls); [exact Q | reflexivity | exact Hfresh |].
  unfold bind. rewrite E2.
  exists (mkChromeWindow (next_id w) done), w2.
  split; [reflexivity |]. split; [exact Hws |]. split; [reflexivity |].
  exact Hurls.
Qed.

(** Two tabs opened from a browser with one window. *)
Lemma openTabs_new_window_witness :
  exists cw w',
    tabService.openTabs (H := SimpleHost.host) [mail_tab; news_tab] JUndefined JUndefined
      (pinned_world [])
    = (Returns {| success := true; openedTabs := 2; windowId := Some 10 |}, w')
    /\ windows w' = windows (pinned_world []) ++ [cw]
    /\ window_id cw = 10%Z
    /\ map tab_url (window_tabs cw)
       = ["https://mail.example.com"; "https://news.example.com"].
Proof.
  apply (openTabs_new_window (H := SimpleHost.host) [mail_tab; news_tab] JUndefined
           JUndefined (pinned_world [])).
  - reflexivity.
  - discriminate.
  - intros tab Hin. rewrite !elem_of_cons in Hin.
    destruct Hin as [-> | [-> | Hin]]; [vm_compute; reflexivity ..|].
    apply elem_of_nil in Hin. contradiction.
  - compute_done.
  - compute_done.
Defined.

Lemma preserves_ret {A} P (a : A) : preserves P (ret a).
Proof. intros w Hw. exact Hw. Qed.

Lemma preserves_bind {A B} P (m : Async A) (k : A -> Async B) :
  preserves P m -> (forall a, preserves P (k a)) -> preserves P (bind m k).
Proof.
  intros Hm Hk w Hw. unfold bind. specialize (Hm w Hw).
  destruct (m w) as [[a | e] w1]; simpl in *; [apply Hk |]; exact Hm.
Qed.

Lemma preserves_for_of {A} P (xs : list A) (body : A -> Async unit) :
  (forall x, x ∈ xs -> preserves P (body x)) -> preserves P (for_of xs body).
Proof.
  induction xs as [| x xs IH]; intros Hbody; simpl; [apply preserves_ret |].
  apply preserves_bind.
  - apply Hbody. apply list_elem_of_here.
  - intros _. apply IH. intros y Hy. apply Hbody. apply list_elem_of_further. exact Hy.
Qed.

Lemma preserves_chrome_call {A} (P : World -> Prop) (api : Async A) :
  (forall p w, P w -> P (set_pending p w)) ->
  preserves P api -> preserves P (chrome_call api).
Proof.
  intros Hp Hapi w Hw. unfold chrome_call.
  destruct (pending w) as [| [e |] rest]; simpl.
  - apply Hapi. exact Hw.
  - apply Hp. exact Hw.
  - apply Hapi. apply Hp. exact Hw.
Qed.

(** The step of a [bind] at one world, where what follows depends on the
    value returned. *)
Lemma bind_keeps {A B} (P : World -> Prop) (m : Async A) (k : A -> Async B) w :
  P (snd (m w)) ->
  (forall a w1, m w = (Returns a, w1) -> P (snd (k a w1))) ->
  P (snd (bind m k w)).
Proof.
  intros Hm Hk. unfold bind. destruct (m w) as [[a | e] w1] eqn:E; simpl in *.
  - apply Hk. reflexivity.
  - exact Hm.
Qed.

Lemma find_window_map (f : ChromeWindow -> ChromeWindow) c (ws : list ChromeWindow) :
  (forall cw, window_id (f cw) = window_id cw) ->
  List.find (fun cw => bool_decide (window_id cw = c)) (map f ws)
  = option_map f (List.find (fun cw => bool_decide (window_id cw = c)) ws).
Proof.
  intros Hid. induction ws as [| cw ws IH]; simpl; [reflexivity |].
  rewrite Hid. destruct (bool_decide (window_id cw = c)); [reflexivity | exact IH].
Qed.

Lemma tabs_of_drop_tab c i n w :
  chrome.tabs.tabs_of c
    (set_windows (map (chrome.tabs.drop_tab i) (windows w)) n w)
  = List.filter (fun t => negb (bool_decide (tab_id t = i))) (chrome.tabs.tabs_of c w).
Proof.
  unfold chrome.tabs.tabs_of. cbn [windows set_windows].
  rewrite find_window_map by reflexivity.
  destruct (List.find _ (windows w)); reflexivity.
Qed.

Lemma tabs_of_add_tab c wid x n w t :
  t ∈ chrome.tabs.tabs_of c w ->
  t ∈ chrome.tabs.tabs_of c
        (set_windows (map (chrome.tabs.add_tab wid x) (windows w)) n w).
Proof.
  unfold chrome.tabs.tabs_of. cbn [windows set_windows].
  rewrite find_window_map.
  - destruct (List.find _ (windows w)) as [cw |]; simpl; [| intros Hin; exact Hin].
    unfold chrome.tabs.add_tab. destruct (bool_decide (window_id cw = wid)); simpl.
    + intros Hin. apply elem_of_app. left. exact Hin.
    + intros Hin. exact Hin.
  - intros cw. unfold chrome.tabs.add_tab.
    destruct (bool_decide (window_id cw = wid)); reflexivity.
Qed.

Lemma elem_of_List_filter {A} (f : A -> bool) (l : list A) x :
  x ∈ List.filter f l <-> f x = true /\ x ∈ l.
Proof.
  rewrite !list_elem_of_In, filter_In. split; intros [H1 H2]; split; assumption.
Qed.

Lemma preserves_create c t wid u :
  preserves (fun w => currentWindow w = c /\ t ∈ chrome.tabs.tabs_of c w)
            (chrome.tabs.create wid u).
Proof.
  apply preserves_chrome_call.
  - intros p w Hw. exact Hw.
  - intros w [Hc Hin].
    destruct (bool_decide (wid ∈ map window_id (windows w))); simpl.
    + split; [exact Hc | apply tabs_of_add_tab; exact Hin].
    + split; assumption.
Qed.

Lemma preserves_remove c t i :
  i <> tab_id t ->
  preserves (fun w => currentWindow w = c /\ t ∈ chrome.tabs.tabs_of c w)
            (chrome.tabs.remove i).
Proof.
  intros Hne. apply preserves_chrome_call.
  - intros p w Hw. exact Hw.
  - intros w [Hc Hin].
    destruct (bool_decide (i ∈ map tab_id (concat (map window_tabs (windows w)))));
      simpl.
    + split; [exact Hc |]. rewrite tabs_of_drop_tab.
      apply elem_of_List_filter. split; [| exact Hin].
      rewrite bool_decide_eq_false_2 by congruence. reflexivity.
    + split; assumption.
Qed.

Lemma chrome_call_reads_cases {A} (f : World -> A) w :
  exists p,
    chrome_call (fun w => (Returns (f w), w)) w
    = (Returns (f (set_pending p w)), set_pending p w)
    \/ exists e,
         chrome_call (fun w => (Returns (f w), w)) w = (Throws e, set_pending p w).
Proof.
  unfold chrome_call. destruct (pending w) as [| [e |] rest] eqn:E.
  - exists []. left. destruct w; simpl in *; subst; reflexivity.
  - exists rest. right. exists e. reflexivity.
  - exists rest. left. reflexivity.
Qed.

Lemma NoDup_map_inj_on {A B} (f : A -> B) (l : list A) x y :
  NoDup (map f l) -> x ∈ l -> y ∈ l -> f x = f y -> x = y.
Proof.
  induction l as [| a l IH]; simpl; intros Hnd Hx Hy Hf.
  - apply elem_of_nil in Hx. contradiction.
  - apply NoDup_cons in Hnd. destruct Hnd as [Hnot Hnd].
    rewrite elem_of_cons in Hx, Hy. destruct Hx as [-> | Hx], Hy as [-> | Hy].
    + reflexivity.
    + exfalso. apply Hnot. rewrite Hf. apply (list_elem_of_fmap_2 f). exact Hy.
    + exfalso. apply Hnot. rewrite <- Hf. apply (list_elem_of_fmap_2 f). exact Hx.
    + apply IH; assumption.
Qed.

(** X17: [replaceTabs] never closes a pinned tab. Whatever the browser
    answers to each call, and whether the replacement runs to its end or
    stops at a rejected call, a tab that was pinned in the current window,
    whose tabs have distinct ids, is still open there afterwards. *)
Theorem replaceTabs_keeps_pinned tabs closeExisting w t :
  open_in_current t w ->
  pinned t = true ->
  NoDup (map tab_id (chrome.tabs.tabs_of (currentWindow w) w)) ->
  open_in_current t (snd (tabService.replaceTabs tabs closeExisting w)).
Proof.
  intros Hopen Hpin Hnd.
  set (c := currentWindow w).
  set (P := fun w' => currentWindow w' = c /\ t ∈ chrome.tabs.tabs_of c w').
  assert (HP : forall w', P w' -> open_in_current t w').
  { intros w' [Hc Hin]. unfold open_in_current. rewrite Hc. exact Hin. }
  assert (P0 : forall p, P (set_pending p w)).
  { intros p. split; [reflexivity | exact Hopen]. }
  assert (Hcreate : forall k : Z,
             preserves P
               (for_of tabs (fun tab => chrome.tabs.create k (tabService.url_string tab))
                ;;; ret {| success := true;
                           openedTabs := Z.of_nat (length tabs);
                           windowId := Some k |})).
  { intros k. apply preserves_bind; [| intros _; apply preserves_ret].
    apply preserves_for_of. intros x _. apply preserves_create. }
  apply HP. unfold tabService.replaceTabs.
  apply bind_keeps.
  - unfold chrome.windows.getCurrent.
    destruct (chrome_call_reads_cases currentWindow w) as (p & [E | [e E]]);
      rewrite E; apply P0.
  - intros k w1 E1.
    assert (P1 : P w1).
    { unfold chrome.windows.getCurrent in E1.
      destruct (chrome_call_reads_cases currentWindow w) as (p & [E | [e E]]);
        rewrite E in E1; inversion E1; apply P0. }
    assert (W1 : chrome.tabs.tabs_of c w1 = chrome.tabs.tabs_of c w
                 /\ k = c).
    { unfold chrome.windows.getCurrent in E1.
      destruct (chrome_call_reads_cases currentWindow w) as (p & [E | [e E]]);
        rewrite E in E1; inversion E1. split; reflexivity. }
    destruct W1 as [W1 ->].
    apply bind_keeps.
    + destruct (truthy closeExisting); [| exact P1].
      apply bind_keeps.
      * unfold chrome.tabs.query.
        destruct (chrome_call_reads_cases (chrome.tabs.tabs_of c) w1)
          as (p & [E | [e E]]); rewrite E; destruct P1 as [Hc Hin]; split; assumption.
      * intros currentTabs w2 E2.
        assert (W2 : currentTabs = chrome.tabs.tabs_of c w /\ P w2).
        { unfold chrome.tabs.query in E2.
          destruct (chrome_call_reads_cases (chrome.tabs.tabs_of c) w1)
            as (p & [E | [e E]]); rewrite E in E2; inversion E2.
          split; [exact W1 |]. destruct P1 as [Hc Hin]. split; assumption. }
        destruct W2 as [-> P2].
        apply preserves_for_of; [| exact P2].
        intros x Hx. apply preserves_remove. intros Heq.
        apply elem_of_List_filter in Hx. destruct Hx as [Hunpinned Hx].
        assert (x = t) as ->.
        { apply (NoDup_map_inj_on tab_id (chrome.tabs.tabs_of c w));
            [exact Hnd | exact Hx | exact Hopen | exact Heq]. }
        rewrite Hpin in Hunpinned. discriminate Hunpinned.
    + intros [] w2 E2.
      apply Hcreate.
      assert (P (snd ((if truthy closeExisting
                       then
                         currentTabs <- chrome.tabs.query c ;;
                         for_of (List.filter (fun tab => negb (pinned tab)) currentTabs)
                                (fun tab => chrome.tabs.remove (tab_id tab))
                       else ret tt) w1))) as Hmid; [| rewrite E2 in Hmid; exact Hmid].
      destruct (truthy closeExisting); [| exact P1].
      apply bind_keeps.
      * unfold chrome.tabs.query.
        destruct (chrome_call_reads_cases (chrome.tabs.tabs_of c) w1)
          as (p & [E | [e E]]); rewrite E; destruct P1 as [Hc Hin]; split; assumption.
      * intros currentTabs w3 E3.
        assert (W3 : currentTabs = chrome.tabs.tabs_of c w /\ P w3).
        { unfold chrome.tabs.query in E3.
          destruct (chrome_call_reads_cases (chrome.tabs.tabs_of c) w1)
            as (p & [E | [e E]]); rewrite E in E3; inversion E3.
          split; [exact W1 |]. destruct P1 as [Hc Hin]. split; assumption. }
        destruct W3 as [-> P3].
        apply preserves_for_of; [| exact P3].
        intros x Hx. apply preserves_remove. intros Heq.
        apply elem_of_List_filter in Hx. destruct Hx as [Hunpinned Hx].
        assert (x = t) as ->.
        { apply (NoDup_map_inj_on tab_id (chrome.tabs.tabs_of c w));
            [exact Hnd | exact Hx | exact Hopen | exact Heq]. }
        rewrite Hpin in Hunpinned. discriminate Hunpinned.
Qed.

(** The pinned tab survives a replacement that the browser stops halfway. *)
Lemma replaceTabs_keeps_pinned_witness :
  open_in_current
    (mkChromeTab 2 "https://mail.example.com" "Mail" JUndefined false true)
    (snd (tabService.replaceTabs [mail_tab; news_tab]
            (JBool true) (pinned_world [None; None; None; Some "Tabs cannot be edited"]))).
Proof.
  apply replaceTabs_keeps_pinned.
  - unfold open_in_current. cbv. apply list_elem_of_here.
  - reflexivity.
  - compute_done.
Defined.

Lemma tabs_of_window c w :
  c ∈ map window_id (windows w) ->
  exists cw, cw ∈ windows w /\ chrome.tabs.tabs_of c w = window_tabs cw.
Proof.
  unfold chrome.tabs.tabs_of. intros Hin.
  destruct (List.find _ (windows w)) as [cw |] eqn:E.
  - apply find_some in E. destruct E as [E _]. exists cw.
    split; [apply list_elem_of_In; exact E | reflexivity].
  - exfalso. apply list_elem_of_fmap in Hin. destruct Hin as (cw & Hid & Hcw).
    apply list_elem_of_In in Hcw. apply (find_none _ _ E) in Hcw.
    simpl in Hcw. rewrite bool_decide_eq_true_2 in Hcw by (symmetry; exact Hid).
    discriminate Hcw.
Qed.

Lemma tabs_create_quiet_in c u w :
  quiet w ->
  c ∈ map window_id (windows w) ->
  exists w',
    chrome.tabs.create c u w = (Returns tt, w')
    /\ quiet w'
    /\ c ∈ map window_id (windows w')
    /\ chrome.tabs.tabs_of c w'
       = chrome.tabs.tabs_of c w ++ [chrome.new_tab (next_id w) u].
Proof.
  unfold quiet. intros Q Hin. unfold chrome.tabs.create, chrome_call. rewrite Q.
  rewrite bool_decide_eq_true_2 by exact Hin.
  eexists. split; [reflexivity |]. split; [exact Q |]. split.
  - cbn [windows set_windows]. rewrite map_map.
    erewrite map_ext; [exact Hin |].
    intros cw. unfold chrome.tabs.add_tab.
    destruct (bool_decide (window_id cw = c)); reflexivity.
  - unfold chrome.tabs.tabs_of. cbn [windows set_windows].
    rewrite find_window_map.
    + destruct (List.find _ (windows w)) as [cw |] eqn:E; simpl.
      * apply find_some in E. destruct E as [_ E].
        unfold chrome.tabs.add_tab. rewrite E. reflexivity.
      * exfalso. apply list_elem_of_fmap in Hin. destruct Hin as (cw & Hid & Hcw).
        apply list_elem_of_In in Hcw. apply (find_none _ _ E) in Hcw.
        simpl in Hcw. rewrite bool_decide_eq_true_2 in Hcw by (symmetry; exact Hid).
        discriminate Hcw.
    + intros cw. unfold chrome.tabs.add_tab.
      destruct (bool_decide (window_id cw = c)); reflexivity.
Qed.

Lemma for_of_create_quiet_in c (ts : list Tab) w :
  quiet w ->
  c ∈ map window_id (windows w) ->
  exists w' opened,
    for_of ts (fun tab => chrome.tabs.create c (tabService.url_string tab)) w
    = (Returns tt, w')
    /\ quiet w'
    /\ chrome.tabs.tabs_of c w' = chrome.tabs.tabs_of c w ++ opened
    /\ map tab_url opened = map tabService.url_string ts.
Proof.
  revert w. induction ts as [| tab ts IH]; intros w Q Hin; simpl.
  - exists w, []. split; [reflexivity |]. split; [exact Q |].
    split; [rewrite app_nil_r; reflexivity | reflexivity].
  - destruct (tabs_create_quiet_in c (tabService.url_string tab) w Q Hin)
      as (w1 & E1 & Q1 & Hin1 & Htabs1).
    unfold bind. rewrite E1.
    destruct (IH w1 Q1 Hin1) as (w2 & opened & E2 & Q2 & Htabs2 & Hurls).
    exists w2, (chrome.new_tab (next_id w) (tabService.url_string tab) :: opened).
    split; [exact E2 |]. split; [exact Q2 |]. split.
    + rewrite Htabs2, Htabs1, <- app_assoc. reflexivity.
    + simpl. rewrite Hurls. reflexivity.
Qed.

Lemma tabs_remove_quiet c x w :
  quiet w ->
  c ∈ map window_id (windows w) ->
  x ∈ chrome.tabs.tabs_of c w ->
  exists w',
    chrome.tabs.remove (tab_id x) w = (Returns tt, w')
    /\ quiet w'
    /\ c ∈ map window_id (windows w')
    /\ chrome.tabs.tabs_of c w'
       = List.filter (fun t => negb (bool_decide (tab_id t = tab_id x)))
                     (chrome.tabs.tabs_of c w).
Proof.
  unfold quiet. intros Q Hin Hx. unfold chrome.tabs.remove, chrome_call. rewrite Q.
  rewrite bool_decide_eq_true_2.
  - eexists. split; [reflexivity |]. split; [exact Q |]. split.
    + cbn [windows set_windows]. rewrite map_map. exact Hin.
    + apply tabs_of_drop_tab.
  - destruct (tabs_of_window c w Hin) as (cw & Hcw & Htabs).
    apply (list_elem_of_fmap_2 tab_id). apply list_elem_of_In, in_concat.
    exists (window_tabs cw). split.
    + apply in_map. apply list_elem_of_In. exact Hcw.
    + apply list_elem_of_In. rewrite <- Htabs. exact Hx.
Qed.

Lemma List_filter_filter {A} (f g : A -> bool) (l : list A) :
  List.filter f (List.filter g l) = List.filter (fun x => g x && f x) l.
Proof.
  induction l as [| a l IH]; simpl; [reflexivity |].
  destruct (g a); simpl; [destruct (f a) |]; rewrite IH; reflexivity.
Qed.

Lemma List_filter_all {A} (f : A -> bool) (l : list A) :
  (forall x, f x = true) -> List.filter f l = l.
Proof.
  intros Hf. induction l as [| a l IH]; simpl; [reflexivity |].
  rewrite Hf, IH. reflexivity.
Qed.

Lemma for_of_remove_quiet c (xs : list ChromeTab) w :
  quiet w ->
  c ∈ map window_id (windows w) ->
  (forall x, x ∈ xs -> x ∈ chrome.tabs.tabs_of c w) ->
  NoDup (map tab_id xs) ->
  exists w',
    for_of xs (fun tab => chrome.tabs.remove (tab_id tab)) w = (Returns tt, w')
    /\ quiet w'
    /\ c ∈ map window_id (windows w')
    /\ chrome.tabs.tabs_of c w'
       = List.filter (fun t => negb (bool_decide (tab_id t ∈ map tab_id xs)))
                     (chrome.tabs.tabs_of c w).
Proof.
  revert w. induction xs as [| x xs IH]; intros w Q Hin Hxs Hnd; cbn [for_of map].
  - exists w. split; [reflexivity |]. split; [exact Q |]. split; [exact Hin |].
    symmetry. apply List_filter_all. intros t.
    rewrite bool_decide_eq_false_2; [reflexivity | apply not_elem_of_nil].
  - cbn [map] in Hnd. apply NoDup_cons in Hnd. destruct Hnd as [Hx Hnd].
    destruct (tabs_remove_quiet c x w Q Hin) as (w1 & E1 & Q1 & Hin1 & Htabs1).
    { apply Hxs. apply list_elem_of_here. }
    unfold bind. rewrite E1.
    destruct (IH w1 Q1 Hin1) as (w2 & E2 & Q2 & Hin2 & Htabs2).
    { intros y Hy. rewrite Htabs1. apply elem_of_List_filter. split.
      - rewrite bool_decide_eq_false_2; [reflexivity |].
        intros Heq. apply Hx. rewrite <- Heq.
        apply (list_elem_of_fmap_2 tab_id). exact Hy.
      - apply Hxs. apply list_elem_of_further. exact Hy. }
    { exact Hnd. }
    exists w2. split; [exact E2 |]. split; [exact Q2 |]. split; [exact Hin2 |].
    rewrite Htabs2, Htabs1, List_filter_filter. apply filter_ext. intros t.
    destruct (decide (tab_id t = tab_id x)) as [Heq | Hne].
    + rewrite (bool_decide_eq_true_2 (tab_id t = tab_id x)) by exact Heq.
      rewrite (bool_decide_eq_true_2 (tab_id t ∈ tab_id x :: map tab_id xs)).
      * reflexivity.
      * rewrite Heq. apply list_elem_of_here.
    + rewrite (bool_decide_eq_false_2 (tab_id t = tab_id x)) by exact Hne.
      simpl. f_equal. apply bool_decide_ext. rewrite elem_of_cons. tauto.
Qed.

Lemma filter_out_unpinned (l : list ChromeTab) :
  NoDup (map tab_id l) ->
  List.filter
    (fun t => negb (bool_decide
                      (tab_id t ∈ map tab_id
                                    (List.filter (fun tab => negb (pinned tab)) l))))
    l
  = List.filter pinned l.
Proof.
  intros Hnd. apply filter_ext_in. intros t Ht. apply list_elem_of_In in Ht.
  destruct (pinned t) eqn:Hpin.
  - rewrite bool_decide_eq_false_2; [reflexivity |].
    intros Hin. apply list_elem_of_fmap in Hin. destruct Hin as (u & Hid & Hu).
    apply elem_of_List_filter in Hu. destruct Hu as [Hunpinned Hu].
    assert (u = t) as ->.
    { apply (NoDup_map_inj_on tab_id l); [exact Hnd | exact Hu | exact Ht |].
      symmetry. exact Hid. }
    rewrite Hpin in Hunpinned. discriminate Hunpinned.
  - rewrite bool_decide_eq_true_2; [reflexivity |].
    apply (list_elem_of_fmap_2 tab_id). apply elem_of_List_filter.
    split; [rewrite Hpin; reflexivity | exact Ht].
Qed.

(** X18: on a browser that rejects nothing, [replaceTabs] with
    [closeExisting] set leaves in the current window, whose tabs have
    distinct ids, exactly its pinned tabs, in their order, followed by one
    new tab for each tab of the list, with its URL and in the list's order;
    the result names the current window and the number of tabs. *)
Theorem replaceTabs_closes_unpinned tabs closeExisting w :
  quiet w ->
  truthy closeExisting = true ->
  currentWindow w ∈ map window_id (windows w) ->
  NoDup (map tab_id (chrome.tabs.tabs_of (currentWindow w) w)) ->
  exists w' opened,
    tabService.replaceTabs tabs closeExisting w
    = (Returns {| success := true;
                  openedTabs := Z.of_nat (length tabs);
                  windowId := Some (currentWindow w) |}, w')
    /\ currentWindow w' = currentWindow w
    /\ chrome.tabs.tabs_of (currentWindow w) w'
       = List.filter pinned (chrome.tabs.tabs_of (currentWindow w) w) ++ opened
    /\ map tab_url opened = map tabService.url_string tabs.
Proof.
  intros Q Hce Hin Hnd. set (c := currentWindow w) in *.
  set (L := chrome.tabs.tabs_of c w) in *.
  destruct (for_of_remove_quiet c (List.filter (fun tab => negb (pinned tab)) L) w Q Hin)
    as (w1 & E1 & Q1 & Hin1 & Htabs1).
  { intros x Hx. apply elem_of_List_filter in Hx. destruct Hx as [_ Hx]. exact Hx. }
  { apply (NoDup_fmap_2_strong tab_id).
    - intros x y Hx Hy Heq.
      apply elem_of_List_filter in Hx, Hy. destruct Hx as [_ Hx], Hy as [_ Hy].
      apply (NoDup_map_inj_on tab_id L); assumption.
    - apply NoDup_ListNoDup. apply List.NoDup_filter. apply NoDup_ListNoDup.
      apply (NoDup_fmap_1 tab_id). exact Hnd. }
  destruct (for_of_create_quiet_in c tabs w1 Q1 Hin1)
    as (w2 & opened & E2 & Q2 & Htabs2 & Hurls).
  assert (Hcur : currentWindow w2 = c).
  { assert (Hk : preserves (fun w' => currentWindow w' = c)
                   (for_of (List.filter (fun tab => negb (pinned tab)) L)
                           (fun tab => chrome.tabs.remove (tab_id tab))
                    ;;; for_of tabs (fun tab =>
                          chrome.tabs.create c (tabService.url_string tab)))).
    { apply preserves_bind; [| intros _]; apply preserves_for_of; intros x _;
        (apply preserves_chrome_call; [intros p w' Hw'; exact Hw' |]);
        intros w' Hw'.
      - destruct (bool_decide _); exact Hw'.
      - destruct (bool_decide _); exact Hw'. }
    specialize (Hk w eq_refl). unfold bind in Hk. rewrite E1, E2 in Hk. exact Hk. }
  exists w2, opened.
  split; [| split; [exact Hcur | split; [| exact Hurls]]].
  - unfold tabService.replaceTabs, chrome.windows.getCurrent, chrome.tabs.query,
      chrome_call, bind.
    unfold quiet in Q. rewrite Q, Hce. rewrite Q. fold c. fold L.
    rewrite E1, E2. reflexivity.
  - rewrite Htabs2, Htabs1. fold L. rewrite (filter_out_unpinned L Hnd). reflexivity.
Qed.

(** The mail tab stays, the two others make room for the template's tabs. *)
Lemma replaceTabs_closes_unpinned_witness :
  exists w' opened,
    tabService.replaceTabs [news_tab] (JBool true)
      (pinned_world [])
    = (Returns {| success := true; openedTabs := 1; windowId := Some 1 |}, w')
    /\ currentWindow w' = 1%Z
    /\ chrome.tabs.tabs_of 1 w'
       = [mkChromeTab 2 "https://mail.example.com" "Mail" JUndefined false true]
         ++ opened
    /\ map tab_url opened = ["https://news.example.com"].
Proof.
  apply (replaceTabs_closes_unpinned [news_tab] (JBool true)
           (pinned_world [])).
  - reflexivity.
  - reflexivity.
  - compute_done.
  - compute_done.
Defined.

(** ** Updating a template through the manager *)

Lemma sanitizeTemplateName_clean_valid `{H : Host} n :
  isValid (validateTemplateName (JStr n)) = true ->
  sanitizeTemplateName n = strip_angle (trim n) /\ n <> "".
Proof.
  intros Hv. split.
  - unfold sanitizeTemplateName. revert Hv. unfold validateTemplateName.
    destruct (negb (truthy (JStr n))); [discriminate |].
    destruct (str_len (trim n) =? 0)%Z; [discriminate |].
    destruct (Z.gtb_spec (str_len (trim n)) UI.MAX_TEMPLATE_NAME_LENGTH) as [| Hle];
      [discriminate |].
    intros _. rewrite substring_0_all; [reflexivity |].
    unfold str_len, UI.MAX_TEMPLATE_NAME_LENGTH in *. lia.
  - intros ->. discriminate Hv.
Qed.

Section ManagerUpdate.
Context `{H : Host}.

Lemma check_all_cases {A} (xs : list A) (check : A -> option string) w :
  (check_all xs check w = (Returns tt, w) /\ forall x, x ∈ xs -> check x = None)
  \/ exists e, check_all xs check w = (Throws e, w).
Proof.
  induction xs as [| a xs IH]; simpl.
  - left. split; [reflexivity |]. intros x Hx. apply elem_of_nil in Hx. contradiction.
  - destruct (check a) as [e |] eqn:Ea; [right; exists e; reflexivity |].
    destruct IH as [[E Hall] | [e E]]; [left | right; exists e; exact E].
    split; [exact E |]. intros x Hx. apply elem_of_cons in Hx.
    destruct Hx as [-> | Hx]; [exact Ea | apply Hall; exact Hx].
Qed.

(** X19: [updateTemplate] of the manager writes a checked record or
    nothing.  When it is given a non-empty name and returns, the name has
    passed [validateTemplateName], every tab it was given has passed
    [validateTab], and the first template with the id now carries the
    trimmed name without its angle brackets and the tabs given (its own
    when none were given), and passes [validateTemplate]; when it throws,
    the store is as it was.  This holds whatever the browser answers. *)
Theorem manager_updateTemplate_cleans_name templateId updates n w :
  u_name updates = Some (JStr n) ->
  n <> "" ->
  let run := templateManager.updateTemplate templateId updates w in
  (forall b, fst run = Returns b ->
     isValid (validateTemplateName (JStr n)) = true
     /\ (forall ts tab, u_tabs updates = Some ts -> tab ∈ ts ->
                        isValid (validateTab tab) = true)
     /\ exists i T T',
          list_find (fun t => id t = templateId) (stored w) = Some (i, T)
          /\ stored (snd run) !! i = Some T'
          /\ name T' = JStr (strip_angle (trim n))
          /\ tabs T' = default (tabs T) (u_tabs updates)
          /\ isValid (validateTemplate T') = true)
  /\ (forall e, fst run = Throws e -> sync (snd run) = sync w).
Proof.
  intros Hname Hn. cbv zeta.
  destruct (isValid (validateTemplateName (JStr n))) eqn:Hv.
  2:{ assert (Erun : templateManager.updateTemplate templateId updates w
                     = (Throws (error_message (validateTemplateName (JStr n))), w)).
      { unfold templateManager.updateTemplate.
        rewrite Hname, (truthy_JStr n Hn), Hv. reflexivity. }
      rewrite Erun. cbn [fst snd]. split; [discriminate | reflexivity]. }
  set (updates' :=
         mkTemplateUpdates (u_id updates) (Some (JStr (sanitizeTemplateName n)))
           (u_description updates) (u_color updates) (u_icon updates) (u_tabs updates)
           (u_createdAt updates) (u_lastUsedAt updates) (u_usageCount updates)).
  set (check :=
         match u_tabs updates with
         | Some tabs =>
             check_all tabs (fun tab =>
               if negb (isValid (validateTab tab))
               then Some (error_message (validateTab tab)) else None)
         | None => ret tt
         end).
  set (store := storageService.updateTemplate templateId updates' ;;; ret true).
  assert (Erun : templateManager.updateTemplate templateId updates w
                 = (check ;;; store) w).
  { unfold templateManager.updateTemplate.
    rewrite Hname, (truthy_JStr n Hn), Hv. reflexivity. }
  assert (Hcheck :
            (check w = (Returns tt, w)
             /\ forall ts tab, u_tabs updates = Some ts -> tab ∈ ts ->
                               isValid (validateTab tab) = true)
            \/ exists e, check w = (Throws e, w)).
  { unfold check. destruct (u_tabs updates) as [ts |].
    - destruct (check_all_cases ts (fun tab =>
                  if negb (isValid (validateTab tab))
                  then Some (error_message (validateTab tab)) else None) w)
        as [[E Hall] | [e E]]; [left | right; exists e; exact E].
      split; [exact E |]. intros ts' tab Hts' Hin. inversion Hts'; subst ts'.
      specialize (Hall tab Hin). cbv beta in Hall.
      destruct (isValid (validateTab tab)); [reflexivity | discriminate].
    - left. split; [reflexivity | discriminate]. }
  destruct Hcheck as [[Echeck Hall] | [e Echeck]].
  2:{ assert (Erun' : templateManager.updateTemplate templateId updates w
                      = (Throws e, w)).
      { rewrite Erun. unfold bind. rewrite Echeck. reflexivity. }
      rewrite Erun'. cbn [fst snd]. split; [discriminate | reflexivity]. }
  assert (Erun' : templateManager.updateTemplate templateId updates w = store w).
  { rewrite Erun. unfold bind at 1. rewrite Echeck. reflexivity. }
  rewrite Erun'. unfold store, bind.
  destruct (updateTemplate_cases templateId updates' w)
    as [(i & T & w' & E & Hfind & Hval & Hs) | (e & w' & E & Hs)]; rewrite E;
    cbn [fst snd ret].
  - split; [| discriminate]. intros _ _.
    split; [reflexivity |]. split; [exact Hall |].
    exists i, T, (spread_template T updates').
    split; [exact Hfind |]. split.
    + rewrite Hs. apply list_lookup_insert_eq.
      apply list_find_Some in Hfind. destruct Hfind as (Hi & _).
      apply lookup_lt_Some in Hi. exact Hi.
    + split; [| split; [reflexivity | exact Hval]].
      cbn [name spread_template updates' u_name default].
      destruct (sanitizeTemplateName_clean_valid n Hv) as [-> _]. reflexivity.
  - split; [discriminate | intros _ _; exact Hs].
Qed.

End ManagerUpdate.

(** A new name typed with markup and blanks around it. *)
Lemma manager_updateTemplate_cleans_name_witness :
  let run := templateManager.updateTemplate (H := SimpleHost.host) (JStr "t1")
               (mkTemplateUpdates None (Some (JStr " <b>Office</b> ")) None None None
                                  (Some [mail_tab; news_tab]) None None None)
               (world_with [used_template; empty_template] []) in
  exists T',
    stored (snd run) !! 0%nat = Some T'
    /\ name T' = JStr "bOffice/b"
    /\ tabs T' = [mail_tab; news_tab].
Proof.
  cbv zeta.
  assert (Hn : " <b>Office</b> " <> "") by discriminate.
  destruct (manager_updateTemplate_cleans_name (H := SimpleHost.host) (JStr "t1")
              (mkTemplateUpdates None (Some (JStr " <b>Office</b> ")) None None None
                                 (Some [mail_tab; news_tab]) None None None)
              " <b>Office</b> "
              (world_with [used_template; empty_template] []) eq_refl Hn)
    as [Hret _].
  destruct (Hret true) as (_ & _ & i & T & T' & Hfind & Hi & Hname & Htabs & _);
    [vm_compute; reflexivity |].
  vm_compute in Hfind. inversion Hfind; subst.
  exists T'. split; [exact Hi |]. split; [exact Hname | exact Htabs].
Defined.

(** ** Opening tabs closes none *)

Lemma preserves_throw {A} P e : preserves P (throw (A := A) e).
Proof. intros w Hw. exact Hw. Qed.

Lemma preserves_check_all {A} P (xs : list A) (check : A -> option string) :
  preserves P (check_all xs check).
Proof.
  intros w Hw. induction xs as [| a xs IH]; simpl; [exact Hw |].
  destruct (check a); [exact Hw | exact IH].
Qed.

Lemma preserves_tab_create c t wid u :
  preserves (fun w => t ∈ chrome.tabs.tabs_of c w) (chrome.tabs.create wid u).
Proof.
  apply preserves_chrome_call.
  - intros p w Hw. exact Hw.
  - intros w Hin.
    destruct (bool_decide (wid ∈ map window_id (windows w))); simpl.
    + apply tabs_of_add_tab. exact Hin.
    + exact Hin.
Qed.

Lemma List_find_app {A} (f : A -> bool) (l1 l2 : list A) :
  List.find f (l1 ++ l2)
  = match List.find f l1 with Some x => Some x | None => List.find f l2 end.
Proof.
  induction l1 as [| a l1 IH]; simpl; [reflexivity |].
  destruct (f a); [reflexivity | exact IH].
Qed.

Lemma preserves_window_create c t u :
  preserves (fun w => t ∈ chrome.tabs.tabs_of c w) (chrome.windows.create u).
Proof.
  apply preserves_chrome_call.
  - intros p w Hw. exact Hw.
  - intros w. unfold chrome.tabs.tabs_of. cbn [snd windows set_windows].
    rewrite List_find_app.
    destruct (List.find _ (windows w)); [intros Hin; exact Hin |].
    intros Hin. apply elem_of_nil in Hin. contradiction.
Qed.

Lemma preserves_getCurrent P :
  (forall p w, P w -> P (set_pending p w)) ->
  preserves P chrome.windows.getCurrent.
Proof.
  intros Hp. apply preserves_chrome_call; [exact Hp |]. intros w Hw. exact Hw.
Qed.

(** X20: [openTabs] closes no tab unless it is asked to replace the tabs
    with [closeExisting] set.  Whatever the browser answers, and whether
    the call returns or throws, a tab that was open in some window is
    still open in that window afterwards. *)
Theorem openTabs_closes_nothing `{H : Host} tabs openBehavior closeExisting w wid t :
  (openBehavior = JStr "replace_tabs" -> truthy closeExisting = false) ->
  t ∈ chrome.tabs.tabs_of wid w ->
  t ∈ chrome.tabs.tabs_of wid
        (snd (tabService.openTabs tabs openBehavior closeExisting w)).
Proof.
  intros Hreplace. revert w.
  change (preserves (fun w => t ∈ chrome.tabs.tabs_of wid w)
            (tabService.openTabs tabs openBehavior closeExisting)).
  assert (Hloop : forall k,
            preserves (fun w => t ∈ chrome.tabs.tabs_of wid w)
              (for_of tabs (fun tab => chrome.tabs.create k (tabService.url_string tab))
               ;;; ret {| success := true;
                          openedTabs := Z.of_nat (length tabs);
                          windowId := Some k |})).
  { intros k. apply preserves_bind; [| intros _; apply preserves_ret].
    apply preserves_for_of. intros x _. apply preserves_tab_create. }
  unfold tabService.openTabs.
  destruct (Z.of_nat (length tabs) =? 0)%Z; [apply preserves_throw |].
  apply preserves_bind; [apply preserves_check_all | intros _].
  destruct (bool_decide (_ = JStr "new_window")).
  { unfold tabService.openInNewWindow. destruct tabs as [| first remaining];
      [apply preserves_throw |].
    apply preserves_bind; [apply preserves_window_create | intros k].
    apply preserves_bind; [| intros _; apply preserves_ret].
    apply preserves_for_of. intros x _. apply preserves_tab_create. }
  destruct (bool_decide (_ = JStr "current_window")).
  { unfold tabService.openInCurrentWindow.
    apply preserves_bind; [| exact Hloop].
    apply preserves_getCurrent. intros p w' Hw'. exact Hw'. }
  destruct (bool_decide (_ = JStr "replace_tabs")) eqn:Hrep; [| apply preserves_throw].
  apply bool_decide_eq_true_1 in Hrep.
  assert (Hce : truthy (if bool_decide (closeExisting = JUndefined)
                        then JBool false else closeExisting) = false).
  { destruct (bool_decide (closeExisting = JUndefined)); [reflexivity |].
    apply Hreplace. revert Hrep.
    destruct (bool_decide (openBehavior = JUndefined)); [discriminate |].
    intros ->. reflexivity. }
  unfold tabService.replaceTabs. rewrite Hce.
  apply preserves_bind; [| intros k].
  - apply preserves_getCurrent. intros p w' Hw'. exact Hw'.
  - apply preserves_bind; [apply preserves_ret | intros _]. apply Hloop.
Qed.

(** The three tabs of the window stay while two more open beside them,
    although the browser rejects the second of them. *)
Lemma openTabs_closes_nothing_witness :
  mkChromeTab 3 "https://news.example.com" "News" JUndefined false false
  ∈ chrome.tabs.tabs_of 1
      (snd (tabService.openTabs (H := SimpleHost.host) [mail_tab; news_tab]
              (JStr "replace_tabs") (JBool false)
              (pinned_world [None; None; Some "Tabs cannot be edited"]))).
Proof.
  apply (openTabs_closes_nothing (H := SimpleHost.host)).
  - intros _. reflexivity.
  - cbv. apply list_elem_of_further, list_elem_of_here.
Defined.

(** ** Import validation *)

Section ImportValidation.
Context `{H : Host}.

Lemma validateTemplates_from_isValid i ts :
  isValid (validateTemplates_from i ts)
  = forallb (fun t => isValid (validateTemplate t)) ts.
Proof.
  revert i. induction ts as [| t ts IH]; intros i; simpl; [reflexivity |].
  destruct (isValid (validateTemplate t)); simpl; [apply IH | reflexivity].
Qed.

Lemma validateTemplates_from_first i k ts t :
  ts !! k = Some t ->
  isValid (validateTemplate t) = false ->
  (forall j t', (j < k)%nat -> ts !! j = Some t' ->
                isValid (validateTemplate t') = true) ->
  validateTemplates_from i ts
  = invalid ("Template " +:+ pretty (i + k + 1)%nat +:+ ": "
               +:+ error_message (validateTemplate t)).
Proof.
  revert i k. induction ts as [| a ts IH]; intros i k Hk Hbad Hgood.
  - discriminate Hk.
  - destruct k as [| k]; simpl in Hk |- *.
    + inversion Hk; subst a. rewrite Hbad. simpl.
      replace (i + 0 + 1)%nat with (i + 1)%nat by lia. reflexivity.
    + rewrite (Hgood 0%nat a) by (try lia; reflexivity). simpl.
      rewrite (IH (S i) k Hk Hbad).
      * replace (S i + k + 1)%nat with (i + S k + 1)%nat by lia. reflexivity.
      * intros j t' Hj Ht'. apply (Hgood (S j) t'); [lia | exact Ht'].
Qed.

Lemma version_in_order (v : jsval) :
  (negb (truthy v) || negb (is_string v)) = false
  <-> exists s, v = JStr s /\ s <> "".
Proof.
  destruct v as [| | b | z | s]; simpl.
  - split; [discriminate | intros (s & Hs & _); discriminate].
  - split; [discriminate | intros (s & Hs & _); discriminate].
  - rewrite orb_true_r. split; [discriminate | intros (s & Hs & _); discriminate].
  - rewrite orb_true_r. split; [discriminate | intros (s & Hs & _); discriminate].
  - rewrite orb_false_r, negb_involutive.
    destruct (String.eqb_spec s "") as [-> | Hne]; simpl.
    + split; [discriminate | intros (s & Hs & Hne)]. inversion Hs; subst.
      contradiction.
    + split; [| reflexivity]. intros _. exists s. split; [reflexivity | exact Hne].
Qed.

(** X21: [validateImportData] accepts a document exactly when its version
    is a non-empty string and [isValidTemplatesArray] accepts its
    templates; when the version is in order and a template fails, the
    error carries the position, counted from 1, of the first template that
    [validateTemplate] rejects, and the error of that template. *)
Theorem validateImportData_agrees d :
  (isValid (validateImportData (Some d)) = true
   <-> (exists v, version d = JStr v /\ v <> "")
       /\ isValidTemplatesArray (templates d) = true)
  /\ (forall v ts k t,
        version d = JStr v -> v <> "" ->
        templates d = Some ts ->
        ts !! k = Some t ->
        isValid (validateTemplate t) = false ->
        (forall j t', (j < k)%nat -> ts !! j = Some t' ->
                      isValid (validateTemplate t') = true) ->
        validateImportData (Some d)
        = invalid ("Template " +:+ pretty (k + 1)%nat +:+ ": "
                     +:+ error_message (validateTemplate t))).
Proof.
  split.
  - unfold validateImportData, isValidTemplatesArray.
    destruct (negb (truthy (version d)) || negb (is_string (version d))) eqn:Ev.
    + split; [discriminate |]. intros [Hv _]. apply version_in_order in Hv.
      congruence.
    + apply version_in_order in Ev. destruct (templates d) as [ts |].
      * rewrite validateTemplates_from_isValid. split.
        -- intros Hall. split; [exact Ev | exact Hall].
        -- intros [_ Hall]. exact Hall.
      * split; [discriminate | intros [_ Hn]; discriminate].
  - intros v ts k t Hv Hne Hts Hk Hbad Hgood.
    unfold validateImportData.
    assert (Ev : (negb (truthy (version d)) || negb (is_string (version d))) = false).
    { apply version_in_order. exists v. split; [exact Hv | exact Hne]. }
    rewrite Ev, Hts.
    apply (validateTemplates_from_first 0 k ts t Hk Hbad Hgood).
Qed.

(** X22: whatever the browser answers, [exportData] returns, and when the
    stored templates pass [validateTemplate] the document it returns
    passes [validateImportData]: an export of checked templates can be
    imported again. *)
Theorem exportData_passes_validation w :
  (forall t, t ∈ stored w -> isValid (validateTemplate t) = true) ->
  exists d w',
    storageService.exportData w = (Returns d, w')
    /\ isValid (validateImportData (Some d)) = true.
Proof.
  intros Hall. unfold storageService.exportData, bind at 1.
  destruct (getTemplates_cases w) as (l & w1 & E1 & _ & Hl). rewrite E1.
  unfold bind, now_iso, ret. eexists _, _. split; [reflexivity |].
  unfold validateImportData. cbn [version templates]. simpl.
  rewrite validateTemplates_from_isValid. apply forallb_forall. intros t Ht.
  destruct Hl as [-> | ->].
  - apply Hall. apply list_elem_of_In. exact Ht.
  - destruct Ht.
Qed.

End ImportValidation.

(** A document whose second and third templates are damaged: the second
    one is reported. *)
Lemma validateImportData_agrees_witness :
  validateImportData (H := SimpleHost.host) (Some damaged_payload)
  = invalid "Template 2: Template name is required".
Proof.
  assert (Hne : "1.0.0" <> "") by discriminate.
  destruct (validateImportData_agrees (H := SimpleHost.host) damaged_payload)
    as [_ Hfirst].
  apply (Hfirst "1.0.0" _ 1%nat (work_template "t3" "" JNull (JNum 0))
           eq_refl Hne eq_refl eq_refl).
  - vm_compute. reflexivity.
  - intros j t' Hj Ht'. assert (j = 0%nat) as -> by lia.
    inversion Ht'; subst t'. vm_compute. reflexivity.
Defined.

(** The export of a store with two templates. *)
Lemma exportData_passes_validation_witness :
  exists d w',
    storageService.exportData (H := SimpleHost.host)
      (world_with [used_template; empty_template] []) = (Returns d, w')
    /\ isValid (validateImportData (H := SimpleHost.host) (Some d)) = true.
Proof.
  apply (exportData_passes_validation (H := SimpleHost.host)).
  intros t Ht. change (t ∈ [used_template; empty_template]) in Ht.
  rewrite !elem_of_cons in Ht.
  destruct Ht as [-> | [-> | Ht]]; [vm_compute; reflexivity ..|].
  apply elem_of_nil in Ht. contradiction.
Defined.

(** ** Helpers *)

Lemma length_append (s1 s2 : string) :
  String.length (s1 +:+ s2) = (String.length s1 + String.length s2)%nat.
Proof. induction s1 as [| c s1 IH]; simpl; [reflexivity | rewrite IH; reflexivity]. Qed.

Lemma length_substring_0_exact n s :
  (n <= String.length s)%nat -> String.length (String.substring 0 n s) = n.
Proof.
  revert s. induction n as [| n IH]; intros [| c s]; simpl; intros Hn;
    try reflexivity; try lia.
  rewrite IH by lia. reflexivity.
Qed.

Lemma substring_0_prefix n s :
  exists rest, s = String.substring 0 n s +:+ rest.
Proof.
  revert s. induction n as [| n IH]; intros [| c s]; simpl.
  - exists "". reflexivity.
  - exists (String c s). reflexivity.
  - exists "". reflexivity.
  - destruct (IH s) as [rest Hrest]. exists rest.
    change (String c s = String c (String.substring 0 n s +:+ rest)).
    rewrite <- Hrest. reflexivity.
Qed.

(** X23: with room for the ellipsis, that is for [maxLength] of 3 or
    more, [truncate] returns a string of at most [maxLength] characters:
    the string itself when it fits, and otherwise its first
    [maxLength - 3] characters followed by three dots, which makes
    [maxLength] characters exactly. *)
Theorem truncate_fits str maxLength :
  (3 <= maxLength)%Z ->
  (str_len (truncate str maxLength) <= maxLength)%Z
  /\ ((str_len str <= maxLength)%Z -> truncate str maxLength = str)
  /\ ((maxLength < str_len str)%Z ->
      str_len (truncate str maxLength) = maxLength
      /\ exists shown rest,
           str = shown +:+ rest /\ truncate str maxLength = shown +:+ "...").
Proof.
  intros Hmax. unfold truncate, str_len.
  destruct str as [| c str]; [simpl; repeat split; try lia; intros Hlt; simpl in Hlt; lia |].
  cbn [truthy negb String.eqb].
  destruct (Z.leb_spec (Z.of_nat (String.length (String c str))) maxLength)
    as [Hle | Hgt].
  - split; [exact Hle |]. split; [reflexivity | lia].
  - assert (Hlen : String.length
                     (String.substring 0 (Z.to_nat (maxLength - 3)) (String c str)
                      +:+ "...")
                   = Z.to_nat maxLength).
    { rewrite length_append, length_substring_0_exact by lia. simpl. lia. }
    split; [rewrite Hlen; lia |]. split; [lia |]. intros _.
    split; [rewrite Hlen; lia |].
    destruct (substring_0_prefix (Z.to_nat (maxLength - 3)) (String c str))
      as [rest Hrest].
    exists (String.substring 0 (Z.to_nat (maxLength - 3)) (String c str)), rest.
    split; [exact Hrest | reflexivity].
Qed.

(** A title cut to ten characters. *)
Lemma truncate_fits_witness :
  truncate "Quarterly report" 10 = "Quarter..."
  /\ (str_len (truncate "Quarterly report" 10) <= 10)%Z.
Proof.
  assert (Hmax : (3 <= 10)%Z) by lia.
  destruct (truncate_fits "Quarterly report" 10 Hmax) as (Hfits & _ & _).
  split; [reflexivity | exact Hfits].
Defined.

Lemma escape_char_safe m c :
  In c (list_ascii_of_string (escape_char m)) ->
  c <> "<"%char /\ c <> ">"%char /\ c <> "034"%char /\ c <> "'"%char.
Proof.
  unfold escape_char.
  destruct (Ascii.eqb_spec m "&"); [| destruct (Ascii.eqb_spec m "<");
    [| destruct (Ascii.eqb_spec m ">"); [| destruct (Ascii.eqb_spec m "034");
      [| destruct (Ascii.eqb_spec m "'")]]]]; simpl; intros Hin;
    repeat (destruct Hin as [<- | Hin]; [repeat split; congruence |]);
    destruct Hin.
Qed.

Lemma list_ascii_of_append (s1 s2 : string) :
  list_ascii_of_string (s1 +:+ s2)
  = list_ascii_of_string s1 ++ list_ascii_of_string s2.
Proof. induction s1 as [| c s1 IH]; simpl; [reflexivity | rewrite IH; reflexivity]. Qed.

(** X24: the text that [escapeHtml] returns contains none of the
    characters [<], [>], the double and the single quote, and no two
    strings are escaped to the same text. *)
Theorem escapeHtml_is_safe str :
  (forall c, In c (list_ascii_of_string (escapeHtml str)) ->
             c <> "<"%char /\ c <> ">"%char /\ c <> "034"%char /\ c <> "'"%char)
  /\ (forall other, escapeHtml str = escapeHtml other -> str = other).
Proof.
  split.
  - induction str as [| m str IH]; simpl; [intros c [] |].
    intros c Hin. rewrite list_ascii_of_append in Hin. apply in_app_or in Hin.
    destruct Hin as [Hin | Hin]; [apply (escape_char_safe m c Hin) | apply IH; exact Hin].
  - induction str as [| m str IH]; intros [| m' other]; simpl.
    + reflexivity.
    + unfold escape_char.
      destruct (Ascii.eqb m' "&"), (Ascii.eqb m' "<"), (Ascii.eqb m' ">"),
        (Ascii.eqb m' "034"), (Ascii.eqb m' "'"); discriminate.
    + unfold escape_char.
      destruct (Ascii.eqb m "&"), (Ascii.eqb m "<"), (Ascii.eqb m ">"),
        (Ascii.eqb m "034"), (Ascii.eqb m "'"); discriminate.
    + unfold escape_char.
      destruct (Ascii.eqb_spec m "&"); [| destruct (Ascii.eqb_spec m "<");
        [| destruct (Ascii.eqb_spec m ">"); [| destruct (Ascii.eqb_spec m "034");
          [| destruct (Ascii.eqb_spec m "'")]]]];
      (destruct (Ascii.eqb_spec m' "&"); [| destruct (Ascii.eqb_spec m' "<");
        [| destruct (Ascii.eqb_spec m' ">"); [| destruct (Ascii.eqb_spec m' "034");
          [| destruct (Ascii.eqb_spec m' "'")]]]]);
      simpl; intros Heq; inversion Heq; subst;
      try congruence; f_equal; apply IH; assumption.
Qed.

(** ** Messages to the background worker *)

Section Background.
Context `{H : Host}.

Lemma try_catch_answers {A B} (m : Async A) (f : A -> B) (g : string -> B) w :
  try_catch (a <- m ;; ret (f a)) (fun error => ret (g error)) w
  = match m w with
    | (Returns a, w') => (Returns (f a), w')
    | (Throws e, w') => (Returns (g e), w')
    end.
Proof.
  unfold try_catch, bind, ret. destruct (m w) as [[a | e] w']; reflexivity.
Qed.

(** X25: [handleMessage] always answers and never raises.  A message of
    an unknown type is answered with the error [Unknown message type] and
    changes nothing; the answer to [LAUNCH_TEMPLATE] carries the result of
    [launchTemplate], or the error it has thrown; and
    [GET_STARTUP_BEHAVIOR] is always answered with settings, the stored
    ones when the browser rejects nothing, and leaves the store alone. *)
Theorem handleMessage_always_answers request w :
  (exists r w', background.handleMessage request w = (Returns r, w'))
  /\ (r_type request ∉ [JStr "LAUNCH_TEMPLATE"; JStr "SAVE_CURRENT_TABS";
                        JStr "GET_STARTUP_BEHAVIOR"] ->
      background.handleMessage request w
      = (Returns (Failed "Unknown message type"), w))
  /\ (r_type request = JStr "LAUNCH_TEMPLATE" ->
      (forall result w',
         templateManager.launchTemplate (r_templateId request) no_options w
         = (Returns result, w') ->
         background.handleMessage request w = (Returns (Launched result), w'))
      /\ (forall e w',
            templateManager.launchTemplate (r_templateId request) no_options w
            = (Throws e, w') ->
            background.handleMessage request w = (Returns (Failed e), w')))
  /\ (r_type request = JStr "GET_STARTUP_BEHAVIOR" ->
      exists s w',
        background.handleMessage request w = (Returns (Behavior s), w')
        /\ sync w' = sync w
        /\ (quiet w -> s = default DEFAULT_SETTINGS (SETTINGS (sync w)))).
Proof.
  split; [| split; [| split]].
  - unfold background.handleMessage, background.handleLaunchTemplate,
      background.handleSaveCurrentTabs, background.handleGetStartupBehavior.
    repeat match goal with
           | |- context [if bool_decide ?P then _ else _] => destruct (bool_decide P)
           end;
      try rewrite try_catch_answers;
      try match goal with
          | |- context [match ?m w with _ => _ end] => destruct (m w) as [[a | e] w']
          end;
      eexists _, _; reflexivity.
  - intros Hnot. rewrite !not_elem_of_cons in Hnot.
    destruct Hnot as (H1 & H2 & H3 & _).
    unfold background.handleMessage.
    rewrite !bool_decide_eq_false_2 by assumption. reflexivity.
  - intros Htype. unfold background.handleMessage, background.handleLaunchTemplate.
    rewrite bool_decide_eq_true_2 by exact Htype. rewrite try_catch_answers.
    split; intros x w' E; rewrite E; reflexivity.
  - intros Htype.
    unfold background.handleMessage, background.handleGetStartupBehavior.
    rewrite Htype. cbn [bool_decide]. rewrite !bool_decide_eq_false_2 by discriminate.
    rewrite bool_decide_eq_true_2 by reflexivity. rewrite try_catch_answers.
    destruct (getSettings_cases w) as (s & w1 & E & (Fs & _) & _ & Hq). rewrite E.
    exists s, w1. split; [reflexivity |]. split; [exact Fs | exact Hq].
Qed.

End Background.

(** ** Browser startup *)

Lemma set_pending_same w : set_pending (pending w) w = w.
Proof. destruct w. reflexivity. Qed.

Lemma getSettings_runs w :
  exists s p,
    storageService.getSettings w = (Returns s, set_pending p w)
    /\ (quiet w -> s = default DEFAULT_SETTINGS (SETTINGS (sync w))).
Proof.
  unfold storageService.getSettings, try_catch, bind, chrome.storage.get,
    chrome_call, ret, deepClone, quiet.
  destruct (pending w) as [| [e |] rest] eqn:E; simpl.
  - exists (default DEFAULT_SETTINGS (SETTINGS (sync w))), [].
    rewrite <- E, set_pending_same. split; [reflexivity | intros _; reflexivity].
  - eexists _, rest. split; [reflexivity | discriminate].
  - eexists _, rest. split; [reflexivity | discriminate].
Qed.

Lemma getTemplate_runs templateId w :
  exists found p,
    storageService.getTemplate templateId w = (Returns found, set_pending p w)
    /\ (quiet w -> found = find_template templateId (stored w)).
Proof.
  unfold storageService.getTemplate, storageService.getTemplates, try_catch, bind,
    chrome.storage.get, chrome_call, ret, deepClone, quiet.
  destruct (pending w) as [| [e |] rest] eqn:E; simpl.
  - eexists _, []. rewrite <- E, set_pending_same.
    split; [reflexivity | intros _; reflexivity].
  - eexists _, rest. split; [reflexivity | discriminate].
  - eexists _, rest. split; [reflexivity | discriminate].
Qed.

Section Startup.
Context `{H : Host}.
Variable getURL : string -> string.

Lemma launch_later_answers templateId w :
  fst (startupHandler.launch_later templateId w) = Returns tt
  /\ snd (startupHandler.launch_later templateId w)
     = snd (templateManager.launchTemplate templateId no_options w).
Proof.
  unfold startupHandler.launch_later, try_catch, bind, ret.
  destruct (templateManager.launchTemplate templateId no_options w) as [[r | e] w'];
    split; reflexivity.
Qed.

Lemma autoLaunchDefault_runs templateId w :
  exists timer p,
    startupHandler.autoLaunchDefault templateId w = (Returns timer, set_pending p w)
    /\ (timer = None \/ timer = Some (startupHandler.launch_later templateId))
    /\ (quiet w ->
        timer = if truthy templateId
                then match find_template templateId (stored w) with
                     | Some _ => Some (startupHandler.launch_later templateId)
                     | None => None
                     end
                else None).
Proof.
  unfold startupHandler.autoLaunchDefault.
  destruct (truthy templateId); cbn [negb].
  - destruct (getTemplate_runs templateId w) as (found & p & E & Hq).
    unfold try_catch, bind. rewrite E.
    destruct found as [T |]; unfold ret.
    + eexists _, p. split; [reflexivity |]. split; [right; reflexivity |].
      intros Q. rewrite <- (Hq Q). reflexivity.
    + eexists _, p. split; [reflexivity |]. split; [left; reflexivity |].
      intros Q. rewrite <- (Hq Q). reflexivity.
  - exists None, (pending w). rewrite set_pending_same.
    split; [reflexivity |]. split; [left; reflexivity | intros _; reflexivity].
Qed.

(** X26: [handleStartup] is contained.  Whatever the settings and the
    answers of the browser, it returns without an error and leaves the
    store as it was; the windows are as they were, unless it has opened the
    selector page, one new tab in the current window, and then it has set
    no timer; a callback it hands to [setTimeout] never raises either. *)
Theorem handleStartup_is_contained w :
  exists timer w',
    startupHandler.handleStartup getURL w = (Returns timer, w')
    /\ sync w' = sync w
    /\ (windows w' = windows w
        \/ (timer = None
            /\ windows w'
               = map (chrome.tabs.add_tab (currentWindow w)
                        (chrome.new_tab (next_id w) (getURL "startup/startup.html")))
                     (windows w)))
    /\ (forall task, timer = Some task ->
          forall w1, exists w2, task w1 = (Returns tt, w2)).
Proof.
  unfold startupHandler.handleStartup.
  destruct (getSettings_runs w) as (s & p & E & _).
  unfold try_catch at 1. unfold bind at 1. rewrite E.
  destruct (bool_decide (startupBehavior s = JStr "show_selector")).
  { unfold startupHandler.showSelector, startupHandler.create_active, try_catch,
      bind, chrome_call, ret. cbn [pending set_pending].
    destruct p as [| [e |] rest]; cbn [currentWindow windows set_pending next_id];
      try destruct (bool_decide (currentWindow w ∈ map window_id (windows w)));
      eexists _, _; (split; [reflexivity |]); (split; [reflexivity |]);
      (split; [| discriminate]);
      first [left; reflexivity | right; split; reflexivity]. }
  destruct (bool_decide (startupBehavior s = JStr "auto_launch")).
  - destruct (autoLaunchDefault_runs (defaultTemplateId s) (set_pending p w))
      as (timer & p' & E' & Htimer & _).
    rewrite E'. exists timer, (set_pending p' (set_pending p w)).
    split; [reflexivity |]. split; [reflexivity |]. split; [left; reflexivity |].
    intros task Htask w1. destruct Htimer as [-> | ->]; [discriminate |].
    inversion Htask; subst task.
    destruct (launch_later_answers (defaultTemplateId s) w1) as [Hfst Hsnd].
    exists (snd (startupHandler.launch_later (defaultTemplateId s) w1)).
    destruct (startupHandler.launch_later (defaultTemplateId s) w1) as [o w2].
    simpl in Hfst. subst o. reflexivity.
  - exists None, (set_pending p w). split; [reflexivity |]. split; [reflexivity |].
    split; [left; reflexivity | discriminate].
Qed.

(** X27: with the startup behaviour [auto_launch], on a browser that
    rejects nothing, [handleStartup] changes nothing itself.  It sets the
    timer exactly when the default template id is set and stored, and the
    callback then does what [launchTemplate] does for that id, without
    raising its errors. *)
Theorem handleStartup_auto_launch s w :
  quiet w ->
  SETTINGS (sync w) = Some s ->
  startupBehavior s = JStr "auto_launch" ->
  exists timer,
    startupHandler.handleStartup getURL w = (Returns timer, w)
    /\ (is_Some timer
        <-> truthy (defaultTemplateId s) = true
            /\ is_Some (find_template (defaultTemplateId s) (stored w)))
    /\ (forall task w1, timer = Some task ->
          fst (task w1) = Returns tt
          /\ snd (task w1)
             = snd (templateManager.launchTemplate (defaultTemplateId s)
                      no_options w1)).
Proof.
  intros Q Hs Hb. unfold startupHandler.handleStartup.
  assert (Eset : storageService.getSettings w = (Returns s, w)).
  { rewrite (getSettings_quiet _ Q), Hs. reflexivity. }
  unfold try_catch at 1. unfold bind at 1. rewrite Eset, Hb.
  rewrite bool_decide_eq_false_2 by discriminate.
  rewrite bool_decide_eq_true_2 by reflexivity.
  destruct (autoLaunchDefault_runs (defaultTemplateId s) w)
    as (timer & p & E & _ & Hq).
  assert (Hp : set_pending p w = w).
  { assert (Hsnd : snd (startupHandler.autoLaunchDefault (defaultTemplateId s) w) = w).
    { unfold startupHandler.autoLaunchDefault.
      destruct (truthy (defaultTemplateId s)); cbn [negb]; [| reflexivity].
      unfold try_catch, bind. rewrite (getTemplate_quiet _ _ Q).
      destruct (find_template (defaultTemplateId s) (stored w)); reflexivity. }
    rewrite E in Hsnd. exact Hsnd. }
  rewrite E, Hp. exists timer. split; [reflexivity |].
  specialize (Hq Q). split.
  - rewrite Hq. destruct (truthy (defaultTemplateId s)).
    + destruct (find_template (defaultTemplateId s) (stored w)) as [T |].
      * split; [intros _; split; [reflexivity | eexists; reflexivity] |].
        intros _. eexists; reflexivity.
      * split; [intros [x Hx]; discriminate | intros [_ [x Hx]]; discriminate].
    + split; [intros [x Hx]; discriminate | intros [Hf _]; discriminate].
  - intros task w1 Htask. rewrite Hq in Htask.
    destruct (truthy (defaultTemplateId s)); [| discriminate].
    destruct (find_template (defaultTemplateId s) (stored w)); [| discriminate].
    inversion Htask; subst task. apply launch_later_answers.
Qed.

End Startup.

(** The browser starts with [t1] as the default template: the timer is
    set, and its callback opens the window of the template. *)
Lemma handleStartup_auto_launch_witness :
  exists task,
    startupHandler.handleStartup (H := SimpleHost.host) extension_page
      (auto_launch_world [used_template] [])
    = (Returns (Some task), auto_launch_world [used_template] [])
    /\ length (windows (snd (task (auto_launch_world [used_template] [])))) = 2%nat.
Proof.
  destruct (handleStartup_auto_launch (H := SimpleHost.host) extension_page
              auto_launch_settings (auto_launch_world [used_template] [])
              eq_refl eq_refl eq_refl)
    as (timer & E & Hset & Htask).
  assert (Hsome : is_Some timer).
  { apply Hset. split; [reflexivity |]. eexists. vm_compute. reflexivity. }
  destruct Hsome as [task ->]. exists task. split; [exact E |].
  destruct (Htask task (auto_launch_world [used_template] []) eq_refl) as [_ ->].
  vm_compute. reflexivity.
Defined.
